(* ===== verification/_CoqProject ===== *)
-Q . S2P
Prelude.v
Rules.v
Dice.v
Optimal.v
Greedy.v
Strategy.v
Simulator.v
Store.v
Experiments.v
Harness.v
