(* ===== verification/Prelude.v ===== *)
(** * A verification development for the Game of Hog ([src/hog.py])

    ** The program

    [src/hog.py] is one Python module.  Its parts, leaves first:
    - the rules: [roll_dice] (bust rule: any 1 makes the turn worth 1),
      [tail_points] (score of rolling zero dice), [perfect_square],
      [next_perfect_square], [square_add] and [square_update] (the
      square rule), [take_turn], [simple_update];
    - the simulator [play] and the fixed strategies [always_roll_5],
      [always_roll], [catch_up], [tail_strategy], [square_strategy],
      with the strategy tester [is_always_roll];
    - [dice_result]: the exact distribution of the outcome of rolling
      [n] dice, built from [dice_result (n-1)] with Python [Fraction]s
      and pruned with the module global [prob_cutoff];
    - the optimal solver [max_prob_calc] / [find_best_move]: a memoised
      backward induction over the states (score, opponent score), the
      memo being a 100 x 100 Python list of lists ([best_move]) that
      holds [0] for an unsolved state and [[move, probability]] for a
      solved one;
    - the greedy solver [max_score_roll]: the move maximising the expected
      score after the turn, memoised in a 100 x 100 list ([best_score])
      with [-1] for an unsolved state;
    - the strategies built on the tables: [final_strategy] and the hybrid
      [final_strategy_v05];
    - the table generators [gen_final_strategy], [gen_final_strategy_v05]
      that fill the tables and write them out as Python literals;
    - the experiment harness ([make_averaged], [max_scoring_num_rolls],
      [winner], [average_win_rate], [run_experiments]) and the command
      line [run], which sets [prob_cutoff] and runs the experiments
      against the tables the module imports.

    ** The files

    - [Prelude] (this file): Python's exceptions as the type [exn], the
      result type [result] with its bind, the state-and-error monad
      [PyM] used for code that mutates the memo tables, Python list
      indexing ([py_index], [py_store], with negative indices wrapping
      and [IndexError] out of range; [lookup2]/[update2] on grids),
      [range], [py_sum] (Python's [sum], a left fold from 0) on exact
      rationals [Qc] (Python's [Fraction]: always in lowest terms, so
      Leibniz equality is Fraction equality), the loop combinator [pfor]
      with its invariant rule [pfor_spec], the argmax step [pick] with
      its characterisation [fold_pick], and the hint databases [hog] and
      [hog_simpl].
    - [Rules]: [tail_points], [perfect_square], [next_perfect_square],
      [square_add], [roll_dice] and [take_turn] over a dice that is a
      state-passing function [D -> Z * D] (a [Section] variable),
      [simple_update], [square_update] and the fixed strategies.
      Theorems: [roll_dice] computes the bust sum of its draws, the
      bounds of a turn and its [AssertionError]s, the square rule on
      the scores where the code's float test is exact ([n < 2^52]), the
      tail points, [is_always_roll] decides constancy.
    - [Dice]: [dice_result] and its loops ([dice_step], [add_outcome],
      [normalize], [prune]).  Theorems: without pruning the distribution
      is the image of the uniform distribution on the 6^n face sequences
      under [roll_dice] (refinement) and sums to 1; for every cutoff it
      is well formed (distinct outcomes, 1 or in [2n, 6n], positive
      weights, total at most 1); an unassigned cutoff raises [NameError].
    - [Optimal]: [max_prob_calc] and [find_best_move] in the monad [PyM]
      over the memo table, and the loops of [gen_final_strategy].  The
      reference is the memo-free backward induction [opt_star]; the
      invariant [sound] says every solved cell holds the reference value.
      Theorems: refinement (the memoised solver returns [opt_star] and
      keeps the table sound), optimality with the first-index tie-break,
      the filled table, score 99, the assertion (and its missing lower
      bound) and the [NameError] of an unassigned cutoff, and the
      type of the table ([typed]: cells [0] or a count in [0..10] with a
      probability) kept by every call, sound table or not.
    - [Greedy]: [max_score_roll] and the loops of
      [gen_final_strategy_v05].  Theorems: the greedy move in closed
      form ([greedy_move]: six dice unless zero dice gain 9 points or
      more), for the exact distribution and for the script's cutoff,
      and the filled table.
    - [Strategy]: the module globals ([best_move], [best_score],
      [prob_cutoff]) as a record threaded through [final_strategy] and
      [final_strategy_v05]; the interface [Strategy] (a dice count in
      [0..10]).  [final_strategy] keeps the code's test [!= -1] and its
      [else] branch; [entry_eqb_int] is Python's [==] between an entry
      and an integer, [move_of] the subscript [entry[0]].  Theorems: the
      hybrid dispatch, the [TypeError] of [final_strategy] on an
      unsolved cell (the sentinel [-1] never matches the [0] of an
      unsolved cell), [final_strategy] on the generated table, and the
      independence of the greedy range from [best_move].
    - [Simulator]: [play]'s loop ([turn], [play_loop], the transition
      relation [step]) and the interfaces [Update] and [SixSided].
      Theorems: termination for all strategies and progressing updates,
      exactly one player at the goal when a game ends (no tie), the
      invariant on [who], the [AssertionError] of an illegal dice count,
      and [always_roll].
    - [Store]: the moves-only table [best_move_wo_prob] ([strip_probs])
      and the file [best_move.py] that [str] writes ([save_moves]); the
      import that reads it back is modelled from the spec's [load]
      ([load_moves]).  Theorems: the save/load round trip and the
      pipeline from [gen_final_strategy] to the file.  [src/hog.py]
      itself imports [best_move_w_prob], not [best_move.py].
    - [Experiments]: [make_averaged], [max_scoring_num_rolls], [winner],
      [average_win_rate] with the dice state threaded, and the
      references [avg_seq] (the averages the loop of
      [max_scoring_num_rolls] computes, in order) and [win_count] (the
      games a strategy wins in a series).  Theorems:
      [max_scoring_num_rolls] is the first argmax of its averages;
      [average_win_rate] is the fraction of the [2 n] games the strategy
      wins, first as player 0 and then as player 1.
    - [Harness]: [play] with effectful strategies ([mplay]) and
      [run_experiments] on a [world] of the globals, the dice and the
      printed lines, and the command line [run] with Python's [int]
      ([py_int]).  Theorems: a game against [final_strategy_v05], which
      fills the memo tables while it plays, ends and keeps the tables
      sound and greedy; the errors of an unvalidated sample count; on
      imported tables whose cells hold dice counts in [0..10], the
      script runs to its end without error and leaves the tables
      unchanged.

    ** Fuel and bounds

    - [find_best_move] takes a fuel; [need s o = 200 - s - o] is enough,
      because every recursive call raises the sum of the two scores by at
      least one and a call is only made below 100.  The generators use
      200, which is at least [need] of every state of the board.
    - [play_loop] takes a bound on its iterations; the measure
      [(goal - score0) + (goal - score1)] is enough, because every turn
      raises the mover's score by one point at least.  A run that hits
      the bound returns [None], and the termination theorem rules it out.
      [winner] uses the bound 200, the measure of a game from [0, 0];
      [mplay] uses the same bound and [mplay_loop_ends] shows it is
      never reached for strategies answering [0..10].

    ** Modelling choices

    - Python integers are [Z]; [//] and [%] are [Z.div] and [Z.modulo]
      (both floor division, as in Python).
    - [Fraction] is [Qc].  The float [prob_cutoff] (0.001 when the module
      runs as a script, undefined when it is imported) is an
      [option Qc]: [None] is the undefined global (reading it raises
      [NameError]), [Some c] the exact rational value of the float.
    - [perfect_square] and [next_perfect_square] compute with the float
      [score ** 0.5]; the model uses the exact integer square root
      [Z.sqrt], which is what the float expression computes on the
      non-negative integers below 2^52 (the square root of a
      non-square is then more than half a unit in the last place away
      from an integer).  Above that the two differ: the code accepts
      [2^54 + 1] as a square, and raises [OverflowError] above about
      1.8e308.  Scores stay below 200, and the instances
      [simple_update_progress] and [square_update_progress], stated for
      every score, hold of the code only in that range.
    - Python exceptions are values [Err e]; fuel exhaustion of a
      recursion is [Err RecursionError] (Python's recursion limit).
    - The memo tables are Python lists of lists, modelled as
      [list (list _)] updated by index; their rows are distinct objects
      (built by a comprehension), so updating one row in place is the
      same as replacing it in the outer list.
    - File writes are not modelled (output only); the prints of
      [run_experiments] are lines of the [world]'s output, with the
      printed numbers kept as exact values rather than float text.
    - [argparse] is a library: its result ([None], the [const] 1000 or
      the string given) is the input of [run].

    ** Not modelled

    - The text of printed floats, and the prints inside [find_best_move]
      and [max_score_roll] and of the generators (output only); a run
      that raises is modelled by its exception, without the lines it
      printed before.
    - The table with probabilities [best_move_w_prob.py]: its
      [round(float(p), 5)] needs IEEE floats; the code reads the tables
      by [import] with no validation, and [Harness] assumes only that
      their cells hold dice counts in [0..10].
    - Python's [int] limit on the number of digits (a version-dependent
      [ValueError] for very long strings).
    - The modules [dice] and [ucb]: the dice is any state-passing
      function, and [SixSided] states what [six_sided] promises.
*)

From Stdlib Require Export ZArith Lia QArith Qcanon.
From stdpp Require Export base list numbers sets.

Declare Scope py_scope.
Delimit Scope py_scope with py.
Open Scope Z_scope.

Create HintDb hog discriminated.
Create Rewrite HintDb hog_simpl.

(** ** Python exceptions and results *)

Inductive exn :=
| AssertionError
| IndexError
| NameError
| TypeError
| RecursionError
| UnboundLocalError
| ValueError
| ZeroDivisionError.

#[export] Instance exn_eq_dec : EqDecision exn.
Proof. solve_decision. Defined.

Inductive result (A : Type) : Type :=
| Ok (a : A)
| Err (e : exn).
Arguments Ok {A} a.
Arguments Err {A} e.

Definition rbind {A B} (c : result A) (k : A -> result B) : result B :=
  match c with Ok a => k a | Err e => Err e end.

Notation "'try' x <- c1 ; c2" := (rbind c1 (fun x => c2))
  (at level 10, x name, c1 at level 100, c2 at level 200) : py_scope.
Notation "'try' ' p <- c1 ; c2" := (rbind c1 (fun x => match x with p => c2 end))
  (at level 10, p pattern, c1 at level 100, c2 at level 200) : py_scope.

(** Code that reads and writes a shared Python object (a memo table):
    explicit state passing with errors. *)
Definition PyM (S A : Type) : Type := S -> result (A * S).

Definition pret {S A} (a : A) : PyM S A := fun s => Ok (a, s).
Definition pfail {S A} (e : exn) : PyM S A := fun _ => Err e.
Definition pbind {S A B} (c : PyM S A) (k : A -> PyM S B) : PyM S B :=
  fun s => match c s with Ok (a, s') => k a s' | Err e => Err e end.
Definition plift {S A} (r : result A) : PyM S A :=
  fun s => match r with Ok a => Ok (a, s) | Err e => Err e end.
Definition pget {S} : PyM S S := fun s => Ok (s, s).
Definition pput {S} (s : S) : PyM S unit := fun _ => Ok (tt, s).

Notation "'do' x <- c1 ; c2" := (pbind c1 (fun x => c2))
  (at level 10, x name, c1 at level 100, c2 at level 200) : py_scope.
Notation "'do' ' p <- c1 ; c2" := (pbind c1 (fun x => match x with p => c2 end))
  (at level 10, p pattern, c1 at level 100, c2 at level 200) : py_scope.

Open Scope py_scope.

Lemma pbind_Ok {S A B} (c : PyM S A) (k : A -> PyM S B) s a s' :
  c s = Ok (a, s') -> pbind c k s = k a s'.
Proof. unfold pbind. by intros ->. Qed.

Lemma pbind_Err {S A B} (c : PyM S A) (k : A -> PyM S B) s e :
  c s = Err e -> pbind c k s = Err e.
Proof. unfold pbind. by intros ->. Qed.

Lemma pbind_assoc {S A B C} (c : PyM S A) (k1 : A -> PyM S B) (k2 : B -> PyM S C) s :
  pbind (pbind c k1) k2 s = pbind c (fun a => pbind (k1 a) k2) s.
Proof. unfold pbind. by destruct (c s) as [[a s'] |]. Qed.

Lemma rbind_Ok {A B} (a : A) (k : A -> result B) : rbind (Ok a) k = k a.
Proof. reflexivity. Qed.

#[export] Hint Rewrite @rbind_Ok : hog_simpl.

(** ** Python lists indexed by integers *)

(** [l[i]]: a negative index counts from the end; out of range is an
    [IndexError]. *)
Definition py_norm_index (n i : Z) : Z := if i <? 0 then i + n else i.

Definition py_index {A} (l : list A) (i : Z) : result A :=
  let j := py_norm_index (Z.of_nat (length l)) i in
  if (0 <=? j) && (j <? Z.of_nat (length l)) then
    match l !! Z.to_nat j with Some x => Ok x | None => Err IndexError end
  else Err IndexError.

(** [l[i] = x], in place. *)
Definition py_store {A} (l : list A) (i : Z) (x : A) : result (list A) :=
  let j := py_norm_index (Z.of_nat (length l)) i in
  if (0 <=? j) && (j <? Z.of_nat (length l)) then Ok (<[Z.to_nat j := x]> l)
  else Err IndexError.

(** [t[i][j]] and [t[i][j] = x] on a list of lists. *)
Definition py_index2 {A} (t : list (list A)) (i j : Z) : result A :=
  try row <- py_index t i; py_index row j.

Definition py_store2 {A} (t : list (list A)) (i j : Z) (x : A) : result (list (list A)) :=
  try row <- py_index t i;
  try row' <- py_store row j x;
  py_store t i row'.

(** [range(a, b)]. *)
Definition range (a b : Z) : list Z :=
  map (fun k => a + Z.of_nat k) (seq 0 (Z.to_nat (b - a))).

(** [sum(l)] on [Fraction]s: a left fold from [0]. *)
Definition py_sum (l : list Qc) : Qc := fold_left Qcplus l 0%Qc.

(** The table is a [w] x [h] grid. *)
Definition grid {A} (w h : nat) (t : list (list A)) : Prop :=
  length t = w /\ Forall (fun row => length row = h) t.

(** ** Lemmas on Python indexing *)

Section Indexing.
Context {A : Type}.
Implicit Types (l : list A) (t : list (list A)).

(** Non-negative indices read the list directly. *)
Lemma py_index_nonneg l i :
  0 <= i ->
  py_index l i = match l !! Z.to_nat i with Some x => Ok x | None => Err IndexError end.
Proof.
  intros Hi. unfold py_index, py_norm_index.
  destruct (Z.ltb_spec i 0); [lia |].
  destruct (Z.ltb_spec i (Z.of_nat (length l))) as [Hlt | Hge];
    rewrite (proj2 (Z.leb_le 0 i) Hi); simpl; [done |].
  rewrite lookup_ge_None_2; [done | lia].
Qed.

(** A negative index counts from the end. *)
Lemma py_index_neg l i :
  - Z.of_nat (length l) <= i < 0 -> py_index l i = py_index l (i + Z.of_nat (length l)).
Proof.
  intros Hi. unfold py_index at 1, py_norm_index. rewrite (proj2 (Z.ltb_lt i 0)) by lia.
  rewrite py_index_nonneg by lia. rewrite (proj2 (Z.leb_le 0 _)), (proj2 (Z.ltb_lt _ _)) by lia.
  done.
Qed.

Lemma py_store_nonneg l i x :
  0 <= i ->
  py_store l i x =
    if bool_decide (Z.to_nat i < length l)%nat then Ok (<[Z.to_nat i := x]> l)
    else Err IndexError.
Proof.
  intros Hi. unfold py_store, py_norm_index.
  destruct (Z.ltb_spec i 0); [lia |].
  rewrite (proj2 (Z.leb_le 0 i) Hi); simpl.
  destruct (Z.ltb_spec i (Z.of_nat (length l))); case_bool_decide; done || lia.
Qed.

End Indexing.

Section Indexing2.
Context {A : Type}.
Implicit Types (l : list A) (t : list (list A)).

(** The cell [t[i][j]] as an option. *)
Definition lookup2 t (i j : nat) : option A := t !! i ≫= fun row => row !! j.

(** Updating the cell [t[i][j]]. *)
Definition update2 t (i j : nat) (x : A) : list (list A) :=
  alter (fun row => <[j := x]> row) i t.

Lemma py_index2_nonneg t i j :
  0 <= i -> 0 <= j ->
  py_index2 t i j =
    match lookup2 t (Z.to_nat i) (Z.to_nat j) with Some x => Ok x | None => Err IndexError end.
Proof.
  intros Hi Hj. unfold py_index2, lookup2.
  rewrite py_index_nonneg by done.
  destruct (t !! Z.to_nat i) as [row |]; simpl; [| done].
  by rewrite py_index_nonneg.
Qed.

Lemma py_index2_neg_row w h t i j :
  grid w h t -> - Z.of_nat w <= i < 0 -> py_index2 t i j = py_index2 t (i + Z.of_nat w) j.
Proof.
  intros [Hw _] Hi. unfold py_index2. rewrite py_index_neg; [by rewrite Hw | lia].
Qed.

Lemma py_index2_out_row w h t i j :
  grid w h t -> Z.of_nat w <= i -> py_index2 t i j = Err IndexError.
Proof.
  intros [Hw _] Hi. unfold py_index2. rewrite py_index_nonneg by lia.
  by rewrite lookup_ge_None_2 by lia.
Qed.

Lemma py_store2_grid w h t i j x :
  grid w h t -> 0 <= i < Z.of_nat w -> 0 <= j < Z.of_nat h ->
  py_store2 t i j x = Ok (update2 t (Z.to_nat i) (Z.to_nat j) x).
Proof.
  intros [Hw Hrows] Hi Hj. unfold py_store2, update2.
  rewrite py_index_nonneg by lia.
  destruct (t !! Z.to_nat i) as [row |] eqn:Hrow;
    [| apply lookup_ge_None_1 in Hrow; lia].
  simpl. rewrite py_store_nonneg by lia.
  pose proof (Forall_lookup_1 _ _ _ _ Hrows Hrow) as Hlen. simpl in Hlen.
  case_bool_decide; [| lia]. simpl.
  rewrite py_store_nonneg by lia. case_bool_decide; [| lia].
  f_equal. apply list_eq. intros k.
  destruct (decide (k = Z.to_nat i)) as [-> |].
  - rewrite list_lookup_alter_eq, list_lookup_insert_eq, Hrow by lia. done.
  - rewrite list_lookup_alter_ne, list_lookup_insert_ne by done. done.
Qed.

Lemma update2_grid w h t i j x :
  grid w h t -> grid w h (update2 t i j x).
Proof.
  intros [Hw Hrows]. split.
  - unfold update2. by rewrite length_alter.
  - apply Forall_lookup_2. intros k row. unfold update2.
    destruct (decide (i = k)) as [<- |].
    + rewrite list_lookup_alter_eq.
      destruct (t !! i) as [r |] eqn:Hr; simpl; [| done].
      intros [= <-]. rewrite length_insert.
      exact (Forall_lookup_1 _ _ _ _ Hrows Hr).
    + rewrite list_lookup_alter_ne by done.
      intros Hr. exact (Forall_lookup_1 _ _ _ _ Hrows Hr).
Qed.

Lemma lookup2_update2 t i j i' j' x :
  lookup2 (update2 t i j x) i' j' =
    if bool_decide (i = i' /\ j = j') then (if lookup2 t i j then Some x else None)
    else lookup2 t i' j'.
Proof.
  unfold lookup2, update2.
  destruct (decide (i = i')) as [<- |].
  - rewrite list_lookup_alter_eq.
    destruct (t !! i) as [row |]; simpl; [| by case_bool_decide].
    destruct (decide (j = j')) as [<- |].
    + rewrite bool_decide_true by done.
      destruct (row !! j) eqn:E; simpl.
      * apply list_lookup_insert_eq. eapply lookup_lt_Some; eauto.
      * rewrite list_insert_ge; [done |]. by apply lookup_ge_None_1.
    + rewrite bool_decide_false by naive_solver.
      by rewrite list_lookup_insert_ne.
  - rewrite bool_decide_false by naive_solver.
    by rewrite list_lookup_alter_ne.
Qed.

Lemma grid_lookup2 w h t i j :
  grid w h t -> (i < w)%nat -> (j < h)%nat -> is_Some (lookup2 t i j).
Proof.
  intros [Hw Hrows] Hi Hj. unfold lookup2.
  destruct (lookup_lt_is_Some_2 t i) as [row Hrow]; [lia |].
  rewrite Hrow. simpl. apply lookup_lt_is_Some_2.
  rewrite (Forall_lookup_1 _ _ _ _ Hrows Hrow). done.
Qed.

(** [[[x] * h for _ in range(w)]]. *)
Lemma grid_replicate w h (x : A) : grid w h (replicate w (replicate h x)).
Proof.
  split; [by rewrite length_replicate |].
  apply Forall_replicate. by rewrite length_replicate.
Qed.

Lemma lookup2_replicate w h (x : A) i j :
  (i < w)%nat -> (j < h)%nat -> lookup2 (replicate w (replicate h x)) i j = Some x.
Proof.
  intros Hi Hj. unfold lookup2. rewrite lookup_replicate_2 by done. simpl.
  by rewrite lookup_replicate_2.
Qed.
End Indexing2.

(** ** Sums of fractions *)

Lemma fold_left_Qcplus_acc (l : list Qc) (a : Qc) :
  fold_left Qcplus l a = (a + fold_left Qcplus l 0)%Qc.
Proof.
  revert a. induction l as [| x l IH]; intros a; simpl.
  - by rewrite Qcplus_0_r.
  - rewrite IH, (IH (0 + x)%Qc), Qcplus_0_l. symmetry. apply Qcplus_assoc.
Qed.

Lemma py_sum_nil : py_sum [] = 0%Qc.
Proof. reflexivity. Qed.

Lemma py_sum_cons (x : Qc) l : py_sum (x :: l) = (x + py_sum l)%Qc.
Proof. unfold py_sum. simpl. by rewrite fold_left_Qcplus_acc, Qcplus_0_l. Qed.

Lemma py_sum_app (l1 l2 : list Qc) : py_sum (l1 ++ l2) = (py_sum l1 + py_sum l2)%Qc.
Proof.
  induction l1 as [| x l1 IH]; simpl.
  - by rewrite py_sum_nil, Qcplus_0_l.
  - by rewrite !py_sum_cons, IH, Qcplus_assoc.
Qed.

#[export] Hint Rewrite py_sum_nil py_sum_cons py_sum_app : hog_simpl.

Lemma py_sum_nonneg (l : list Qc) :
  Forall (fun q => 0 <= q)%Qc l -> (0 <= py_sum l)%Qc.
Proof.
  induction 1; rewrite ?py_sum_cons; [done |].
  by apply Qcplus_nonneg_nonneg.
Qed.

Lemma py_sum_map_scale {B} (f : B -> Qc) (c : Qc) (l : list B) :
  py_sum (map (fun x => c * f x)%Qc l) = (c * py_sum (map f l))%Qc.
Proof.
  induction l as [| x l IH]; simpl; autorewrite with hog_simpl.
  - by rewrite Qcmult_0_r.
  - by rewrite IH, Qcmult_plus_distr_r.
Qed.

Lemma py_sum_map_ext {B} (f g : B -> Qc) (l : list B) :
  (forall x, In x l -> f x = g x) -> py_sum (map f l) = py_sum (map g l).
Proof. intros H. f_equal. by apply map_ext_in. Qed.

Lemma py_sum_flat_map {B C} (f : C -> Qc) (g : B -> list C) (l : list B) :
  py_sum (map f (flat_map g l)) = py_sum (map (fun x => py_sum (map f (g x))) l).
Proof.
  induction l as [| x l IH]; simpl; [done |].
  by rewrite map_app, py_sum_app, py_sum_cons, IH.
Qed.

Lemma range_0_S (n : nat) :
  range 0 (Z.of_nat (S n)) = range 0 (Z.of_nat n) ++ [Z.of_nat n].
Proof.
  unfold range. rewrite !Z.sub_0_r, !Nat2Z.id, seq_S, map_app. simpl. done.
Qed.

Lemma fold_left_cons {A B} (f : A -> B -> A) x l a :
  fold_left f (x :: l) a = fold_left f l (f a x).
Proof. reflexivity. Qed.

Lemma range_0_11 : range 0 11 = 0 :: range 1 11.
Proof. reflexivity. Qed.

Lemma range_1_11 : range 1 11 = 1 :: range 2 11.
Proof. reflexivity. Qed.

Lemma in_range (a b x : Z) : In x (range a b) <-> a <= x < b.
Proof.
  unfold range. rewrite in_map_iff. split.
  - intros (k & <- & Hk). apply in_seq in Hk. lia.
  - intros Hx. exists (Z.to_nat (x - a)). rewrite in_seq. lia.
Qed.

(** The board loops [for i in reversed(range(100))]. *)
Lemma in_board x : In x (rev (range 0 100)) -> 0 <= x < 100.
Proof. by intros Hx%in_rev%in_range. Qed.

Lemma board_in x : 0 <= x < 100 -> In x (rev (range 0 100)).
Proof. intros Hx. apply (proj1 (in_rev _ _)), in_range. lia. Qed.

Lemma fold_left_invariant {A B} (P : A -> Prop) (f : A -> B -> A) (l : list B) (a : A) :
  P a -> (forall x acc, In x l -> P acc -> P (f acc x)) -> P (fold_left f l a).
Proof.
  revert a. induction l as [| x l IH]; intros a Ha Hf; simpl; [done |].
  apply IH; [apply Hf; [left |] | intros; apply Hf; [right |]]; done.
Qed.

(** [6 ^ n] as a fraction. *)
Definition pow6 (n : nat) : Qc := Qc_of_Z (6 ^ Z.of_nat n).

Lemma pow6_S n : pow6 (S n) = (Qc_of_Z 6 * pow6 n)%Qc.
Proof. unfold pow6. rewrite <- Z2Qc_inj_mul. f_equal. rewrite Nat2Z.inj_succ, Z.pow_succ_r; lia. Qed.

Lemma pow6_pos n : (0 < pow6 n)%Qc.
Proof.
  unfold pow6. rewrite <- Z2Qc_inj_0. apply (proj1 (Z2Qc_inj_lt _ _)). apply Z.pow_pos_nonneg; lia.
Qed.

Lemma Qc_of_Z_6 : Qc_of_Z 6 <> 0%Qc.
Proof. rewrite <- Z2Qc_inj_0. intros ?%Z2Qc_inj. lia. Qed.

(** Two fractions given by closed terms are equal when their reduced
    forms are: compare the underlying [Q] by evaluation (the proofs of
    canonicity inside [Qc] do not compute). *)
Ltac qc_eval := apply Qc_decomp; vm_compute; reflexivity.

(** One step of table code: [x = table] then [y = <lifted result>], or
    [table = x] then [y = <lifted result>]. *)
Ltac py_read := unfold pbind at 1, pget at 1; unfold pbind at 1, plift at 1.
Ltac py_write := unfold pbind at 1, pput at 1; unfold pbind at 1, plift at 1.

Lemma pow6_neq0 n : pow6 n <> 0%Qc.
Proof. intros H. pose proof (pow6_pos n) as Hp. rewrite H in Hp. by apply (Qclt_not_eq 0 0). Qed.

Lemma Qc_one_minus_bounds (x : Qc) : (0 <= x <= 1)%Qc -> (0 <= 1 - x <= 1)%Qc.
Proof.
  intros [H0 H1]. unfold Qcminus. split.
  - rewrite <- (Qcplus_opp_r x). by apply Qcplus_le_mono_r.
  - rewrite <- (Qcplus_0_r 1) at 2. apply Qcplus_le_mono_l.
    replace 0%Qc with (- 0)%Qc by qc_eval. by apply Qcopp_le_compat.
Qed.

Lemma Qc_of_Z_pos n : 0 < n -> (0 < Qc_of_Z n)%Qc.
Proof. intros Hn. rewrite <- Z2Qc_inj_0. by apply (proj1 (Z2Qc_inj_lt 0 n)). Qed.

(** An average of [n] values in [[lo, hi]] lies in [[lo, hi]]. *)
Lemma Qc_div_bounds lo hi s n :
  0 < n -> lo * n <= s <= hi * n -> (Qc_of_Z lo <= Qc_of_Z s / Qc_of_Z n <= Qc_of_Z hi)%Qc.
Proof.
  intros Hn [Hlo Hhi]. pose proof (Qc_of_Z_pos n Hn) as HN.
  assert (HN0 : Qc_of_Z n <> 0%Qc) by (intros E; rewrite E in HN; by apply Qclt_not_eq in HN).
  assert (Hk : forall k, Qc_of_Z k = (Qc_of_Z (k * n) / Qc_of_Z n)%Qc).
  { intros k. rewrite Z2Qc_inj_mul. by field. }
  rewrite (Hk lo), (Hk hi). unfold Qcdiv.
  split; apply Qcmult_le_mono_nonneg_r;
    [apply Qclt_le_weak, Qcinv_pos, HN | apply (proj1 (Z2Qc_inj_le _ _)); lia
    | apply Qclt_le_weak, Qcinv_pos, HN | apply (proj1 (Z2Qc_inj_le _ _)); lia].
Qed.

(** One weighted outcome added to a partial sum: a value in [[0, 1]]
    weighted by [p] adds at most [p]. *)
Lemma Qc_weighted_step (t p x S : Qc) :
  (0 <= t <= 1)%Qc -> (0 <= p)%Qc -> (0 <= x <= S)%Qc -> (0 <= t * p + x <= p + S)%Qc.
Proof.
  intros [Ht0 Ht1] Hp [Hx0 HxS]. split.
  - apply Qcplus_nonneg_nonneg; [by apply Qcmult_nonneg_nonneg | done].
  - apply Qcplus_le_compat; [| done].
    rewrite <- (Qcmult_1_l p) at 2. by apply Qcmult_le_mono_nonneg_r.
Qed.

(** [for x in l: body(x)] on a shared state. *)
Fixpoint pfor {S A} (l : list A) (body : A -> PyM S unit) : PyM S unit :=
  match l with
  | [] => pret tt
  | x :: rest => do _ <- body x; pfor rest body
  end.

(** A loop whose body keeps [I], moves the state along the preorder [R],
    and establishes a postcondition [Q x] that [R] preserves, ends with
    [Q x] for every [x] of the list. *)
Lemma pfor_spec {S A} (I : S -> Prop) (R : S -> S -> Prop) (Q : A -> S -> Prop)
    (l : list A) (body : A -> PyM S unit) (s : S) :
  (forall s, R s s) -> (forall s1 s2 s3, R s1 s2 -> R s2 s3 -> R s1 s3) ->
  (forall x s1 s2, Q x s1 -> R s1 s2 -> Q x s2) ->
  (forall x s, In x l -> I s -> exists s', body x s = Ok (tt, s') /\ I s' /\ R s s' /\ Q x s') ->
  I s ->
  exists s', pfor l body s = Ok (tt, s') /\ I s' /\ R s s' /\ forall x, In x l -> Q x s'.
Proof.
  intros Hrefl Htrans HQ Hbody. revert s.
  induction l as [| x l IH]; intros s Hs; [exists s; simpl; intuition |].
  destruct (Hbody x s (or_introl eq_refl) Hs) as (s1 & Hb & Hs1 & HR1 & HQ1).
  destruct (IH (fun x s H => Hbody x s (or_intror H)) s1 Hs1) as (s2 & Hl & Hs2 & HR2 & HQ2).
  exists s2. cbn [pfor]. rewrite (pbind_Ok _ _ _ _ _ Hb). split; [done |].
  split; [done | split; [eauto |]]. intros y [<- | Hy]; eauto.
Qed.

(** A decomposition of [range 0 n] around [x] has [range 0 x] before it. *)
Lemma range_split (n : nat) pre x post :
  range 0 (Z.of_nat n) = pre ++ x :: post -> pre = range 0 x /\ 0 <= x < Z.of_nat n.
Proof.
  revert pre x post. induction n as [| n IH]; intros pre x post H.
  { destruct pre; discriminate. }
  rewrite range_0_S in H. destruct post as [| y post' _] using rev_ind.
  - apply app_inj_tail in H as [Hp Hx]. subst. split; [done | lia].
  - rewrite app_comm_cons, app_assoc in H. apply app_inj_tail in H as [H _].
    destruct (IH pre x post' H) as [? ?]. split; [done | lia].
Qed.

(** ** The first strict maximum of a loop over candidates

    [if value > best: best, best_move = value, candidate]: a later
    candidate replaces the best only when strictly better. *)
Definition pick (val : Z -> Qc) (best : Z * Qc) (m : Z) : Z * Qc :=
  if bool_decide (best.2 < val m)%Qc then (m, val m) else best.

Section PickFold.
Context (val : Z -> Qc).

Lemma fold_pick ms best :
  let r := fold_left (pick val) ms best in
  (best.2 <= r.2)%Qc /\ Forall (fun m => val m <= r.2)%Qc ms /\
  (r = best \/ exists pre post, ms = pre ++ r.1 :: post /\ r.2 = val r.1 /\
                (best.2 < r.2)%Qc /\ Forall (fun m => val m < r.2)%Qc pre).
Proof.
  revert best. induction ms as [| m ms IH]; intros best; simpl; [split; [apply Qcle_refl | auto] |].
  destruct (IH (pick val best m)) as (Hle & Hall & Hcase).
  unfold pick in *. case_bool_decide as Hlt; simpl in *.
  - split; [eapply Qcle_trans; [apply Qclt_le_weak, Hlt | done] |].
    split; [by constructor |]. right.
    destruct Hcase as [-> | (pre & post & Hms & Hv & Hgt & Hpre)].
    + exists [], ms. simpl. auto.
    + exists (m :: pre), post. split; [simpl; f_equal; exact Hms |]. split; [done |].
      split; [by eapply Qclt_trans | by constructor].
  - apply Qcnot_lt_le in Hlt.
    split; [done |]. split; [constructor; [by eapply Qcle_trans | done] |].
    destruct Hcase as [-> | (pre & post & Hms & Hv & Hgt & Hpre)]; [by left |].
    right. exists (m :: pre), post. split; [simpl; f_equal; exact Hms |]. split; [done |].
    split; [done | constructor; [by eapply Qcle_lt_trans | done]].
Qed.
End PickFold.
