(* ===== verification/Rules.v ===== *)
(** * Rules: the turn rules of Hog and the fixed strategies

    [tail_points], [perfect_square], [next_perfect_square], [square_add]
    are pure functions of [src/hog.py].  [roll_dice], [take_turn],
    [simple_update] and [square_update] call the dice, a zero-argument
    Python function with hidden state; here the dice is a [Context]
    variable [dice : D -> Z * D] that returns the outcome and the next
    dice state, threaded explicitly. *)

From S2P Require Import Prelude.

Definition GOAL : Z := 100.

(** ** Pig Tail *)

Definition tail_points (opponent_score : Z) : Z :=
  let ones := opponent_score mod 10 in
  let tens := (opponent_score / 10) mod 10 in
  2 * Z.abs (tens - ones) + 1.

(** ** Square Swine *)

(** [(score ** 0.5) % 1 == 0], with the exact integer square root. *)
Definition perfect_square (score : Z) : bool :=
  Z.sqrt score * Z.sqrt score =? score.

(** [(int(score ** 0.5) + 1) ** 2]. *)
Definition next_perfect_square (score : Z) : Z :=
  (Z.sqrt score + 1) ^ 2.

Definition square_add (score roll_sum : Z) : Z :=
  let score := score + roll_sum in
  if perfect_square score then next_perfect_square score else score.

(** ** Turns, with the dice as explicit state *)

Section WithDice.
Context {D : Type} (dice : D -> Z * D).

(** The loop of [roll_dice]: [sum] and [one_rolled] after [k] more rolls. *)
Fixpoint roll_loop (k : nat) (sum : Z) (one_rolled : bool) (d : D) : Z * bool * D :=
  match k with
  | O => (sum, one_rolled, d)
  | S k' =>
      let (roll, d') := dice d in
      roll_loop k' (sum + roll) (one_rolled || (roll =? 1)) d'
  end.

Definition roll_dice (num_rolls : Z) (d : D) : result (Z * D) :=
  if num_rolls <=? 0 then Err AssertionError
  else
    let '(sum, one_rolled, d') := roll_loop (Z.to_nat num_rolls) 0 false d in
    Ok (if one_rolled then 1 else sum, d').

Definition take_turn (num_rolls opponent_score : Z) (d : D) : result (Z * D) :=
  if (num_rolls <? 0) || (10 <? num_rolls) then Err AssertionError
  else if num_rolls =? 0 then Ok (tail_points opponent_score, d)
  else roll_dice num_rolls d.

Definition simple_update (num_rolls player_score opponent_score : Z) (d : D)
  : result (Z * D) :=
  try '(pts, d') <- take_turn num_rolls opponent_score d;
  Ok (player_score + pts, d').

Definition square_update (num_rolls player_score opponent_score : Z) (d : D)
  : result (Z * D) :=
  try '(pts, d') <- take_turn num_rolls opponent_score d;
  let score := player_score + pts in
  Ok (if perfect_square score then next_perfect_square score else score, d').

(** The outcomes the dice produces in [k] calls, and the state after. *)
Fixpoint draws (k : nat) (d : D) : list Z * D :=
  match k with
  | O => ([], d)
  | S k' => let (r, d') := dice d in
            let (rs, d'') := draws k' d' in (r :: rs, d'')
  end.
End WithDice.

(** What [roll_dice] promises: the sum of the outcomes, or 1 if one of
    them is a 1. *)
Definition bust_sum (rolls : list Z) : Z :=
  if existsb (Z.eqb 1) rolls then 1 else fold_right Z.add 0 rolls.

(** ** Strategies *)

Definition always_roll_5 (score opponent_score : Z) : Z := 5.

Definition always_roll (n : Z) : result (Z -> Z -> Z) :=
  if (0 <=? n) && (n <=? 10) then Ok (fun score opponents_score => n)
  else Err AssertionError.

Definition catch_up (score opponent_score : Z) : Z :=
  if score <? opponent_score then 6 else 5.

Definition tail_strategy (score opponent_score threshold num_rolls : Z) : Z :=
  if threshold <=? tail_points opponent_score then 0 else num_rolls.

(** [square_update(0, score, opponent_score) - score >= threshold]; with
    zero dice [square_update] is [square_add] of the tail points
    (lemma [square_update_zero] below). *)
Definition square_strategy (score opponent_score threshold num_rolls : Z) : Z :=
  if threshold <=? square_add score (tail_points opponent_score) - score then 0
  else num_rolls.

(** [is_always_roll]: the two nested [while] loops over
    [0 <= score < goal] and [0 <= opponent_score < goal]. *)
Definition is_always_roll (strategy : Z -> Z -> Z) (goal : Z) : bool :=
  let past_roll := strategy 0 0 in
  forallb (fun score =>
    forallb (fun opponent_score => strategy score opponent_score =? past_roll)
      (range 0 goal))
    (range 0 goal).

(** ** Lemmas *)

Lemma roll_loop_draws {D} (dice : D -> Z * D) k sum b d :
  roll_loop dice k sum b d =
    (sum + fold_right Z.add 0 (draws dice k d).1,
     b || existsb (Z.eqb 1) (draws dice k d).1,
     (draws dice k d).2).
Proof.
  revert sum b d. induction k as [| k IH]; intros sum b d; simpl.
  - by rewrite Z.add_0_r, orb_false_r.
  - destruct (dice d) as [r d']. rewrite IH.
    destruct (draws dice k d') as [rs d'']. simpl.
    rewrite Z.eqb_sym, orb_assoc. f_equal. f_equal. lia.
Qed.

Lemma draws_length {D} (dice : D -> Z * D) k d : length (draws dice k d).1 = k.
Proof.
  revert d. induction k as [| k IH]; intros d; simpl; [done |].
  destruct (dice d) as [r d']. specialize (IH d').
  destruct (draws dice k d') as [rs d'']. simpl in *. by rewrite IH.
Qed.

Lemma draws_range {D} (dice : D -> Z * D) k d :
  (forall d, 1 <= (dice d).1 <= 6) -> Forall (fun r => 1 <= r <= 6) (draws dice k d).1.
Proof.
  intros Hd. revert d. induction k as [| k IH]; intros d; simpl; [done |].
  pose proof (Hd d) as Hr. destruct (dice d) as [r d']. specialize (IH d').
  destruct (draws dice k d') as [rs d'']. simpl in *. by constructor.
Qed.

(** A bust-free sum of [k] faces in [2..6] lies in [[2k, 6k]]. *)
Lemma sum_no_bust_range (rolls : list Z) :
  Forall (fun r => 1 <= r <= 6) rolls -> existsb (Z.eqb 1) rolls = false ->
  2 * Z.of_nat (length rolls) <= fold_right Z.add 0 rolls <= 6 * Z.of_nat (length rolls).
Proof.
  induction 1 as [| r rs Hr Hrs IH]; [simpl; lia |].
  cbn [existsb fold_right length]. intros [H1 Hrest]%orb_false_iff.
  apply Z.eqb_neq in H1. specialize (IH Hrest). lia.
Qed.

Lemma bust_sum_range (rolls : list Z) :
  Forall (fun r => 1 <= r <= 6) rolls ->
  bust_sum rolls = 1 \/
  2 * Z.of_nat (length rolls) <= bust_sum rolls <= 6 * Z.of_nat (length rolls).
Proof.
  intros H. unfold bust_sum. destruct (existsb (Z.eqb 1) rolls) eqn:E; [by left |].
  right. by apply sum_no_bust_range.
Qed.

Lemma square_add_cases (s r : Z) :
  square_add s r = s + r /\ perfect_square (s + r) = false \/
  square_add s r = next_perfect_square (s + r) /\ perfect_square (s + r) = true.
Proof. unfold square_add. destruct (perfect_square (s + r)); auto. Qed.

Lemma next_perfect_square_gt (n : Z) : 0 <= n -> n < next_perfect_square n.
Proof.
  intros Hn. unfold next_perfect_square.
  pose proof (Z.sqrt_spec n Hn) as [_ H]. rewrite Z.pow_2_r. lia.
Qed.

Lemma square_add_ge (s r : Z) : 0 <= s + r -> s + r <= square_add s r.
Proof.
  intros H. destruct (square_add_cases s r) as [[-> _] | [-> _]]; [lia |].
  pose proof (next_perfect_square_gt (s + r) H). lia.
Qed.

#[export] Hint Resolve square_add_ge next_perfect_square_gt : hog.

Lemma tail_points_bounds (o : Z) : 1 <= tail_points o <= 19.
Proof.
  unfold tail_points.
  pose proof (Z.mod_pos_bound o 10 ltac:(lia)).
  pose proof (Z.mod_pos_bound (o / 10) 10 ltac:(lia)). lia.
Qed.

Lemma tail_points_pos (o : Z) : 1 <= tail_points o.
Proof. apply tail_points_bounds. Qed.

(** With a six-sided dice, rolling [n > 0] dice scores 1 or a sum in
    [[2n, 6n]]. *)
Lemma roll_dice_outcome {D} (dice : D -> Z * D) (n : Z) (d : D) :
  (forall d, 1 <= (dice d).1 <= 6) -> 0 < n ->
  exists pts d', roll_dice dice n d = Ok (pts, d') /\ (pts = 1 \/ 2 * n <= pts <= 6 * n).
Proof.
  intros Hd Hn. unfold roll_dice. rewrite (proj2 (Z.leb_gt n 0)) by done.
  rewrite roll_loop_draws. cbn [orb].
  pose proof (bust_sum_range _ (draws_range dice (Z.to_nat n) d Hd)) as Hb.
  rewrite draws_length, Z2Nat.id in Hb by lia. unfold bust_sum in Hb.
  do 2 eexists. split; [reflexivity |].
  destruct (existsb _ _); [by left | rewrite Z.add_0_l; lia].
Qed.

#[export] Hint Resolve tail_points_pos : hog.

(** ** Properties *)


(** C19: on the scores where the float test [(score ** 0.5) % 1 == 0]
    is exact ([0 <= n < 2^52]: [n] is a float and a non-square's root
    is more than half a unit in the last place from every integer),
    [perfect_square] holds exactly of the squares of integers, and on a
    square [n] the rule moves to the least perfect square above [n].
    Above that range the code's float test differs (it accepts
    [2^54 + 1]), so no claim is made there. *)
Theorem square_rule_spec (n : Z) :
  0 <= n < 2 ^ 52 ->
  (perfect_square n = true <-> exists k, 0 <= k /\ k * k = n) /\
  (perfect_square n = true ->
   n < next_perfect_square n /\
   (exists k, next_perfect_square n = k * k) /\
   forall m, 0 <= m -> n < m * m -> next_perfect_square n <= m * m).
Proof.
  intros [Hn _]. unfold perfect_square, next_perfect_square.
  pose proof (Z.sqrt_spec n Hn) as [Hlo Hhi].
  pose proof (Z.sqrt_nonneg n).
  split; [split |].
  - intros Hsq%Z.eqb_eq. exists (Z.sqrt n). lia.
  - intros (k & Hk & <-). rewrite Z.sqrt_square by done. apply Z.eqb_refl.
  - intros Hsq%Z.eqb_eq. rewrite Z.pow_2_r. split; [lia | split; [eauto |]].
    intros m Hm Hlt.
    assert (Z.sqrt n < m) by (destruct (Z.le_gt_cases m (Z.sqrt n)); [nia | lia]).
    nia.
Qed.

(** C12: [roll_dice] returns the sum of the [num_rolls] outcomes it draws
    from the dice, or 1 when one of them is a 1, and leaves the dice
    after those draws; it refuses a non-positive count. *)
Theorem roll_dice_spec {D} (dice : D -> Z * D) (num_rolls : Z) (d : D) :
  roll_dice dice num_rolls d =
    if num_rolls <=? 0 then Err AssertionError
    else Ok (bust_sum (draws dice (Z.to_nat num_rolls) d).1,
             (draws dice (Z.to_nat num_rolls) d).2).
Proof.
  unfold roll_dice. destruct (num_rolls <=? 0); [done |].
  rewrite roll_loop_draws. simpl. unfold bust_sum. by destruct (existsb _ _).
Qed.

(** C13: with a six-sided dice, a turn scores between 1 and 60 points,
    and rolling [k > 0] dice scores 1 or at least [2k]; a dice count
    outside [0..10] is refused. *)
Theorem take_turn_range {D} (dice : D -> Z * D) (num_rolls opponent_score : Z) (d : D) :
  (forall d, 1 <= (dice d).1 <= 6) ->
  match take_turn dice num_rolls opponent_score d with
  | Ok (pts, _) =>
      0 <= num_rolls <= 10 /\ 1 <= pts <= 60 /\
      (num_rolls = 0 \/ pts = 1 \/ 2 * num_rolls <= pts <= 6 * num_rolls)
  | Err e => e = AssertionError /\ (num_rolls < 0 \/ 10 < num_rolls)
  end.
Proof.
  intros Hd. unfold take_turn.
  destruct (Z.ltb_spec num_rolls 0), (Z.ltb_spec 10 num_rolls); simpl; try by split; [| lia].
  destruct (Z.eqb_spec num_rolls 0) as [-> |].
  { pose proof (tail_points_bounds opponent_score). lia. }
  destruct (roll_dice_outcome dice num_rolls d Hd) as (pts & d' & -> & [-> | ?]); lia.
Qed.

Lemma square_update_zero {D} (dice : D -> Z * D) (p o : Z) (d : D) :
  square_update dice 0 p o d = Ok (square_add p (tail_points o), d).
Proof. reflexivity. Qed.

(** C21: [is_always_roll] answers whether the strategy picks the same
    dice count on every state of the board [0 <= score, opponent_score < goal]. *)
Theorem is_always_roll_spec (strategy : Z -> Z -> Z) (goal : Z) :
  is_always_roll strategy goal = true <->
  forall s o, 0 <= s < goal -> 0 <= o < goal -> strategy s o = strategy 0 0.
Proof.
  unfold is_always_roll. rewrite forallb_forall. setoid_rewrite forallb_forall.
  setoid_rewrite in_range. setoid_rewrite Z.eqb_eq. naive_solver.
Qed.

(** ** The properties at concrete inputs *)

(** A dice that cycles through the faces. *)
Definition cycling_dice (d : Z) : Z * Z := (d mod 6 + 1, d + 1).

Lemma square_rule_spec_witness :
  0 <= 16 < 2 ^ 52 /\ perfect_square 16 = true /\ next_perfect_square 16 = 25 /\
  ((perfect_square 16 = true <-> exists k, 0 <= k /\ k * k = 16) /\
   (perfect_square 16 = true ->
    16 < next_perfect_square 16 /\ (exists k, next_perfect_square 16 = k * k) /\
    forall m, 0 <= m -> 16 < m * m -> next_perfect_square 16 <= m * m)).
Proof.
  split; [lia | split; [reflexivity | split; [reflexivity |]]].
  apply (square_rule_spec 16). lia.
Defined.

Lemma take_turn_range_witness :
  (forall d, 1 <= (cycling_dice d).1 <= 6) /\
  take_turn cycling_dice 3 42 7 = Ok (9, 10) /\
  match take_turn cycling_dice 3 42 7 with
  | Ok (pts, _) =>
      0 <= 3 <= 10 /\ 1 <= pts <= 60 /\ (3 = 0 \/ pts = 1 \/ 2 * 3 <= pts <= 6 * 3)
  | Err e => e = AssertionError /\ (3 < 0 \/ 10 < 3)
  end.
Proof.
  assert (Hd : forall d, 1 <= (cycling_dice d).1 <= 6).
  { intros d. unfold cycling_dice. cbn [fst]. pose proof (Z.mod_pos_bound d 6). lia. }
  split; [exact Hd | split; [reflexivity | apply (take_turn_range cycling_dice 3 42 7 Hd)]].
Defined.

Lemma is_always_roll_spec_witness :
  is_always_roll always_roll_5 GOAL = true /\ always_roll_5 42 17 = always_roll_5 0 0.
Proof.
  assert (H : is_always_roll always_roll_5 GOAL = true) by (vm_compute; reflexivity).
  split; [exact H | apply (proj1 (is_always_roll_spec always_roll_5 GOAL) H); unfold GOAL; lia].
Defined.
