(* ===== verification/Dice.v ===== *)
(** * Dice: the exact outcome distribution [dice_result]

    [dice_result(n)] in [src/hog.py] returns two parallel lists, the
    outcomes in order of first appearance and their [Fraction]
    probabilities.  The model keeps them zipped, as a list of pairs
    [dist] in the same order.  [dice_step] is the double loop that
    extends the distribution of [n-1] dice by one die, [normalize] the
    division by the total, [prune] the filter on the global
    [prob_cutoff].

    The main theorem, [dice_result_refines_roll_dice], says that without
    pruning the expectation of any function under [dice_result n] is its
    average over the 6^n sequences of faces passed through [bust_sum],
    the outcome [roll_dice] computes from them (theorem [roll_dice_spec]
    of [Rules]). *)

From S2P Require Import Prelude Rules.

Open Scope Z_scope.

(** Outcome and weight, in the order the outcomes first appear. *)
Abbreviation dist := (list (Z * Qc)).

(** [result = [[1,2,3,4,5,6], [1]*6]]. *)
Definition dice_base : dist := map (fun r => (r, 1%Qc)) [1; 2; 3; 4; 5; 6].

(** [if new_roll in result[0]: result[1][result[0].index(new_roll)] += w]
    [else: append (new_roll, w)]. *)
Fixpoint add_outcome (new_roll : Z) (w : Qc) (result : dist) : dist :=
  match result with
  | [] => [(new_roll, w)]
  | (k, q) :: rest =>
      if k =? new_roll then (k, (q + w)%Qc) :: rest
      else (k, q) :: add_outcome new_roll w rest
  end.

(** [1 if sums == 1 or roll == 1 else sums + roll]. *)
Definition new_roll (sums roll : Z) : Z :=
  if (sums =? 1) || (roll =? 1) then 1 else sums + roll.

(** The two nested [for] loops over the entries of [dice_result(n-1)]
    and the faces [range(1, 7)]. *)
Definition dice_step (arr : dist) : dist :=
  fold_left (fun result (sw : Z * Qc) =>
      fold_left (fun result roll => add_outcome (new_roll sw.1 roll) sw.2 result)
        (range 1 7) result)
    arr [].

(** [total = sum(result[1])]; [result[1] = [Fraction(i, total) for i in result[1]]]. *)
Definition normalize (result : dist) : Prelude.result dist :=
  let total := py_sum (map snd result) in
  match result with
  | [] => Ok []
  | _ :: _ =>
      if decide (total = 0%Qc) then Err ZeroDivisionError
      else Ok (map (fun kw => (kw.1, (kw.2 / total)%Qc)) result)
  end.

(** [if prob_cutoff:] keep the entries whose probability is [> prob_cutoff].
    [None] is the global never assigned (a [NameError]). *)
Definition prune (prob_cutoff : option Qc) (result : dist) : Prelude.result dist :=
  match prob_cutoff with
  | None => Err NameError
  | Some c =>
      if decide (c = 0%Qc) then Ok result
      else Ok (List.filter (fun kw => bool_decide (c < kw.2)%Qc) result)
  end.

(** [dice_result(n)]; [n = 0] recurses without end (Python's
    [RecursionError]). *)
Fixpoint dice_result (prob_cutoff : option Qc) (n : nat) : Prelude.result dist :=
  match n with
  | O => Err RecursionError
  | S O =>
      try result <- normalize dice_base;
      prune prob_cutoff result
  | S m =>
      try arr <- dice_result prob_cutoff m;
      try result <- normalize (dice_step arr);
      prune prob_cutoff result
  end.

(** The value of [prob_cutoff] set by [run]: the exact value of the
    double nearest to 0.001. *)
Definition run_prob_cutoff : Qc := Q2Qc (1152921504606847 # 1152921504606846976).

(** The expectation of [f] under a distribution. *)
Definition expect (d : dist) (f : Z -> Qc) : Qc :=
  py_sum (map (fun kw => (kw.2 * f kw.1)%Qc) d).

(** The probability of one outcome. *)
Definition prob_of (d : dist) (v : Z) : Qc :=
  expect d (fun k => if k =? v then 1%Qc else 0%Qc).

(** The 6^n sequences of faces of [n] dice, the last die varying fastest. *)
Fixpoint all_rolls (n : nat) : list (list Z) :=
  match n with
  | O => [[]]
  | S m => flat_map (fun rs => map (fun r => rs ++ [r]) (range 1 7)) (all_rolls m)
  end.

(** ** Expectations through the construction *)

Lemma expect_nil f : expect [] f = 0%Qc.
Proof. reflexivity. Qed.

Lemma expect_cons k w d f : expect ((k, w) :: d) f = (w * f k + expect d f)%Qc.
Proof. unfold expect. by rewrite map_cons, py_sum_cons. Qed.

#[export] Hint Rewrite expect_nil expect_cons : hog_simpl.

Lemma expect_add_outcome k w d f :
  expect (add_outcome k w d) f = (expect d f + w * f k)%Qc.
Proof.
  induction d as [| [k' q] d IH]; simpl; autorewrite with hog_simpl.
  - ring.
  - destruct (Z.eqb_spec k' k) as [-> |]; autorewrite with hog_simpl; [ring |].
    rewrite IH. ring.
Qed.

Lemma expect_roll_loop s w rolls acc f :
  expect (fold_left (fun result roll => add_outcome (new_roll s roll) w result) rolls acc) f =
  (expect acc f + w * py_sum (map (fun roll => f (new_roll s roll)) rolls))%Qc.
Proof.
  revert acc. induction rolls as [| r rolls IH]; intros acc; simpl.
  - rewrite py_sum_nil. ring.
  - rewrite IH, expect_add_outcome, py_sum_cons. ring.
Qed.

(** One more die: the expectation of [f] after [dice_step] is the
    expectation of the average of [f] over the six faces, unnormalised. *)
Lemma expect_dice_step arr f :
  expect (dice_step arr) f =
  expect arr (fun s => py_sum (map (fun roll => f (new_roll s roll)) (range 1 7))).
Proof.
  unfold dice_step.
  enough (forall acc, expect (fold_left (fun result (sw : Z * Qc) =>
      fold_left (fun result roll => add_outcome (new_roll sw.1 roll) sw.2 result)
        (range 1 7) result) arr acc) f =
    (expect acc f + expect arr (fun s => py_sum (map (fun roll => f (new_roll s roll)) (range 1 7))))%Qc)
    as H by (rewrite H, expect_nil; ring).
  induction arr as [| [s w] arr IH]; intros acc; cbn [fold_left fst snd].
  - rewrite expect_nil. ring.
  - rewrite IH, expect_roll_loop, expect_cons. ring.
Qed.

Lemma expect_scale d t f :
  expect (map (fun kw => (kw.1, (kw.2 / t)%Qc)) d) f = (expect d f / t)%Qc.
Proof.
  induction d as [| [k w] d IH]; simpl; autorewrite with hog_simpl.
  - unfold Qcdiv. ring.
  - rewrite IH. unfold Qcdiv. ring.
Qed.

Lemma total_expect d : py_sum (map snd d) = expect d (fun _ => 1%Qc).
Proof.
  induction d as [| [k w] d IH]; simpl; autorewrite with hog_simpl; [done |].
  rewrite IH. ring.
Qed.

Lemma normalize_ok d :
  py_sum (map snd d) <> 0%Qc ->
  normalize d = Ok (map (fun kw => (kw.1, (kw.2 / py_sum (map snd d))%Qc)) d).
Proof.
  intros Ht. unfold normalize. destruct d as [| kw d]; [done |].
  rewrite decide_False by done. done.
Qed.

(** ** The roll sequences *)

Lemma all_rolls_shape n rs :
  In rs (all_rolls n) -> length rs = n /\ Forall (fun r => 1 <= r <= 6) rs.
Proof.
  revert rs. induction n as [| n IH]; intros rs; cbn [all_rolls].
  - intros [<- | []]. done.
  - rewrite in_flat_map. intros (rs' & Hin & Hr). apply in_map_iff in Hr as (r & <- & Hr).
    apply in_range in Hr. destruct (IH rs' Hin) as [Hl Hf].
    rewrite length_app, Hl. simpl. split; [lia |].
    apply Forall_app. split; [done | constructor; [lia | constructor]].
Qed.

Lemma all_rolls_count n : py_sum (map (fun _ => 1%Qc) (all_rolls n)) = pow6 n.
Proof.
  induction n as [| n IH]; [qc_eval |].
  cbn [all_rolls]. rewrite py_sum_flat_map, pow6_S, <- IH.
  rewrite <- py_sum_map_scale. apply py_sum_map_ext. intros rs _.
  rewrite map_map, Qcmult_1_r. qc_eval.
Qed.

(** Appending a die to a roll sequence acts on its outcome as [new_roll]
    does. *)
Lemma bust_sum_snoc rs r :
  Forall (fun r => 1 <= r <= 6) rs -> 1 <= r <= 6 ->
  bust_sum (rs ++ [r]) = new_roll (bust_sum rs) r.
Proof.
  intros Hrs Hr. unfold bust_sum, new_roll.
  rewrite existsb_app, fold_right_app. cbn [existsb fold_right].
  destruct (existsb (Z.eqb 1) rs) eqn:E; cbn [orb]; [by rewrite Z.eqb_refl |].
  pose proof (sum_no_bust_range rs Hrs E).
  rewrite (proj2 (Z.eqb_neq _ 1)) by (destruct rs; simpl in *; lia). cbn [orb].
  rewrite orb_false_r, Z.eqb_sym. destruct (Z.eqb_spec r 1); [done |].
  clear. rewrite Z.add_0_r. induction rs as [| x rs IH]; simpl; lia.
Qed.

Lemma expect_scale_f d c f : expect d (fun k => c * f k)%Qc = (c * expect d f)%Qc.
Proof.
  induction d as [| [k w] d IH]; autorewrite with hog_simpl; [ring |].
  rewrite IH. ring.
Qed.

(** ** The refinement relation *)

(** [d] is the distribution of [bust_sum] over the uniform [n]-die
    sequences, up to the factor [6^n]. *)
Definition refines (n : nat) (d : dist) : Prop :=
  forall f, (expect d f * pow6 n)%Qc = py_sum (map (fun rs => f (bust_sum rs)) (all_rolls n)).

Lemma expect_ext d f g : (forall k, f k = g k) -> expect d f = expect d g.
Proof. intros H. unfold expect. f_equal. apply map_ext. intros kw. by rewrite H. Qed.

Lemma refines_total n d : refines n d -> py_sum (map snd d) = 1%Qc.
Proof.
  intros H. rewrite total_expect.
  pose proof (H (fun _ => 1%Qc)) as Hn. rewrite all_rolls_count in Hn.
  rewrite <- (Qcdiv_mult_l (expect d _) (pow6 n)), Hn by apply pow6_neq0.
  rewrite <- (Qcmult_1_l (pow6 n)) at 1. apply Qcdiv_mult_l, pow6_neq0.
Qed.

Lemma refines_step n d :
  refines n d -> exists d', normalize (dice_step d) = Ok d' /\ refines (S n) d'.
Proof.
  intros H.
  assert (Ht : py_sum (map snd (dice_step d)) = Qc_of_Z 6).
  { rewrite total_expect, expect_dice_step.
    rewrite (expect_ext _ _ (fun _ => Qc_of_Z 6 * 1)%Qc) by (intros; qc_eval).
    rewrite expect_scale_f, <- total_expect, (refines_total n d H). ring. }
  eexists; split; [apply normalize_ok; rewrite Ht; apply Qc_of_Z_6 |].
  intros f. rewrite expect_scale, Ht, expect_dice_step, pow6_S.
  transitivity (expect d (fun s => py_sum (map (fun roll => f (new_roll s roll)) (range 1 7))) * pow6 n)%Qc.
  { field. apply Qc_of_Z_6. }
  rewrite H. cbn [all_rolls].
  rewrite py_sum_flat_map. apply py_sum_map_ext. intros rs Hrs.
  rewrite map_map. apply py_sum_map_ext. intros r Hr%in_range.
  rewrite bust_sum_snoc; [done | apply (all_rolls_shape n rs Hrs) | lia].
Qed.

(** ** [dice_result] unfolded: the one-die case is one step from the
    zero-die distribution [[(0, 1)]]. *)

Lemma dice_base_step : dice_base = dice_step [(0, 1%Qc)].
Proof. reflexivity. Qed.

Definition dice_prev (prob_cutoff : option Qc) (n : nat) : Prelude.result dist :=
  match n with O => Ok [(0, 1%Qc)] | S _ => dice_result prob_cutoff n end.

Lemma dice_result_unfold prob_cutoff n :
  dice_result prob_cutoff (S n) =
    try arr <- dice_prev prob_cutoff n;
    try result <- normalize (dice_step arr);
    prune prob_cutoff result.
Proof.
  destruct n; [| reflexivity].
  change (dice_prev prob_cutoff 0) with (Ok [(0, 1%Qc)] : Prelude.result dist).
  rewrite rbind_Ok, <- dice_base_step. reflexivity.
Qed.

Lemma refines_0 : refines 0 [(0, 1%Qc)].
Proof.
  intros f. rewrite expect_cons, expect_nil. simpl. unfold py_sum. simpl.
  replace (pow6 0) with 1%Qc by qc_eval. change (bust_sum []) with 0. ring.
Qed.

Lemma prune_exact d : prune (Some 0%Qc) d = Ok d.
Proof. unfold prune. by rewrite decide_True. Qed.

Lemma dice_prev_exact n : exists d, dice_prev (Some 0%Qc) n = Ok d /\ refines n d.
Proof.
  induction n as [| n (arr & Harr & Hr)]; [by eexists; split; [| apply refines_0] |].
  destruct (refines_step n arr Hr) as (d & Hd & Hr').
  exists d. split; [| done].
  change (dice_prev (Some 0%Qc) (S n)) with (dice_result (Some 0%Qc) (S n)).
  by rewrite dice_result_unfold, Harr, rbind_Ok, Hd, rbind_Ok, prune_exact.
Qed.

Lemma dice_result_exact n :
  (1 <= n)%nat -> exists d, dice_result (Some 0%Qc) n = Ok d /\ refines n d.
Proof. intros Hn. destruct n as [| n]; [lia |]. apply (dice_prev_exact (S n)). Qed.

(** ** Properties of the exact distribution *)

(** C4: without pruning ([prob_cutoff] is 0), [dice_result n] is the
    distribution of the outcome of [roll_dice] on [n] fair dice: the
    expectation of any [f] under it, times [6^n], is the sum of [f] over
    the outcomes [bust_sum rs] of all [6^n] face sequences [rs]; the
    computation never fails for [n >= 1]. *)
Theorem dice_result_refines_roll_dice (n : nat) :
  (1 <= n)%nat ->
  exists d, dice_result (Some 0%Qc) n = Ok d /\
    forall f, (expect d f * pow6 n)%Qc =
              py_sum (map (fun rs => f (bust_sum rs)) (all_rolls n)).
Proof. apply dice_result_exact. Qed.

(** C5: without pruning, the probabilities of [dice_result n] sum to
    exactly 1 for every [n >= 1]. *)
Theorem dice_result_sum_one (n : nat) :
  (1 <= n)%nat ->
  exists d, dice_result (Some 0%Qc) n = Ok d /\ py_sum (map snd d) = 1%Qc.
Proof.
  intros Hn. destruct (dice_result_exact n Hn) as (d & Hd & Hr).
  exists d. split; [done | by eapply refines_total].
Qed.

(** ** The invariant of the pruned distribution *)

(** An outcome of [n] dice is a bust (1) or a sum in [[2n, 6n]]. *)
Definition outcome_ok (n : nat) (k : Z) : Prop :=
  k = 1 \/ 2 * Z.of_nat n <= k <= 6 * Z.of_nat n.

Definition dist_wf (n : nat) (d : dist) : Prop :=
  NoDup (map fst d) /\ Forall (fun kw => (0 < kw.2)%Qc /\ outcome_ok n kw.1) d.

Lemma add_outcome_keys k w r :
  map fst (add_outcome k w r) =
    if bool_decide (k ∈ map fst r) then map fst r else map fst r ++ [k].
Proof.
  induction r as [| [k' q] r IH]; simpl; [by try (rewrite bool_decide_false by set_solver) |].
  destruct (Z.eqb_spec k' k) as [-> |].
  - rewrite bool_decide_true by set_solver. done.
  - simpl. rewrite IH. case_bool_decide; case_bool_decide; set_solver.
Qed.

Lemma add_outcome_NoDup k w r : NoDup (map fst r) -> NoDup (map fst (add_outcome k w r)).
Proof.
  intros H. rewrite add_outcome_keys. case_bool_decide; [done |].
  apply NoDup_app. split; [done | split; [set_solver | apply NoDup_singleton]].
Qed.

Lemma add_outcome_Forall (P : Z * Qc -> Prop) k w r :
  Forall P r -> P (k, w) -> (forall q, P (k, q) -> P (k, (q + w)%Qc)) ->
  Forall P (add_outcome k w r).
Proof.
  intros Hr Hkw Hstep. induction Hr as [| [k' q] r Hq Hr IH]; simpl; [by constructor |].
  destruct (Z.eqb_spec k' k) as [-> |]; constructor; auto.
Qed.

Lemma new_roll_ok n s r :
  outcome_ok n s -> 1 <= r <= 6 -> outcome_ok (S n) (new_roll s r).
Proof.
  unfold outcome_ok, new_roll. intros Hs Hr.
  destruct (Z.eqb_spec s 1), (Z.eqb_spec r 1); simpl; auto. right. lia.
Qed.

Lemma dice_step_wf n arr : dist_wf n arr -> dist_wf (S n) (dice_step arr).
Proof.
  intros [_ Harr]. unfold dice_step.
  apply fold_left_invariant; [split; [constructor | done] |].
  intros [s w] acc Hin Hacc. cbn [fst snd].
  pose proof (proj1 (List.Forall_forall _ _) Harr _ Hin) as [Hw Hs]. simpl in Hw, Hs.
  apply fold_left_invariant; [done |].
  intros r acc' Hr%in_range [Hnd Hf]. split; [by apply add_outcome_NoDup |].
  apply add_outcome_Forall; [done | split; [done | apply new_roll_ok; [done | lia]] |].
  intros q [Hq Hk]. split; [by apply Qcplus_pos_pos | done].
Qed.

Lemma py_sum_pos_nonempty (d : dist) :
  d <> [] -> Forall (fun kw => (0 < kw.2)%Qc) d -> (0 < py_sum (map snd d))%Qc.
Proof.
  intros Hne Hf. destruct d as [| [k w] d]; [done |].
  apply Forall_cons in Hf as [Hw Hf]. simpl. rewrite py_sum_cons.
  apply Qcplus_pos_nonneg; [done |].
  apply py_sum_nonneg, Forall_map. eapply Forall_impl; [done |]. intros kw Hkw.
  by apply Qclt_le_weak.
Qed.

Lemma scale_wf n d t : (0 < t)%Qc -> dist_wf n d -> dist_wf n (map (fun kw => (kw.1, (kw.2 / t)%Qc)) d).
Proof.
  intros Ht [Hnd Hf]. split; [by rewrite map_map |].
  apply Forall_map. eapply Forall_impl; [done |]. intros [k w] [Hw Hk]. split; [| done].
  simpl. unfold Qcdiv. apply Qcmult_pos_pos; [done | by apply Qcinv_pos].
Qed.

Lemma normalize_wf n d :
  dist_wf n d ->
  exists d', normalize d = Ok d' /\ dist_wf n d' /\ (py_sum (map snd d') <= 1)%Qc.
Proof.
  intros Hwf. destruct d as [| kw d]; [by exists []; split; [| split; [split; constructor |]] |].
  assert (Ht : (0 < py_sum (map snd (kw :: d)))%Qc).
  { apply py_sum_pos_nonempty; [done |]. eapply Forall_impl; [apply Hwf | naive_solver]. }
  eexists. split; [apply normalize_ok; by apply Qclt_not_eq, not_symmetry in Ht |].
  split; [by apply scale_wf |].
  rewrite total_expect, expect_scale, <- total_expect.
  unfold Qcdiv. rewrite Qcmult_inv_r; [apply Qcle_refl |].
  by apply Qclt_not_eq, not_symmetry in Ht.
Qed.

Lemma filter_wf n d (p : Z * Qc -> bool) : dist_wf n d -> dist_wf n (List.filter p d).
Proof.
  intros [Hnd Hf]. split; cycle 1.
  { apply List.Forall_forall. intros x [Hx _]%List.filter_In.
    exact (proj1 (List.Forall_forall _ _) Hf x Hx). }
  induction d as [| [k w] d IH]; simpl; [done |].
  apply NoDup_cons in Hnd as [Hk Hnd]. apply Forall_cons in Hf as [_ Hf].
  destruct (p (k, w)); simpl; [| by apply IH].
  constructor; [| by apply IH].
  intros Hin. apply Hk. apply list_elem_of_In in Hin. apply list_elem_of_In.
  apply in_map_iff in Hin as ([k' w'] & <- & Hin). apply List.filter_In in Hin.
  apply in_map_iff. exists (k', w'). naive_solver.
Qed.

Lemma filter_sum_le (d : dist) (p : Z * Qc -> bool) :
  Forall (fun kw => (0 < kw.2)%Qc) d ->
  (py_sum (map snd (List.filter p d)) <= py_sum (map snd d))%Qc.
Proof.
  induction 1 as [| [k w] d Hw Hf IH]; simpl; [apply Qcle_refl |].
  destruct (p (k, w)); simpl; rewrite !py_sum_cons.
  - by apply Qcplus_le_mono_l.
  - rewrite <- (Qcplus_0_l (py_sum (map snd (List.filter p d)))).
    apply Qcplus_le_compat; [by apply Qclt_le_weak | done].
Qed.

Lemma prune_wf c n d :
  dist_wf n d -> (py_sum (map snd d) <= 1)%Qc ->
  exists d', prune (Some c) d = Ok d' /\ dist_wf n d' /\ (py_sum (map snd d') <= 1)%Qc.
Proof.
  intros Hwf Hs. unfold prune. destruct (decide (c = 0%Qc)); [by eexists |].
  eexists. split; [done |]. split; [by apply filter_wf |].
  eapply Qcle_trans; [apply filter_sum_le | done].
  eapply Forall_impl; [apply Hwf | naive_solver].
Qed.

(** The invariant through the recursion of [dice_result]. *)
Lemma dice_result_invariant c n :
  (1 <= n)%nat ->
  exists d, dice_result (Some c) n = Ok d /\ dist_wf n d /\ (py_sum (map snd d) <= 1)%Qc.
Proof.
  intros Hn. destruct n as [| n]; [lia |]. clear Hn.
  enough (forall n, exists d, dice_prev (Some c) n = Ok d /\ dist_wf n d) as H.
  { destruct (H n) as (arr & Harr & Hwf).
    destruct (normalize_wf _ _ (dice_step_wf n arr Hwf)) as (d & Hd & Hwf' & Hs).
    destruct (prune_wf c _ _ Hwf' Hs) as (d' & Hd' & ?).
    exists d'. by rewrite dice_result_unfold, Harr, rbind_Ok, Hd, rbind_Ok. }
  clear n. intros n. induction n as [| n (arr & Harr & Hwf)].
  { eexists. split; [done |]. split; [apply NoDup_singleton |].
    constructor; [| constructor]. split; [by vm_compute | right; simpl; lia]. }
  destruct (normalize_wf _ _ (dice_step_wf n arr Hwf)) as (d & Hd & Hwf' & Hs).
  destruct (prune_wf c _ _ Hwf' Hs) as (d' & Hd' & Hwf'' & _).
  exists d'. split; [| done].
  change (dice_prev (Some c) (S n)) with (dice_result (Some c) (S n)).
  by rewrite dice_result_unfold, Harr, rbind_Ok, Hd, rbind_Ok.
Qed.

(** C6: for every value of [prob_cutoff] and [n >= 1], [dice_result n]
    returns without error a distribution whose outcomes are distinct,
    each a bust (1) or a sum in [[2n, 6n]], whose probabilities are
    positive, and whose total is at most 1 (pruning only drops mass). *)
Theorem dice_result_wf (c : Qc) (n : nat) :
  (1 <= n)%nat ->
  exists d, dice_result (Some c) n = Ok d /\ dist_wf n d /\ (py_sum (map snd d) <= 1)%Qc.
Proof. apply dice_result_invariant. Qed.

(** C16: the global [prob_cutoff] is read after the distribution is built:
    when the module is imported rather than run (the global is never
    assigned) every call [dice_result n] with [n >= 1] fails with a
    [NameError]; [dice_result 0] never reaches it (unbounded recursion). *)
Theorem dice_result_unassigned_cutoff (n : nat) :
  dice_result None n = Err (if decide (n = 0%nat) then RecursionError else NameError).
Proof.
  destruct n as [| n]; [done |]. rewrite decide_False by lia.
  induction n as [| n IH]; [reflexivity |].
  rewrite dice_result_unfold. change (dice_prev None (S n)) with (dice_result None (S n)).
  by rewrite IH.
Qed.

(** The spec's values: with the exact distribution and with the
    script's cutoff, [dice_result 1] is the six faces with probability
    1/6 each, and [dice_result 2] gives the bust outcome 1 probability
    11/36 and the double six 12 probability 1/36. *)
Theorem dice_result_small (c : Qc) :
  c = 0%Qc \/ c = run_prob_cutoff ->
  (exists d, dice_result (Some c) 1 = Ok d /\ map fst d = [1; 2; 3; 4; 5; 6] /\
     Forall (fun kw => kw.2 = Q2Qc (1 # 6)) d) /\
  (exists d, dice_result (Some c) 2 = Ok d /\
     prob_of d 1 = Q2Qc (11 # 36) /\ prob_of d 12 = Q2Qc (1 # 36)).
Proof.
  intros [-> | ->]; split.
  all: eexists; split; [vm_compute; reflexivity |].
  1, 3: split; [reflexivity | apply (bool_decide_unpack _); vm_compute; reflexivity].
  all: split; qc_eval.
Qed.

(** ** Bounds on expectations *)

Lemma expect_ext_in d f g :
  (forall kw, In kw d -> f kw.1 = g kw.1) -> expect d f = expect d g.
Proof.
  intros H. unfold expect. apply py_sum_map_ext. intros kw Hkw. by rewrite H.
Qed.

(** Under positive weights, an expectation of a function with values in
    [[0, 1]] lies between 0 and the total weight. *)
Lemma expect_bounds d f :
  Forall (fun kw => (0 < kw.2)%Qc) d ->
  (forall kw, In kw d -> (0 <= f kw.1 <= 1)%Qc) ->
  (0 <= expect d f <= py_sum (map snd d))%Qc.
Proof.
  induction d as [| [k w] d IH]; intros Hw Hf; autorewrite with hog_simpl; simpl.
  - split; apply Qcle_refl.
  - apply Forall_cons in Hw as [Hw0 Hw]. simpl in Hw0.
    destruct (Hf (k, w) (or_introl eq_refl)) as [Hlo Hhi]. simpl in Hlo, Hhi.
    destruct (IH Hw (fun kw H => Hf kw (or_intror H))) as [IHlo IHhi].
    rewrite py_sum_cons. split.
    + apply Qcplus_nonneg_nonneg; [| done].
      apply Qcmult_nonneg_nonneg; [by apply Qclt_le_weak | done].
    + apply Qcplus_le_compat; [| done].
      rewrite <- (Qcmult_1_r w) at 2. apply Qcmult_le_mono_nonneg_l; [by apply Qclt_le_weak | done].
Qed.

Lemma expect_const d (v : Qc) : expect d (fun _ => v) = (py_sum (map snd d) * v)%Qc.
Proof.
  rewrite <- (Qcmult_1_r v) at 1. rewrite (expect_ext _ _ (fun _ => v * 1)%Qc) by (intros; ring).
  rewrite expect_scale_f, <- total_expect. ring.
Qed.

(** ** The properties at concrete inputs *)

Lemma dice_result_refines_roll_dice_witness :
  (1 <= 2)%nat /\ exists d, dice_result (Some 0%Qc) 2 = Ok d /\
    forall f, (expect d f * pow6 2)%Qc = py_sum (map (fun rs => f (bust_sum rs)) (all_rolls 2)).
Proof. split; [lia | apply (dice_result_refines_roll_dice 2); lia]. Defined.

Lemma dice_result_sum_one_witness :
  (1 <= 3)%nat /\ exists d, dice_result (Some 0%Qc) 3 = Ok d /\ py_sum (map snd d) = 1%Qc.
Proof. split; [lia | apply (dice_result_sum_one 3); lia]. Defined.

Lemma dice_result_wf_witness :
  (1 <= 5)%nat /\ exists d, dice_result (Some run_prob_cutoff) 5 = Ok d /\ dist_wf 5 d /\
    (py_sum (map snd d) <= 1)%Qc.
Proof. split; [lia | apply (dice_result_wf run_prob_cutoff 5); lia]. Defined.

