(* ===== verification/Optimal.v ===== *)
(** * Optimal: the memoised backward induction [find_best_move]

    [max_prob_calc] and [find_best_move] of [src/hog.py] are mutually
    recursive and share the memo table [best_move], a 100 x 100 Python
    list of lists holding [0] for an unsolved state and
    [[max_roll, max_prob]] for a solved one.  The model threads the
    table through the monad [PyM move_table]; [max_prob_calc] takes the
    recursive call as an argument [fbm], and [find_best_move] passes
    itself with one unit of fuel less.

    The reference [opt] is the memo-free backward induction: the value of
    a state is the largest, over the moves 0..10, of the expected value
    of the outcomes, an outcome that reaches 100 being worth 1 and any
    other worth one minus the value of the swapped state; the move is the
    first that reaches it.  The refinement theorem says that, started on
    a sound table (every solved entry holds the reference value), the
    memoised code returns the reference value and leaves a sound table;
    the type theorem says that on any table of the right type ([typed]),
    sound or not, it raises nothing and keeps that type. *)

From S2P Require Import Prelude Rules Dice.

Open Scope Z_scope.

(** An entry of [best_move]: [0] or [[move, win probability]]. *)
Inductive move_entry :=
| Unsolved
| Solved (move : Z) (win_prob : Qc).

Abbreviation move_table := (list (list move_entry)).

(** [entry[0]]: subscripting a list entry gives its move; subscripting
    the integer [0] raises [TypeError]. *)
Definition move_of (e : move_entry) : result Z :=
  match e with
  | Solved m _ => Ok m
  | Unsolved => Err TypeError
  end.

(** [entry == z] for an integer [z]: the entry [0] equals [0] only, a
    list equals no integer. *)
Definition entry_eqb_int (e : move_entry) (z : Z) : bool :=
  match e with
  | Unsolved => z =? 0
  | Solved _ _ => false
  end.

(** [best_move = [[0] * 100 for _ in range(100)]]. *)
Definition fresh_move_table : move_table := replicate 100 (replicate 100 Unsolved).

Section Code.
Context (prob_cutoff : option Qc).

(** The outcomes of a move: [dice_result(num_roll)], or the tail
    points with probability [Fraction(1 / 1)]. *)
Definition points_of (num_roll opponent_score : Z) : result dist :=
  if negb (num_roll =? 0) then dice_result prob_cutoff (Z.to_nat num_roll)
  else Ok [(tail_points opponent_score, 1%Qc)].

(** The [for] loop of [max_prob_calc] over the outcomes. *)
Fixpoint prob_loop (fbm : Z -> Z -> PyM move_table (Z * Qc))
    (score opponent_score : Z) (points : dist) (win_prob : Qc) : PyM move_table Qc :=
  match points with
  | [] => pret win_prob
  | (result, p) :: rest =>
      if 100 <=? square_add score result then
        prob_loop fbm score opponent_score rest (win_prob + 1 * p)%Qc
      else
        do e <- fbm opponent_score (square_add score result);
        prob_loop fbm score opponent_score rest (win_prob + (1 - e.2) * p)%Qc
  end.

Definition max_prob_calc (fbm : Z -> Z -> PyM move_table (Z * Qc))
    (num_roll score opponent_score : Z) : PyM move_table Qc :=
  do points <- plift (points_of num_roll opponent_score);
  prob_loop fbm score opponent_score points 0%Qc.

(** The [for num_roll in range(0, 11)] loop of [find_best_move]:
    [max_roll] is unbound ([None]) until a probability exceeds [-1]. *)
Fixpoint argmax_loop (fbm : Z -> Z -> PyM move_table (Z * Qc))
    (score opponent_score : Z) (rolls : list Z) (max_prob : Qc) (max_roll : option Z)
    : PyM move_table (Qc * option Z) :=
  match rolls with
  | [] => pret (max_prob, max_roll)
  | num_roll :: rest =>
      do win_prob <- max_prob_calc fbm num_roll score opponent_score;
      if bool_decide (max_prob < win_prob)%Qc then
        argmax_loop fbm score opponent_score rest win_prob (Some num_roll)
      else argmax_loop fbm score opponent_score rest max_prob max_roll
  end.

Fixpoint find_best_move (fuel : nat) (score opponent_score : Z) : PyM move_table (Z * Qc) :=
  match fuel with
  | O => pfail RecursionError
  | S fuel' =>
      if negb ((score <? 100) && (opponent_score <? 100)) then pfail AssertionError
      else
        do best_move <- pget;
        do entry <- plift (py_index2 best_move score opponent_score);
        match entry with
        | Solved m p => pret (m, p)
        | Unsolved =>
            do '(max_prob, max_roll) <-
              argmax_loop (find_best_move fuel') score opponent_score (range 0 11) (-1)%Qc None;
            match max_roll with
            | None => pfail UnboundLocalError
            | Some max_roll =>
                do best_move <- pget;
                do best_move <- plift (py_store2 best_move score opponent_score
                                         (Solved max_roll max_prob));
                do _ <- pput best_move;
                do entry <- plift (py_index2 best_move score opponent_score);
                match entry with
                | Solved m p => pret (m, p)
                | Unsolved => pfail TypeError
                end
            end
        end
  end.
End Code.

(** Enough fuel for the state [(score, opponent_score)]: every recursive
    call raises the sum of the two scores by at least one, and both stay
    below 100. *)
Definition need (score opponent_score : Z) : nat := Z.to_nat (200 - score - opponent_score).

(** ** The reference: memo-free backward induction *)

Section Reference.
Context (c : Qc).

(** The outcomes of move [m] with [prob_cutoff = c]. *)
Definition move_points (m o : Z) : dist :=
  match points_of (Some c) m o with Ok d => d | Err _ => [] end.

(** The worth of reaching [s + r] (square rule applied) with the
    opponent at [o], given the value [V] of the states. *)
Definition outcome_value (V : Z -> Z -> Qc) (s o r : Z) : Qc :=
  if 100 <=? square_add s r then 1%Qc else (1 - V o (square_add s r))%Qc.

Definition move_value (V : Z -> Z -> Qc) (s o m : Z) : Qc :=
  expect (move_points m o) (outcome_value V s o).

Definition first_max (val : Z -> Qc) (ms : list Z) : Z * Qc :=
  fold_left (pick val) ms (0, (-1)%Qc).

Fixpoint opt (fuel : nat) (s o : Z) : Z * Qc :=
  match fuel with
  | O => (0, 0%Qc)
  | S f => first_max (move_value (fun a b => (opt f a b).2) s o) (range 0 11)
  end.

Definition opt_star (s o : Z) : Z * Qc := opt (need s o) s o.
End Reference.

(** ** Lemmas on the reference *)

Section ReferenceLemmas.
Context (c : Qc).

Lemma move_points_wf m o :
  Forall (fun kw => (0 < kw.2)%Qc /\ 1 <= kw.1) (move_points c m o) /\
  (py_sum (map snd (move_points c m o)) <= 1)%Qc /\
  (0 <= m <= 10 -> points_of (Some c) m o = Ok (move_points c m o)).
Proof.
  unfold move_points, points_of.
  destruct (Z.eqb_spec m 0) as [-> |]; simpl.
  - split; [constructor; [split; [by vm_compute | apply tail_points_pos] | constructor] |].
    split; [apply Qcle_refl | done].
  - destruct (decide (1 <= Z.to_nat m)%nat) as [Hm |].
    + destruct (dice_result_invariant c _ Hm) as (d & -> & [_ Hf] & Hs).
      split; [| done]. eapply Forall_impl; [done |]. intros kw [Hw [Hk | Hk]]; split; [done | lia | done | lia].
    + assert (Z.to_nat m = 0%nat) as -> by lia. simpl.
      split; [constructor | split; [by vm_compute | lia]].
Qed.

Lemma move_value_bounds V s o m :
  (forall a b, 0 <= V a b <= 1)%Qc -> (0 <= move_value c V s o m <= 1)%Qc.
Proof.
  intros HV. destruct (move_points_wf m o) as (Hf & Hs & _).
  unfold move_value.
  destruct (expect_bounds (move_points c m o) (outcome_value V s o)) as [Hlo Hhi].
  - eapply Forall_impl; [exact Hf | naive_solver].
  - intros kw _. unfold outcome_value. destruct (100 <=? square_add s kw.1).
    + split; [by vm_compute | apply Qcle_refl].
    + apply Qc_one_minus_bounds, HV.
  - split; [done | by eapply Qcle_trans].
Qed.
End ReferenceLemmas.

Section FirstMax.
Context (val : Z -> Qc).

(** [first_max] returns the first move of largest value. *)
Lemma first_max_spec ms :
  ms <> [] -> (forall m, In m ms -> 0 <= val m)%Qc ->
  exists pre post, ms = pre ++ (first_max val ms).1 :: post /\
    (first_max val ms).2 = val (first_max val ms).1 /\
    Forall (fun m => val m < (first_max val ms).2)%Qc pre /\
    Forall (fun m => val m <= (first_max val ms).2)%Qc ms.
Proof.
  intros Hne Hpos. unfold first_max.
  destruct (fold_pick val ms (0, (-1)%Qc)) as (_ & Hall & [Heq | (pre & post & Hms & Hv & _ & Hpre)]).
  - exfalso. destruct ms as [| m ms]; [done |].
    apply Forall_cons in Hall as [Hm _]. rewrite Heq in Hm. simpl in Hm.
    pose proof (Hpos m (or_introl eq_refl)) as H0.
    assert (Hc : (0 <= -1)%Qc) by (eapply Qcle_trans; eauto). by vm_compute in Hc.
  - exists pre, post. auto.
Qed.

Lemma first_max_bounds ms :
  ms <> [] -> (forall m, In m ms -> 0 <= val m <= 1)%Qc ->
  (0 <= (first_max val ms).2 <= 1)%Qc.
Proof.
  intros Hne Hb. destruct (first_max_spec ms Hne) as (pre & post & Hms & Hv & _ & _);
    [intros m Hm; apply (Hb m Hm) |].
  rewrite Hv. apply Hb. set (x := (first_max val ms).1) in *.
  rewrite Hms. apply in_or_app. right. by left.
Qed.
End FirstMax.

Lemma first_max_ext (val1 val2 : Z -> Qc) ms :
  (forall m, In m ms -> val1 m = val2 m) -> first_max val1 ms = first_max val2 ms.
Proof.
  intros H. unfold first_max. generalize (0, (-1)%Qc).
  induction ms as [| m ms IH]; intros best; simpl; [done |].
  replace (pick val1 best m) with (pick val2 best m)
    by (unfold pick; rewrite H by (by left); done).
  apply IH. intros; apply H; by right.
Qed.

Section ReferenceFacts.
Context (c : Qc).

Lemma move_value_ext V1 V2 s o m :
  0 <= s -> (forall b, s < b < 100 -> V1 o b = V2 o b) ->
  move_value c V1 s o m = move_value c V2 s o m.
Proof.
  intros Hs HV. unfold move_value. apply expect_ext_in. intros [r p] Hin. simpl.
  destruct (move_points_wf c m o) as (Hf & _ & _).
  pose proof (proj1 (List.Forall_forall _ _) Hf _ Hin) as [_ Hr]. simpl in Hr.
  unfold outcome_value. destruct (Z.leb_spec 100 (square_add s r)); [done |].
  pose proof (square_add_ge s r ltac:(lia)). rewrite HV; [done | lia].
Qed.

Lemma opt_bounds f s o : (0 <= (opt c f s o).2 <= 1)%Qc.
Proof.
  revert s o. induction f as [| f IH]; intros s o; cbn [opt]; [split; [apply Qcle_refl | by vm_compute] |].
  apply first_max_bounds; [done |]. intros m _. apply move_value_bounds. intros; apply IH.
Qed.

Lemma opt_star_bounds s o : (0 <= (opt_star c s o).2 <= 1)%Qc.
Proof. exact (opt_bounds (need s o) s o). Qed.

(** The reference move is a dice count, on and off the board. *)
Lemma opt_star_move_range s o : 0 <= (opt_star c s o).1 <= 10.
Proof.
  unfold opt_star. destruct (need s o) as [| f]; cbn [opt]; [cbn [fst]; lia |].
  unfold first_max.
  destruct (fold_pick (move_value c (fun a b => (opt c f a b).2) s o) (range 0 11) (0, (-1)%Qc))
    as (_ & _ & [-> | (pre & post & Hms & _)]); [cbn [fst]; lia |].
  apply (range_split 11) in Hms as [_ Hm]. lia.
Qed.

Lemma opt_fuel f1 f2 s o :
  0 <= s < 100 -> 0 <= o < 100 -> (need s o <= f1)%nat -> (need s o <= f2)%nat ->
  opt c f1 s o = opt c f2 s o.
Proof.
  remember (need s o) as k eqn:Hk. revert f1 f2 s o Hk.
  induction k as [k IH] using lt_wf_ind. intros f1 f2 s o Hk Hs Ho H1 H2.
  destruct f1 as [| f1]; [unfold need in Hk; lia |].
  destruct f2 as [| f2]; [unfold need in Hk; lia |]. simpl.
  apply first_max_ext. intros m _. apply move_value_ext; [lia |].
  intros b Hb. f_equal. eapply (IH (need o b)); try done; unfold need in *; lia.
Qed.

Lemma opt_star_unfold s o :
  0 <= s < 100 -> 0 <= o < 100 ->
  opt_star c s o = first_max (move_value c (fun a b => (opt_star c a b).2) s o) (range 0 11).
Proof.
  intros Hs Ho. unfold opt_star at 1.
  destruct (need s o) as [| f] eqn:Hn; [unfold need in Hn; lia |]. simpl.
  apply first_max_ext. intros m _. apply move_value_ext; [lia |].
  intros b Hb. unfold opt_star. f_equal. apply opt_fuel; try lia; unfold need in *; lia.
Qed.
End ReferenceFacts.

(** ** The memo table is sound: every solved entry holds the reference *)

Definition sound (c : Qc) (tbl : move_table) : Prop :=
  grid 100 100 tbl /\
  forall (i j : nat) m p, lookup2 tbl i j = Some (Solved m p) ->
    opt_star c (Z.of_nat i) (Z.of_nat j) = (m, p).

Lemma fresh_not_solved i j m p : lookup2 fresh_move_table i j <> Some (Solved m p).
Proof.
  unfold lookup2, fresh_move_table.
  destruct (replicate 100 (replicate 100 Unsolved) !! i) as [row |] eqn:E; simpl; [| done].
  apply lookup_replicate in E as [-> _].
  destruct (replicate 100 Unsolved !! j) as [e |] eqn:E'; simpl; [| done].
  by apply lookup_replicate in E' as [-> _].
Qed.

Lemma sound_fresh c : sound c fresh_move_table.
Proof.
  split; [apply grid_replicate |]. intros i j m p H. by apply fresh_not_solved in H.
Qed.

(** Solved cells stay solved. *)
Definition grows (tbl tbl' : move_table) : Prop :=
  forall i j m p, lookup2 tbl i j = Some (Solved m p) ->
    exists m' p', lookup2 tbl' i j = Some (Solved m' p').

Lemma grows_refl tbl : grows tbl tbl.
Proof. intros i j m p H. eauto. Qed.

Lemma grows_trans t1 t2 t3 : grows t1 t2 -> grows t2 t3 -> grows t1 t3.
Proof.
  intros H12 H23 i j m p H. destruct (H12 i j m p H) as (m' & p' & H').
  by apply (H23 i j m' p').
Qed.

#[export] Hint Resolve grows_refl grows_trans : hog.

Lemma grows_update2 tbl i j m p : grows tbl (update2 tbl i j (Solved m p)).
Proof.
  intros i' j' m' p' H. rewrite lookup2_update2.
  case_bool_decide as Hij; [destruct Hij as [-> ->]; rewrite H | rewrite H]; eauto.
Qed.

Section Simulation.
Context (c : Qc).
Let Vstar (a b : Z) : Qc := (opt_star c a b).2.

(** The recursive call behaves as the reference on the states it is
    called on, keeps the table sound and loses no solved cell. *)
Definition call_ok (fbm : Z -> Z -> PyM move_table (Z * Qc)) (s o : Z) : Prop :=
  forall b tbl, s < b < 100 -> sound c tbl ->
    exists tbl', fbm o b tbl = Ok (opt_star c o b, tbl') /\ sound c tbl' /\ grows tbl tbl'.

Lemma prob_loop_sim fbm s o pts acc tbl :
  0 <= s -> Forall (fun kw => 1 <= kw.1) pts -> call_ok fbm s o -> sound c tbl ->
  exists tbl', prob_loop fbm s o pts acc tbl =
    Ok ((acc + expect pts (outcome_value Vstar s o))%Qc, tbl') /\ sound c tbl' /\ grows tbl tbl'.
Proof.
  intros Hs Hpts Hcall. revert acc tbl.
  induction Hpts as [| [r p] pts Hr Hpts IH]; intros acc tbl Htbl.
  { exists tbl. rewrite expect_nil, Qcplus_0_r. split; [done | split; [done | apply grows_refl]]. }
  simpl in Hr. cbn [prob_loop]. rewrite expect_cons. unfold outcome_value at 1.
  destruct (Z.leb_spec 100 (square_add s r)).
  - destruct (IH (acc + 1 * p)%Qc tbl Htbl) as (tbl' & -> & Hs' & Hg').
    exists tbl'. split; [f_equal; f_equal; ring | done].
  - pose proof (square_add_ge s r ltac:(lia)).
    destruct (Hcall (square_add s r) tbl ltac:(lia) Htbl) as (tbl1 & Hf & Hs1 & Hg1).
    rewrite (pbind_Ok _ _ _ _ _ Hf).
    destruct (IH (acc + (1 - (opt_star c o (square_add s r)).2) * p)%Qc tbl1 Hs1)
      as (tbl' & -> & Hs' & Hg').
    exists tbl'. split; [f_equal; f_equal; unfold Vstar; ring | eauto with hog].
Qed.

Lemma max_prob_calc_sim fbm m s o tbl :
  0 <= s -> 0 <= m <= 10 -> call_ok fbm s o -> sound c tbl ->
  exists tbl', max_prob_calc (Some c) fbm m s o tbl =
    Ok (move_value c Vstar s o m, tbl') /\ sound c tbl' /\ grows tbl tbl'.
Proof.
  intros Hs Hm Hcall Htbl. unfold max_prob_calc.
  destruct (move_points_wf c m o) as (Hf & _ & Hpts).
  rewrite (pbind_Ok _ _ tbl (move_points c m o) tbl) by (unfold plift; by rewrite Hpts).
  destruct (prob_loop_sim fbm s o (move_points c m o) 0%Qc tbl) as (tbl' & -> & ?);
    [done | eapply Forall_impl; [done | naive_solver] | done | done |].
  exists tbl'. by rewrite Qcplus_0_l.
Qed.

Lemma argmax_loop_sim fbm s o ms mp bm tbl :
  0 <= s -> Forall (fun m => 0 <= m <= 10) ms -> call_ok fbm s o -> sound c tbl ->
  exists tbl', argmax_loop (Some c) fbm s o ms mp (Some bm) tbl =
    Ok (let r := fold_left (pick (move_value c Vstar s o)) ms (bm, mp) in (r.2, Some r.1), tbl')
    /\ sound c tbl' /\ grows tbl tbl'.
Proof.
  intros Hs Hms Hcall. revert mp bm tbl.
  induction Hms as [| m ms Hm Hms IH]; intros mp bm tbl Htbl.
  { exists tbl. split; [done | split; [done | apply grows_refl]]. }
  cbn [argmax_loop fold_left].
  destruct (max_prob_calc_sim fbm m s o tbl) as (tbl1 & Hcalc & Hs1 & Hg1); try done.
  rewrite (pbind_Ok _ _ _ _ _ Hcalc).
  set (val := move_value c Vstar s o).
  case_bool_decide as Hlt.
  - replace (pick val (bm, mp) m) with (m, val m) by (unfold pick; simpl; by rewrite bool_decide_true).
    destruct (IH (val m) m tbl1 Hs1) as (tbl' & -> & Hs' & Hg').
    exists tbl'. split; [done | split; [done | by eapply grows_trans]].
  - replace (pick val (bm, mp) m) with (bm, mp) by (unfold pick; simpl; by rewrite bool_decide_false).
    destruct (IH mp bm tbl1 Hs1) as (tbl' & -> & Hs' & Hg').
    exists tbl'. split; [done | split; [done | by eapply grows_trans]].
Qed.
End Simulation.

Lemma sound_update c tbl s o :
  0 <= s < 100 -> 0 <= o < 100 -> sound c tbl ->
  sound c (update2 tbl (Z.to_nat s) (Z.to_nat o) (Solved (opt_star c s o).1 (opt_star c s o).2)).
Proof.
  intros Hs Ho [Hg Hsound]. split; [by apply update2_grid |].
  intros i j m p. rewrite lookup2_update2. case_bool_decide as Hij.
  - destruct Hij as [<- <-]. destruct (lookup2 tbl _ _); [| done].
    intros [= <- <-]. rewrite !Z2Nat.id by lia. by destruct (opt_star c s o).
  - apply Hsound.
Qed.

(** The cell of the state is solved. *)
Definition solved_at (tbl : move_table) (s o : Z) : Prop :=
  exists m p, lookup2 tbl (Z.to_nat s) (Z.to_nat o) = Some (Solved m p).

(** The first strict maximum over [0..10], started after move [0]. *)
Lemma first_max_after_0 c s o :
  0 <= s < 100 -> 0 <= o < 100 ->
  let val := move_value c (fun a b => (opt_star c a b).2) s o in
  fold_left (pick val) (range 1 11) (0, val 0) = opt_star c s o.
Proof.
  intros Hs Ho val. rewrite opt_star_unfold by lia. unfold first_max.
  rewrite range_0_11, fold_left_cons. f_equal.
  unfold pick. rewrite bool_decide_true; [done |].
  apply (Qclt_le_trans _ 0%Qc); [by vm_compute |].
  apply move_value_bounds. intros; apply opt_star_bounds.
Qed.

(** The tail of [find_best_move] once the loop has found the move:
    store it, read it back. *)
Lemma find_best_move_tail s o m p tbl :
  0 <= s < 100 -> 0 <= o < 100 -> grid 100 100 tbl ->
  (do best_move <- pget;
   do best_move <- plift (py_store2 best_move s o (Solved m p));
   do _ <- pput best_move;
   do entry <- plift (py_index2 best_move s o);
   match entry with
   | Solved m p => pret (m, p)
   | Unsolved => pfail TypeError
   end) tbl = Ok ((m, p), update2 tbl (Z.to_nat s) (Z.to_nat o) (Solved m p)).
Proof.
  intros Hs Ho Hg. py_read.
  rewrite (py_store2_grid 100 100) by (done || lia).
  py_write.
  rewrite py_index2_nonneg by lia. rewrite lookup2_update2, bool_decide_true by done.
  destruct (grid_lookup2 100 100 tbl (Z.to_nat s) (Z.to_nat o)) as [e He]; [done | lia | lia |].
  by rewrite He.
Qed.

Lemma find_best_move_store c s o tbl :
  0 <= s < 100 -> 0 <= o < 100 -> sound c tbl ->
  exists tbl',
    (do best_move <- pget;
     do best_move <- plift (py_store2 best_move s o
                              (Solved (opt_star c s o).1 (opt_star c s o).2));
     do _ <- pput best_move;
     do entry <- plift (py_index2 best_move s o);
     match entry with
     | Solved m p => pret (m, p)
     | Unsolved => pfail TypeError
     end) tbl = Ok (opt_star c s o, tbl') /\
    sound c tbl' /\ grows tbl tbl' /\ solved_at tbl' s o.
Proof.
  intros Hs Ho Htbl. pose proof Htbl as [Hg _].
  rewrite (find_best_move_tail s o _ _ tbl Hs Ho Hg), <- surjective_pairing.
  eexists. split; [reflexivity |].
  split; [apply sound_update; [lia | lia | done] |].
  split; [apply grows_update2 |].
  destruct (grid_lookup2 100 100 tbl (Z.to_nat s) (Z.to_nat o)) as [e He]; [done | lia | lia |].
  eexists _, _. rewrite lookup2_update2, bool_decide_true, He by done. done.
Qed.

Lemma find_best_move_sim c f s o tbl :
  0 <= s < 100 -> 0 <= o < 100 -> (need s o <= f)%nat -> sound c tbl ->
  exists tbl', find_best_move (Some c) f s o tbl = Ok (opt_star c s o, tbl') /\
    sound c tbl' /\ grows tbl tbl' /\ solved_at tbl' s o.
Proof.
  revert s o tbl. induction f as [| f IH]; intros s o tbl Hs Ho Hf Htbl; [unfold need in Hf; lia |].
  cbn [find_best_move].
  rewrite (proj2 (Z.ltb_lt s 100)), (proj2 (Z.ltb_lt o 100)) by lia. cbn [negb andb].
  py_read.
  rewrite py_index2_nonneg by lia.
  destruct (grid_lookup2 100 100 tbl (Z.to_nat s) (Z.to_nat o)) as [e He];
    [apply Htbl | lia | lia |]. rewrite He.
  destruct e as [| m p].
  2: { exists tbl. split; [| split; [done | split; [auto with hog | by exists m, p]]].
       destruct Htbl as [_ Hsound].
       apply Hsound in He. rewrite !Z2Nat.id in He by lia. by rewrite He. }
  assert (Hcall : call_ok c (find_best_move (Some c) f) s o).
  { intros b tbl1 Hb Hs1.
    destruct (IH o b tbl1) as (tbl' & ? & ? & ? & _); [lia | lia | unfold need in *; lia | done |].
    eauto. }
  set (val := move_value c (fun a b => (opt_star c a b).2) s o).
  rewrite range_0_11. cbn [argmax_loop].
  destruct (max_prob_calc_sim c (find_best_move (Some c) f) 0 s o tbl) as (tbl1 & Hc1 & Hs1 & Hg1);
    [lia | lia | done | done |].
  rewrite pbind_assoc, (pbind_Ok _ _ _ _ _ Hc1). cbv beta.
  rewrite bool_decide_true by (apply (Qclt_le_trans _ 0%Qc); [by vm_compute |];
    apply move_value_bounds; intros; apply opt_star_bounds).
  destruct (argmax_loop_sim c (find_best_move (Some c) f) s o (range 1 11) (val 0) 0 tbl1)
    as (tbl2 & Hc2 & Hs2 & Hg2); [lia | | done | done |].
  { apply Forall_forall. intros m Hm%list_elem_of_In%in_range. lia. }
  rewrite (pbind_Ok _ _ _ _ _ Hc2). cbn zeta beta.
  subst val. rewrite (first_max_after_0 c s o Hs Ho).
  destruct (find_best_move_store c s o tbl2) as (tbl' & Hst & ? & ? & ?); [done | done | done |].
  exists tbl'. rewrite Hst. split; [done | split; [done | split; [eauto using grows_trans | done]]].
Qed.

(** ** The type of the memo table

    Python does not check what [best_move] holds; the code expects each
    cell to be [0] or a pair [[max_roll, max_prob]] of a dice count in
    [0..10] and a probability.  [typed] is that type of the whole table,
    whatever the values are (a table read back by [import] has it without
    being [sound]). *)

Definition move_ok (m : Z) (p : Qc) : Prop := 0 <= m <= 10 /\ (0 <= p <= 1)%Qc.

Definition entry_ok (e : move_entry) : Prop :=
  match e with Unsolved => True | Solved m p => move_ok m p end.

#[export] Instance entry_ok_dec e : Decision (entry_ok e).
Proof. destruct e; unfold entry_ok, move_ok; solve_decision. Defined.

Definition typed (tbl : move_table) : Prop :=
  grid 100 100 tbl /\ forall i j e, lookup2 tbl i j = Some e -> entry_ok e.

Lemma typed_fresh : typed fresh_move_table.
Proof.
  split; [apply grid_replicate |]. intros i j [| m p] H; [done |].
  by apply fresh_not_solved in H.
Qed.

Lemma typed_update2 tbl i j m p :
  move_ok m p -> typed tbl -> typed (update2 tbl i j (Solved m p)).
Proof.
  intros Hmp [Hg Hc]. split; [by apply update2_grid |].
  intros i' j' e. rewrite lookup2_update2. case_bool_decide.
  - destruct (lookup2 tbl i j); [by intros [= <-] | done].
  - apply Hc.
Qed.

Section Typing.
Context (c : Qc).

(** The recursive call answers a well-typed pair and keeps the table
    well-typed on the states it is called on. *)
Definition call_typed (fbm : Z -> Z -> PyM move_table (Z * Qc)) (s o : Z) : Prop :=
  forall b tbl, s < b < 100 -> typed tbl ->
    exists m p tbl', fbm o b tbl = Ok ((m, p), tbl') /\ move_ok m p /\ typed tbl'.

Lemma prob_loop_typed fbm s o pts acc tbl :
  0 <= s -> Forall (fun kw => (0 < kw.2)%Qc /\ 1 <= kw.1) pts -> call_typed fbm s o -> typed tbl ->
  exists x tbl', prob_loop fbm s o pts acc tbl = Ok ((acc + x)%Qc, tbl') /\
    (0 <= x <= py_sum (map snd pts))%Qc /\ typed tbl'.
Proof.
  intros Hs Hpts Hcall. revert acc tbl.
  induction Hpts as [| [r p] pts [Hp Hr] Hpts IH]; intros acc tbl Htbl; cbn [prob_loop].
  { exists 0%Qc, tbl. rewrite Qcplus_0_r. cbn [map]. rewrite py_sum_nil.
    split; [done | split; [split; apply Qcle_refl | done]]. }
  cbn [fst snd] in Hp, Hr. cbn [map]. rewrite py_sum_cons.
  destruct (Z.leb_spec 100 (square_add s r)).
  - destruct (IH (acc + 1 * p)%Qc tbl Htbl) as (x & tbl' & -> & Hx & Ht').
    exists (1 * p + x)%Qc, tbl'. rewrite Qcplus_assoc. split; [done | split; [| done]].
    apply Qc_weighted_step; [by split; vm_compute | by apply Qclt_le_weak | done].
  - pose proof (square_add_ge s r ltac:(lia)).
    destruct (Hcall (square_add s r) tbl ltac:(lia) Htbl) as (m & q & tbl1 & Hf & [_ Hq] & Ht1).
    rewrite (pbind_Ok _ _ _ _ _ Hf). cbn [snd].
    destruct (IH (acc + (1 - q) * p)%Qc tbl1 Ht1) as (x & tbl' & -> & Hx & Ht').
    exists ((1 - q) * p + x)%Qc, tbl'. rewrite Qcplus_assoc. split; [done | split; [| done]].
    apply Qc_weighted_step; [by apply Qc_one_minus_bounds | by apply Qclt_le_weak | done].
Qed.

Lemma max_prob_calc_typed fbm m s o tbl :
  0 <= s -> 0 <= m <= 10 -> call_typed fbm s o -> typed tbl ->
  exists w tbl', max_prob_calc (Some c) fbm m s o tbl = Ok (w, tbl') /\
    (0 <= w <= 1)%Qc /\ typed tbl'.
Proof.
  intros Hs Hm Hcall Htbl. unfold max_prob_calc.
  destruct (move_points_wf c m o) as (Hf & Hsum & Hpts).
  rewrite (pbind_Ok _ _ tbl (move_points c m o) tbl) by (unfold plift; by rewrite Hpts).
  destruct (prob_loop_typed fbm s o (move_points c m o) 0%Qc tbl)
    as (x & tbl' & -> & [Hx0 Hx1] & ?); [done | done | done | done |].
  exists x, tbl'. rewrite Qcplus_0_l.
  split; [done | split; [split; [done | by eapply Qcle_trans] | done]].
Qed.

Lemma argmax_loop_typed fbm s o ms mp bm tbl :
  0 <= s -> Forall (fun m => 0 <= m <= 10) ms -> call_typed fbm s o -> move_ok bm mp -> typed tbl ->
  exists bm' mp' tbl', argmax_loop (Some c) fbm s o ms mp (Some bm) tbl = Ok ((mp', Some bm'), tbl') /\
    move_ok bm' mp' /\ typed tbl'.
Proof.
  intros Hs Hms Hcall. revert mp bm tbl.
  induction Hms as [| m ms Hm Hms IH]; intros mp bm tbl Hok Htbl; cbn [argmax_loop].
  { by exists bm, mp, tbl. }
  destruct (max_prob_calc_typed fbm m s o tbl) as (w & tbl1 & Hcalc & Hw & Ht1); [done .. |].
  rewrite (pbind_Ok _ _ _ _ _ Hcalc).
  case_bool_decide; apply IH; [split | | done | done]; done.
Qed.
End Typing.

(** ** Filling the whole table: the loops of [gen_final_strategy] *)

(** [if best_move[i][j] == 0: find_best_move(i, j, best_move)]; the fuel
    200 bounds the recursion depth of every call from a state of the
    board ([need] is at most 200), far below Python's limit. *)
Definition gen_final_cell (prob_cutoff : option Qc) (i j : Z) : PyM move_table unit :=
  do best_move <- pget;
  do e <- plift (py_index2 best_move i j);
  match e with
  | Unsolved => do _ <- find_best_move prob_cutoff 200 i j; pret tt
  | Solved _ _ => pret tt
  end.

(** [for i in reversed(range(100)): for j in reversed(range(100)): ...]. *)
Definition gen_final_table (prob_cutoff : option Qc) : PyM move_table unit :=
  pfor (rev (range 0 100)) (fun i =>
    pfor (rev (range 0 100)) (fun j => gen_final_cell prob_cutoff i j)).

Lemma solved_at_grows tbl tbl' s o : solved_at tbl s o -> grows tbl tbl' -> solved_at tbl' s o.
Proof. intros (m & p & H) Hg. exact (Hg _ _ _ _ H). Qed.


Lemma gen_final_cell_spec c i j tbl :
  0 <= i < 100 -> 0 <= j < 100 -> sound c tbl ->
  exists tbl', gen_final_cell (Some c) i j tbl = Ok (tt, tbl') /\
    sound c tbl' /\ grows tbl tbl' /\ solved_at tbl' i j.
Proof.
  intros Hi Hj Htbl. unfold gen_final_cell. py_read.
  rewrite py_index2_nonneg by lia.
  destruct (grid_lookup2 100 100 tbl (Z.to_nat i) (Z.to_nat j)) as [[| m p] He];
    [apply Htbl | lia | lia | rewrite He |].
  - destruct (find_best_move_sim c 200 i j tbl) as (tbl' & Hf & ? & ? & ?);
      [lia | lia | unfold need; lia | done |].
    exists tbl'. by rewrite (pbind_Ok _ _ _ _ _ Hf).
  - rewrite He. exists tbl. split; [done |]. split; [done |]. split; [auto with hog | by exists m, p].
Qed.

Lemma opt_star_first_max c s o :
  0 <= s < 100 -> 0 <= o < 100 ->
  exists pre post, range 0 11 = pre ++ (opt_star c s o).1 :: post /\
    (opt_star c s o).2 = move_value c (fun a b => (opt_star c a b).2) s o (opt_star c s o).1 /\
    Forall (fun m => move_value c (fun a b => (opt_star c a b).2) s o m < (opt_star c s o).2)%Qc pre /\
    Forall (fun m => move_value c (fun a b => (opt_star c a b).2) s o m <= (opt_star c s o).2)%Qc
      (range 0 11).
Proof.
  intros Hs Ho. rewrite opt_star_unfold by done.
  apply first_max_spec; [done |]. intros m _. apply move_value_bounds. intros; apply opt_star_bounds.
Qed.

Lemma move_value_at_99 c V o m : (move_value c V 99 o m = py_sum (map snd (move_points c m o)))%Qc.
Proof.
  unfold move_value. rewrite <- (Qcmult_1_r (py_sum _)), <- expect_const.
  apply expect_ext_in. intros [r p] Hin. simpl.
  destruct (move_points_wf c m o) as (Hf & _ & _).
  pose proof (proj1 (List.Forall_forall _ _) Hf _ Hin) as [_ Hr]. simpl in Hr.
  unfold outcome_value. pose proof (square_add_ge 99 r ltac:(lia)).
  by rewrite (proj2 (Z.leb_le 100 (square_add 99 r))) by lia.
Qed.

Lemma opt_star_99 c o : 0 <= o < 100 -> opt_star c 99 o = (0, 1%Qc).
Proof.
  intros Ho. destruct (opt_star_first_max c 99 o) as (pre & post & Hms & Hv & Hpre & Hall); [lia | done |].
  rewrite move_value_at_99 in Hv.
  assert (H0 : py_sum (map snd (move_points c 0 o)) = 1%Qc) by qc_eval.
  destruct (move_points_wf c (opt_star c 99 o).1 o) as (_ & Hle & _).
  pose proof (proj1 (List.Forall_forall _ _) Hall 0 ltac:(apply in_range; lia)) as H1.
  cbv beta in H1. rewrite move_value_at_99, H0 in H1.
  assert (Hp : (opt_star c 99 o).2 = 1%Qc) by (apply Qcle_antisym; [by rewrite Hv | done]).
  destruct (opt_star c 99 o) as [m p] eqn:E. simpl in Hp, Hms, Hpre. subst p. f_equal.
  apply (range_split 11) in Hms as [-> Hm].
  destruct (Z.eq_dec m 0) as [| Hne]; [done | exfalso].
  pose proof (proj1 (List.Forall_forall _ _) Hpre 0 ltac:(apply in_range; lia)) as H2.
  cbv beta in H2. rewrite move_value_at_99, H0 in H2. by apply Qclt_not_eq in H2.
Qed.

(** ** Properties *)

(** C1: the memoised solver implements the reference: started with
    enough fuel on a sound memo table, [find_best_move] returns the
    reference move and win probability [opt_star] of the state, leaves a
    sound table, and has solved the state's cell. *)
Theorem find_best_move_refines (c : Qc) (f : nat) (s o : Z) (tbl : move_table) :
  0 <= s < 100 -> 0 <= o < 100 -> (need s o <= f)%nat -> sound c tbl ->
  exists tbl', find_best_move (Some c) f s o tbl = Ok (opt_star c s o, tbl') /\
    sound c tbl' /\ solved_at tbl' s o.
Proof.
  intros Hs Ho Hf Htbl.
  destruct (find_best_move_sim c f s o tbl Hs Ho Hf Htbl) as (tbl' & ? & ? & _ & ?). eauto.
Qed.

Lemma gen_final_table_spec c :
  exists tbl, gen_final_table (Some c) fresh_move_table = Ok (tt, tbl) /\ sound c tbl /\
    forall i j, 0 <= i < 100 -> 0 <= j < 100 -> solved_at tbl i j.
Proof.
  destruct (pfor_spec (sound c) grows
              (fun i tbl => forall j, In j (rev (range 0 100)) -> solved_at tbl i j)
              (rev (range 0 100))
              (fun i => pfor (rev (range 0 100)) (fun j => gen_final_cell (Some c) i j))
              fresh_move_table) as (tbl & Hrun & Hsnd & _ & Hall);
    [apply grows_refl | apply grows_trans | eauto using solved_at_grows | | apply sound_fresh |].
  { intros i tbl0 Hi%in_board Htbl0.
    destruct (pfor_spec (sound c) grows (fun j tbl => solved_at tbl i j)
                (rev (range 0 100)) (fun j => gen_final_cell (Some c) i j) tbl0)
      as (tbl1 & ? & ? & ? & ?);
      [apply grows_refl | apply grows_trans | eauto using solved_at_grows | | done |].
    - intros j tbl2 Hj%in_board Htbl2. by apply gen_final_cell_spec.
    - exists tbl1. auto. }
  exists tbl. split; [done |]. split; [done |]. intros i j Hi Hj.
  exact (Hall i (board_in i Hi) j (board_in j Hj)).
Qed.

(** A solved cell of a sound table holds the reference move. *)
Lemma sound_solved_at c tbl s o :
  0 <= s -> 0 <= o -> sound c tbl -> solved_at tbl s o ->
  py_index2 tbl s o = Ok (Solved (opt_star c s o).1 (opt_star c s o).2).
Proof.
  intros Hs Ho [_ Hsnd] (m & p & Hmp).
  rewrite py_index2_nonneg, Hmp by lia. apply Hsnd in Hmp. rewrite !Z2Nat.id in Hmp by lia.
  by rewrite Hmp.
Qed.

(** C3: the loops of [gen_final_strategy] terminate on the fresh table
    and leave every cell of the 100 x 100 board solved with the reference
    move and win probability. *)
Theorem gen_final_table_solves_all (c : Qc) :
  exists tbl, gen_final_table (Some c) fresh_move_table = Ok (tt, tbl) /\
    forall i j, 0 <= i < 100 -> 0 <= j < 100 ->
      py_index2 tbl i j = Ok (Solved (opt_star c i j).1 (opt_star c i j).2).
Proof.
  destruct (gen_final_table_spec c) as (tbl & Hrun & Hsnd & Hall).
  exists tbl. split; [done |]. intros i j Hi Hj. apply sound_solved_at; auto with lia.
Qed.

(** C2: the move [find_best_move] returns is optimal with the lowest
    index among ties: its value, the expected worth of its outcomes when
    every successor state is worth one minus the opponent's win
    probability, is the returned probability, no move of [0..10] does
    better, and every smaller move does strictly worse. *)
Theorem find_best_move_optimal (c : Qc) (f : nat) (s o : Z) (tbl : move_table) :
  0 <= s < 100 -> 0 <= o < 100 -> (need s o <= f)%nat -> sound c tbl ->
  let V := fun a b => (opt_star c a b).2 in
  exists m p tbl', find_best_move (Some c) f s o tbl = Ok ((m, p), tbl') /\
    0 <= m <= 10 /\ p = move_value c V s o m /\
    (forall m', 0 <= m' <= 10 -> (move_value c V s o m' <= p)%Qc) /\
    (forall m', 0 <= m' < m -> (move_value c V s o m' < p)%Qc).
Proof.
  intros Hs Ho Hf Htbl V.
  destruct (find_best_move_sim c f s o tbl Hs Ho Hf Htbl) as (tbl' & Hrun & _).
  destruct (opt_star_first_max c s o Hs Ho) as (pre & post & Hms & Hv & Hpre & Hall).
  destruct (opt_star c s o) as [m p] eqn:E. simpl in *.
  exists m, p, tbl'. split; [done |].
  apply (range_split 11) in Hms as [-> Hm]. split; [lia |]. split; [done |].
  split; intros m' Hm'; [apply (proj1 (List.Forall_forall _ _) Hall) | apply (proj1 (List.Forall_forall _ _) Hpre)];
    apply in_range; lia.
Qed.

(** C15: one point from the goal, rolling zero dice wins for sure: at
    score 99 [find_best_move] returns move 0 with probability 1, whatever
    the opponent's score and the cutoff. *)
Theorem find_best_move_at_99 (c : Qc) (f : nat) (o : Z) (tbl : move_table) :
  0 <= o < 100 -> (need 99 o <= f)%nat -> sound c tbl ->
  exists tbl', find_best_move (Some c) f 99 o tbl = Ok ((0, 1%Qc), tbl').
Proof.
  intros Ho Hf Htbl.
  destruct (find_best_move_sim c f 99 o tbl ltac:(lia) Ho Hf Htbl) as (tbl' & Hrun & _).
  rewrite opt_star_99 in Hrun by done. eauto.
Qed.

(** C18: a state off the board is refused by the assertion
    [score < 100 and opponent_score < 100]. *)
Theorem find_best_move_off_board (pc : option Qc) (f : nat) (s o : Z) (tbl : move_table) :
  100 <= s \/ 100 <= o -> find_best_move pc (S f) s o tbl = Err AssertionError.
Proof.
  intros H. cbn [find_best_move].
  destruct (Z.ltb_spec s 100), (Z.ltb_spec o 100); simpl; [lia | done | done | done].
Qed.

Lemma fresh_lookup2 i j : (i < 100)%nat -> (j < 100)%nat -> lookup2 fresh_move_table i j = Some Unsolved.
Proof.
  apply lookup2_replicate.
Qed.

Lemma argmax_loop_first_err pc fbm s o m rest mp mr tbl e :
  max_prob_calc pc fbm m s o tbl = Err e -> argmax_loop pc fbm s o (m :: rest) mp mr tbl = Err e.
Proof. intros H. cbn [argmax_loop]. by apply pbind_Err. Qed.

(** Without a cutoff, move [1] fails in [prune]. *)
Lemma argmax_loop_second_unassigned fbm s o m rest mp mr tbl w tbl' :
  max_prob_calc None fbm m s o tbl = Ok (w, tbl') ->
  argmax_loop None fbm s o (m :: 1 :: rest) mp mr tbl = Err NameError.
Proof.
  intros H. cbn [argmax_loop]. rewrite (pbind_Ok _ _ _ _ _ H). by case_bool_decide.
Qed.

Lemma max_prob_calc_zero pc fbm s o tbl :
  max_prob_calc pc fbm 0 s o tbl =
  if 100 <=? square_add s (tail_points o) then Ok ((0 + 1 * 1)%Qc, tbl)
  else (do e <- fbm o (square_add s (tail_points o));
        pret (0 + (1 - e.2) * 1)%Qc) tbl.
Proof.
  unfold max_prob_calc. cbn [points_of negb Z.eqb plift pbind prob_loop].
  by destruct (100 <=? square_add s (tail_points o)).
Qed.

(** C17: when [hog.py] is imported instead of run, [prob_cutoff] is
    never assigned, and [find_best_move] on a fresh table fails with a
    [NameError] from every state of the board. *)
Theorem find_best_move_unassigned_cutoff (f : nat) (s o : Z) :
  0 <= s < 100 -> 0 <= o < 100 -> (need s o <= f)%nat ->
  find_best_move None f s o fresh_move_table = Err NameError.
Proof.
  revert s o. induction f as [| f IH]; intros s o Hs Ho Hf; [unfold need in Hf; lia |].
  cbn [find_best_move].
  rewrite (proj2 (Z.ltb_lt s 100)), (proj2 (Z.ltb_lt o 100)) by lia. cbn [negb andb].
  py_read.
  rewrite py_index2_nonneg, fresh_lookup2 by lia.
  rewrite range_0_11, range_1_11. apply pbind_Err.
  pose proof (max_prob_calc_zero None (find_best_move None f) s o fresh_move_table) as H0.
  destruct (100 <=? square_add s (tail_points o)) eqn:E.
  - by eapply argmax_loop_second_unassigned.
  - apply argmax_loop_first_err. rewrite H0. apply Z.leb_gt in E.
    pose proof (square_add_ge s (tail_points o)). pose proof (tail_points_pos o).
    apply pbind_Err, IH; unfold need in *; lia.
Qed.

(** C31: the assertion of [find_best_move] has no lower bound: a
    negative score passes it and Python's negative indexing reads the
    cell of the score [score + 100]; a solved entry there is returned as
    the answer for the negative state. *)
Theorem find_best_move_negative_score (pc : option Qc) (f : nat) (s o : Z) (tbl : move_table)
    (m : Z) (p : Qc) :
  -100 <= s < 0 -> 0 <= o < 100 -> grid 100 100 tbl ->
  py_index2 tbl (s + 100) o = Ok (Solved m p) ->
  find_best_move pc (S f) s o tbl = Ok ((m, p), tbl).
Proof.
  intros Hs Ho Hg He. cbn [find_best_move].
  rewrite (proj2 (Z.ltb_lt s 100)), (proj2 (Z.ltb_lt o 100)) by lia. cbn [negb andb].
  py_read.
  rewrite (py_index2_neg_row 100 100 tbl s o Hg) by lia.
  replace (s + Z.of_nat 100) with (s + 100) by lia. by rewrite He.
Qed.

(** C14: the memo table keeps its type: on any table whose cells are
    [0] or a dice count in [0..10] with a probability in [[0, 1]] (sound
    or not, e.g. one read back from a file), [find_best_move] with enough
    fuel raises nothing, answers such a pair and leaves the table of that
    type. *)
Theorem find_best_move_typed (c : Qc) (f : nat) (s o : Z) (tbl : move_table) :
  0 <= s < 100 -> 0 <= o < 100 -> (need s o <= f)%nat -> typed tbl ->
  exists m p tbl', find_best_move (Some c) f s o tbl = Ok ((m, p), tbl') /\
    move_ok m p /\ typed tbl'.
Proof.
  revert s o tbl. induction f as [| f IH]; intros s o tbl Hs Ho Hf Htbl; [unfold need in Hf; lia |].
  cbn [find_best_move].
  rewrite (proj2 (Z.ltb_lt s 100)), (proj2 (Z.ltb_lt o 100)) by lia. cbn [negb andb].
  py_read.
  rewrite py_index2_nonneg by lia.
  destruct (grid_lookup2 100 100 tbl (Z.to_nat s) (Z.to_nat o)) as [e He];
    [apply Htbl | lia | lia |]. rewrite He.
  destruct e as [| m p]; [| exists m, p, tbl; exact (conj eq_refl (conj (proj2 Htbl _ _ _ He) Htbl))].
  assert (Hcall : call_typed (find_best_move (Some c) f) s o).
  { intros b tbl1 Hb Ht1. apply IH; [lia | lia | unfold need in *; lia | done]. }
  rewrite range_0_11. cbn [argmax_loop].
  destruct (max_prob_calc_typed c (find_best_move (Some c) f) 0 s o tbl) as (w & tbl1 & Hc1 & Hw & Ht1);
    [lia | lia | done | done |].
  rewrite pbind_assoc, (pbind_Ok _ _ _ _ _ Hc1). cbv beta.
  rewrite bool_decide_true by (apply (Qclt_le_trans _ 0%Qc); [by vm_compute | apply Hw]).
  destruct (argmax_loop_typed c (find_best_move (Some c) f) s o (range 1 11) w 0 tbl1)
    as (bm & mp & tbl2 & Hc2 & Hok & Ht2); [lia | | done | split; [lia | done] | done |].
  { apply Forall_forall. intros m Hm%list_elem_of_In%in_range. lia. }
  rewrite (pbind_Ok _ _ _ _ _ Hc2). cbv beta iota.
  rewrite (find_best_move_tail s o bm mp tbl2 Hs Ho (proj1 Ht2)).
  exists bm, mp. eexists. split; [reflexivity | split; [done | by apply typed_update2]].
Qed.

(** ** The properties at concrete inputs *)

Lemma need_99_0 : (need 99 0 <= 101)%nat.
Proof. unfold need. simpl. lia. Qed.

Lemma find_best_move_refines_witness :
  exists tbl', find_best_move (Some 0%Qc) 101 99 0 fresh_move_table =
    Ok (opt_star 0%Qc 99 0, tbl') /\ sound 0%Qc tbl' /\ solved_at tbl' 99 0.
Proof. apply find_best_move_refines; [lia | lia | apply need_99_0 | apply sound_fresh]. Defined.

Lemma find_best_move_optimal_witness :
  let V := fun a b => (opt_star run_prob_cutoff a b).2 in
  exists m p tbl', find_best_move (Some run_prob_cutoff) 101 99 0 fresh_move_table = Ok ((m, p), tbl') /\
    0 <= m <= 10 /\ p = move_value run_prob_cutoff V 99 0 m /\
    (forall m', 0 <= m' <= 10 -> (move_value run_prob_cutoff V 99 0 m' <= p)%Qc) /\
    (forall m', 0 <= m' < m -> (move_value run_prob_cutoff V 99 0 m' < p)%Qc).
Proof. apply find_best_move_optimal; [lia | lia | apply need_99_0 | apply sound_fresh]. Defined.

Lemma gen_final_table_solves_all_witness :
  exists tbl, gen_final_table (Some 0%Qc) fresh_move_table = Ok (tt, tbl) /\
    py_index2 tbl 0 0 = Ok (Solved (opt_star 0%Qc 0 0).1 (opt_star 0%Qc 0 0).2).
Proof.
  destruct (gen_final_table_solves_all 0%Qc) as (tbl & Hrun & Hall).
  exists tbl. split; [exact Hrun | apply Hall; lia].
Defined.

Lemma find_best_move_at_99_witness :
  exists tbl', find_best_move (Some run_prob_cutoff) 101 99 0 fresh_move_table = Ok ((0, 1%Qc), tbl').
Proof. apply find_best_move_at_99; [lia | apply need_99_0 | apply sound_fresh]. Defined.

Lemma find_best_move_off_board_witness :
  (100 <= 100 \/ 100 <= 0) /\ find_best_move None 1 100 0 fresh_move_table = Err AssertionError.
Proof. split; [lia | apply (find_best_move_off_board None 0 100 0); lia]. Defined.

Lemma find_best_move_unassigned_cutoff_witness :
  find_best_move None 101 99 0 fresh_move_table = Err NameError.
Proof. apply find_best_move_unassigned_cutoff; [lia | lia | apply need_99_0]. Defined.

Lemma find_best_move_negative_score_witness :
  py_index2 (update2 fresh_move_table 99 0 (Solved 0 1%Qc)) (-1 + 100) 0 = Ok (Solved 0 1%Qc) /\
  find_best_move None 1 (-1) 0 (update2 fresh_move_table 99 0 (Solved 0 1%Qc)) =
    Ok ((0, 1%Qc), update2 fresh_move_table 99 0 (Solved 0 1%Qc)).
Proof.
  assert (He : py_index2 (update2 fresh_move_table 99 0 (Solved 0 1%Qc)) (-1 + 100) 0 =
                 Ok (Solved 0 1%Qc)) by reflexivity.
  split; [exact He |].
  apply find_best_move_negative_score; [lia | lia | apply update2_grid, grid_replicate | exact He].
Defined.

Lemma find_best_move_typed_witness :
  typed (update2 fresh_move_table 99 0 (Solved 7 (Q2Qc (1 # 2)))) /\
  exists m p tbl', find_best_move (Some 0%Qc) 101 99 0
      (update2 fresh_move_table 99 0 (Solved 7 (Q2Qc (1 # 2)))) = Ok ((m, p), tbl') /\
    move_ok m p /\ typed tbl'.
Proof.
  assert (Ht : typed (update2 fresh_move_table 99 0 (Solved 7 (Q2Qc (1 # 2)))))
    by (apply typed_update2; [split; [lia | by split; vm_compute] | apply typed_fresh]).
  split; [exact Ht | apply find_best_move_typed; [lia | lia | apply need_99_0 | exact Ht]].
Defined.
