(* ===== verification/Greedy.v ===== *)
(** * Greedy: the expected-score solver [max_score_roll]

    [max_score_roll] of [src/hog.py] picks, for a state, the dice count
    whose expected score after the turn is largest: the square rule
    applied to the tail points for zero dice, the score plus the
    expected outcome of [dice_result n] (no square rule) for [n > 0].
    Its memo table [best_score] is a 100 x 100 list of moves holding
    [-1] for an unsolved state; [gen_final_strategy_v05] fills it.

    The main theorem [max_score_roll_choice] computes the answer in
    closed form: six dice unless zero dice gain at least 9 points, for
    the exact distribution and for the script's cutoff alike. *)

From S2P Require Import Prelude Rules Dice.

Open Scope Z_scope.

Abbreviation score_table := (list (list Z)).

(** [best_score = [[-1] * 100 for _ in range(100)]]. *)
Definition fresh_score_table : score_table := replicate 100 (replicate 100 (-1)).

Section Code.
Context (prob_cutoff : option Qc).

(** [new_points] of the loop body: [score + sum(roll * p)] over
    [dice_result(num_roll)], or [square_add(score, tail_points(...))]. *)
Definition new_points (num_roll score opponent_score : Z) : result Qc :=
  if negb (num_roll =? 0) then
    try rolls <- dice_result prob_cutoff (Z.to_nat num_roll);
    Ok (Qc_of_Z score + py_sum (map (fun kw => Qc_of_Z kw.1 * kw.2) rolls))%Qc
  else Ok (Qc_of_Z (square_add score (tail_points opponent_score))).

(** The [for num_roll in range(0, 11)] loop; [max_roll] is unbound
    ([None]) until a value exceeds [max_score]. *)
Fixpoint score_loop (score opponent_score : Z) (rolls : list Z) (max_score : Qc)
    (max_roll : option Z) : result (Qc * option Z) :=
  match rolls with
  | [] => Ok (max_score, max_roll)
  | num_roll :: rest =>
      try np <- new_points num_roll score opponent_score;
      if bool_decide (max_score < np)%Qc then score_loop score opponent_score rest np (Some num_roll)
      else score_loop score opponent_score rest max_score max_roll
  end.

Definition max_score_roll (score opponent_score : Z) : PyM score_table Z :=
  do best_score <- pget;
  do e <- plift (py_index2 best_score score opponent_score);
  if negb (e =? -1) then pret e
  else
    do '(_, max_roll) <- plift (score_loop score opponent_score (range 0 11) 0%Qc None);
    match max_roll with
    | None => pfail UnboundLocalError
    | Some max_roll =>
        do best_score <- pget;
        do best_score <- plift (py_store2 best_score score opponent_score max_roll);
        do _ <- pput best_score;
        do e <- plift (py_index2 best_score score opponent_score);
        pret e
    end.

(** [if best_score[i][j] == -1: best_score[i][j] = max_score_roll(i, j, best_score)]:
    the call stores the move, then the assignment stores it again. *)
Definition gen_v05_cell (i j : Z) : PyM score_table unit :=
  do best_score <- pget;
  do e <- plift (py_index2 best_score i j);
  if e =? -1 then
    do m <- max_score_roll i j;
    do best_score <- pget;
    do best_score <- plift (py_store2 best_score i j m);
    pput best_score
  else pret tt.

(** The loops of [gen_final_strategy_v05]. *)
Definition gen_v05_table : PyM score_table unit :=
  pfor (rev (range 0 100)) (fun i => pfor (rev (range 0 100)) (fun j => gen_v05_cell i j)).
End Code.

(** The expected outcome of [n] dice under the cutoff [c]. *)
Definition expected_roll (c : Qc) (n : Z) : Qc :=
  match dice_result (Some c) (Z.to_nat n) with
  | Ok d => expect d Qc_of_Z
  | Err _ => 0%Qc
  end.

(** The greedy move in closed form: six dice unless rolling none gains 9
    points or more. *)
Definition greedy_move (s o : Z) : Z :=
  if square_add s (tail_points o) - s <=? 8 then 6 else 0.

(** ** Lemmas *)

Lemma sum_roll_times_p (d : dist) :
  py_sum (map (fun kw => Qc_of_Z kw.1 * kw.2) d)%Qc = expect d Qc_of_Z.
Proof. unfold expect. f_equal. apply map_ext. intros kw. apply Qcmult_comm. Qed.

Lemma new_points_dice c m s o :
  1 <= m <= 10 -> new_points (Some c) m s o = Ok (Qc_of_Z s + expected_roll c m)%Qc.
Proof.
  intros Hm. unfold new_points, expected_roll.
  rewrite (proj2 (Z.eqb_neq m 0)) by lia. simpl.
  destruct (dice_result_invariant c (Z.to_nat m) ltac:(lia)) as (d & -> & _).
  by rewrite rbind_Ok, sum_roll_times_p.
Qed.

Lemma score_loop_pick pc s o val ms mx bm :
  (forall m, In m ms -> new_points pc m s o = Ok (val m)) ->
  score_loop pc s o ms mx (Some bm) =
    Ok ((fold_left (pick val) ms (bm, mx)).2, Some (fold_left (pick val) ms (bm, mx)).1).
Proof.
  revert mx bm. induction ms as [| m ms IH]; intros mx bm Hnp; [done |].
  cbn [score_loop fold_left]. rewrite Hnp by (by left). rewrite rbind_Ok.
  assert (Hnp' : forall m', In m' ms -> new_points pc m' s o = Ok (val m')) by (intros; apply Hnp; by right).
  case_bool_decide as Hlt.
  - replace (pick val (bm, mx) m) with (m, val m) by (unfold pick; simpl; by rewrite bool_decide_true).
    by apply IH.
  - replace (pick val (bm, mx) m) with (bm, mx) by (unfold pick; simpl; by rewrite bool_decide_false).
    by apply IH.
Qed.

(** The expected outcomes of one to ten dice, for the exact distribution
    and for the script's cutoff: six dice is the unique best, with an
    expectation between 8 and 9. *)
Definition six_is_best (c : Qc) : bool :=
  forallb (fun m => (m =? 6) || bool_decide (expected_roll c m < expected_roll c 6)%Qc) (range 1 11)
  && bool_decide (Qc_of_Z 8 < expected_roll c 6)%Qc
  && bool_decide (expected_roll c 6 < Qc_of_Z 9)%Qc.

Lemma six_is_best_spec c :
  six_is_best c = true ->
  (forall m, 1 <= m <= 10 -> m <> 6 -> (expected_roll c m < expected_roll c 6)%Qc) /\
  (Qc_of_Z 8 < expected_roll c 6 < Qc_of_Z 9)%Qc.
Proof.
  unfold six_is_best. intros [[Hall H8]%andb_true_iff H9]%andb_true_iff.
  apply bool_decide_eq_true in H8, H9. split; [| done].
  intros m Hm H6. rewrite forallb_forall in Hall.
  specialize (Hall m (proj2 (in_range 1 11 m) ltac:(lia))).
  apply orb_true_iff in Hall as [H | H]; [lia | by apply bool_decide_eq_true in H].
Qed.

Lemma six_is_best_cutoffs c : c = 0%Qc \/ c = run_prob_cutoff -> six_is_best c = true.
Proof. intros [-> | ->]; vm_compute; reflexivity. Qed.

Lemma greedy_loop c s o :
  six_is_best c = true -> 0 <= s ->
  exists mx, score_loop (Some c) s o (range 0 11) 0%Qc None = Ok (mx, Some (greedy_move s o)).
Proof.
  intros Hbest Hs. destruct (six_is_best_spec c Hbest) as [Hlt [H8 H9]].
  set (sa := square_add s (tail_points o)).
  set (val := fun m => if m =? 0 then Qc_of_Z sa else (Qc_of_Z s + expected_roll c m)%Qc).
  assert (Hsa : s + 1 <= sa) by (pose proof (tail_points_pos o); pose proof (square_add_ge s (tail_points o)); lia).
  rewrite range_0_11. cbn [score_loop].
  unfold new_points at 1. cbn [negb Z.eqb rbind]. fold sa.
  rewrite bool_decide_true by (rewrite <- Z2Qc_inj_0; apply (proj1 (Z2Qc_inj_lt 0 sa)); lia).
  rewrite (score_loop_pick _ s o val).
  2: { intros m Hm%in_range. unfold val. rewrite (proj2 (Z.eqb_neq m 0)) by lia.
       apply new_points_dice. lia. }
  eexists. f_equal. f_equal. f_equal.
  destruct (fold_pick val (range 1 11) (0, Qc_of_Z sa)) as (_ & Hall & [Heq | (pre & post & Hms & Hv & Hgt & _)]).
  - rewrite Heq. cbn [fst]. unfold greedy_move. fold sa.
    pose proof (proj1 (List.Forall_forall _ _) Hall 6 ltac:(apply in_range; lia)) as H6.
    rewrite Heq in H6. unfold val in H6. cbn [fst snd Z.eqb] in H6.
    destruct (Z.leb_spec (sa - s) 8); [exfalso | done].
    assert (Hq : (Qc_of_Z sa <= Qc_of_Z s + Qc_of_Z 8)%Qc) by (rewrite <- Z2Qc_inj_add; apply (proj1 (Z2Qc_inj_le _ _)); lia).
    apply (Qclt_not_le _ _ (Qcle_lt_trans _ _ _ Hq (proj1 (Qcplus_lt_mono_l _ _ (Qc_of_Z s)) H8))).
    exact H6.
  - set (r := fold_left _ _ _) in *.
    assert (Hr : In r.1 (range 1 11)) by (rewrite Hms; apply in_or_app; right; left; done).
    apply in_range in Hr.
    assert (Hr6 : r.1 = 6).
    { destruct (Z.eq_dec r.1 6) as [| Hne]; [done | exfalso].
      pose proof (proj1 (List.Forall_forall _ _) Hall 6 ltac:(apply in_range; lia)) as H6.
      rewrite Hv in H6. unfold val in H6. rewrite (proj2 (Z.eqb_neq r.1 0)) in H6 by lia. cbv beta iota in H6.
      apply Qcplus_le_mono_l in H6. apply (Qclt_not_le _ _ (Hlt r.1 ltac:(lia) Hne)). exact H6. }
    rewrite Hr6. unfold greedy_move. fold sa.
    rewrite Hv, Hr6 in Hgt. unfold val in Hgt. cbn [fst snd Z.eqb] in Hgt.
    destruct (Z.leb_spec (sa - s) 8); [done | exfalso].
    assert (Hq : (Qc_of_Z s + Qc_of_Z 9 <= Qc_of_Z sa)%Qc) by (rewrite <- Z2Qc_inj_add; apply (proj1 (Z2Qc_inj_le _ _)); lia).
    apply (Qclt_not_le _ _ (Qclt_trans _ _ _ Hgt (Qclt_le_trans _ _ _ (proj1 (Qcplus_lt_mono_l _ _ (Qc_of_Z s)) H9) Hq))).
    apply Qcle_refl.
Qed.

Lemma max_score_roll_unsolved c s o tbl :
  six_is_best c = true -> 0 <= s < 100 -> 0 <= o < 100 -> grid 100 100 tbl ->
  lookup2 tbl (Z.to_nat s) (Z.to_nat o) = Some (-1) ->
  max_score_roll (Some c) s o tbl =
    Ok (greedy_move s o, update2 tbl (Z.to_nat s) (Z.to_nat o) (greedy_move s o)).
Proof.
  intros Hbest Hs Ho Hg He. unfold max_score_roll. py_read.
  rewrite py_index2_nonneg, He by lia. rewrite Z.eqb_refl. cbn [negb].
  destruct (greedy_loop c s o Hbest ltac:(lia)) as (mx & Hloop).
  unfold pbind at 1, plift at 1. rewrite Hloop.
  py_read.
  rewrite (py_store2_grid 100 100) by (done || lia).
  py_write.
  rewrite py_index2_nonneg, lookup2_update2, bool_decide_true, He by (done || lia). done.
Qed.

Lemma max_score_roll_cached pc s o tbl e :
  0 <= s -> 0 <= o -> lookup2 tbl (Z.to_nat s) (Z.to_nat o) = Some e -> e <> -1 ->
  max_score_roll pc s o tbl = Ok (e, tbl).
Proof.
  intros Hs Ho He Hne. unfold max_score_roll. py_read.
  rewrite py_index2_nonneg, He by lia. by rewrite (proj2 (Z.eqb_neq e (-1))).
Qed.

(** The cell of [(i, j)] holds the greedy move. *)
Definition greedy_at (t : score_table) (i j : Z) : Prop :=
  lookup2 t (Z.to_nat i) (Z.to_nat j) = Some (greedy_move i j).

(** Every cell of the board is unsolved or holds the greedy move. *)
Definition greedy_table (t : score_table) : Prop :=
  grid 100 100 t /\
  forall i j, 0 <= i < 100 -> 0 <= j < 100 ->
    lookup2 t (Z.to_nat i) (Z.to_nat j) = Some (-1) \/ greedy_at t i j.

Definition keeps_greedy (t t' : score_table) : Prop :=
  forall i j, 0 <= i < 100 -> 0 <= j < 100 -> greedy_at t i j -> greedy_at t' i j.

Lemma update2_greedy t i j :
  0 <= i < 100 -> 0 <= j < 100 -> greedy_table t ->
  let t' := update2 t (Z.to_nat i) (Z.to_nat j) (greedy_move i j) in
  greedy_table t' /\ keeps_greedy t t' /\ greedy_at t' i j.
Proof.
  intros Hi Hj [Hg Hc] t'.
  assert (Hat : greedy_at t' i j).
  { unfold greedy_at, t'. rewrite lookup2_update2, bool_decide_true by done.
    by destruct (grid_lookup2 100 100 t (Z.to_nat i) (Z.to_nat j) Hg ltac:(lia) ltac:(lia)) as [? ->]. }
  split; [split; [by apply update2_grid |] | split; [| done]].
  - intros i' j' Hi' Hj'. destruct (decide (i = i' /\ j = j')) as [[<- <-] | Hne]; [by right |].
    unfold greedy_at, t'. rewrite !lookup2_update2, bool_decide_false by (intros [? ?]; apply Hne; lia).
    by apply Hc.
  - intros i' j' Hi' Hj' H. destruct (decide (i = i' /\ j = j')) as [[<- <-] | Hne]; [done |].
    unfold greedy_at, t' in *. rewrite lookup2_update2, bool_decide_false by (intros [? ?]; apply Hne; lia).
    done.
Qed.

Lemma greedy_move_not_unsolved s o : greedy_move s o <> -1.
Proof. unfold greedy_move. by destruct (_ <=? 8). Qed.

Lemma max_score_roll_greedy c s o t :
  six_is_best c = true -> 0 <= s < 100 -> 0 <= o < 100 -> greedy_table t ->
  exists t', max_score_roll (Some c) s o t = Ok (greedy_move s o, t') /\
    greedy_table t' /\ keeps_greedy t t'.
Proof.
  intros Hbest Hs Ho Ht. pose proof Ht as [Hg Hc].
  destruct (Hc s o Hs Ho) as [He | He].
  - rewrite (max_score_roll_unsolved c s o t Hbest Hs Ho Hg He). eexists. split; [reflexivity |].
    by destruct (update2_greedy t s o Hs Ho Ht) as (? & ? & _).
  - exists t. rewrite (max_score_roll_cached _ s o t (greedy_move s o)) by
      (done || lia || apply greedy_move_not_unsolved).
    split; [done | split; [done | by intros ? ? ? ? ?]].
Qed.

Lemma gen_v05_cell_spec c i j t :
  six_is_best c = true -> 0 <= i < 100 -> 0 <= j < 100 -> greedy_table t ->
  exists t', gen_v05_cell (Some c) i j t = Ok (tt, t') /\
    greedy_table t' /\ keeps_greedy t t' /\ greedy_at t' i j.
Proof.
  intros Hbest Hi Hj Ht. destruct Ht as [Hg Hc] eqn:Ht'.
  unfold gen_v05_cell. py_read.
  rewrite py_index2_nonneg by lia.
  destruct (Hc i j Hi Hj) as [He | He]; rewrite He.
  - cbn [Z.eqb Pos.eqb].
    rewrite (pbind_Ok _ _ _ _ _ (max_score_roll_unsolved c i j t Hbest Hi Hj Hg He)).
    destruct (update2_greedy t i j Hi Hj Ht) as ([Hg1 Hc1] & Hk1 & Hat1).
    py_read.
    rewrite (py_store2_grid 100 100) by (done || lia).
    destruct (update2_greedy _ i j Hi Hj (conj Hg1 Hc1)) as (Ht2 & Hk2 & Hat2).
    eexists. split; [reflexivity |]. split; [done |]. split; [| done].
    intros ? ? ? ? ?; auto.
  - rewrite (proj2 (Z.eqb_neq _ _) (greedy_move_not_unsolved i j)).
    exists t. split; [done |]. split; [done |]. split; [by intros ? ? ? ? ? | done].
Qed.

Lemma fresh_score_greedy : greedy_table fresh_score_table.
Proof.
  split; [apply grid_replicate |].
  intros i j Hi Hj. left. apply lookup2_replicate; lia.
Qed.

(** ** Properties *)

(** C7: on an unsolved cell, [max_score_roll] rolls six dice unless zero
    dice gain at least 9 points (the square rule included), in which case
    it rolls none; it stores that move in the cell and returns it.  This
    holds for the exact distribution and for the script's cutoff. *)
Theorem max_score_roll_choice (c : Qc) (s o : Z) (tbl : score_table) :
  c = 0%Qc \/ c = run_prob_cutoff -> 0 <= s < 100 -> 0 <= o < 100 -> grid 100 100 tbl ->
  py_index2 tbl s o = Ok (-1) ->
  max_score_roll (Some c) s o tbl =
    Ok (greedy_move s o, update2 tbl (Z.to_nat s) (Z.to_nat o) (greedy_move s o)).
Proof.
  intros Hc Hs Ho Hg He. rewrite py_index2_nonneg in He by lia.
  apply max_score_roll_unsolved; [by apply six_is_best_cutoffs | done | done | done |].
  by destruct (lookup2 tbl _ _) as [e |]; [injection He as -> | ].
Qed.

(** The loops of [gen_final_strategy_v05] on the fresh table. *)
Lemma gen_v05_table_spec (c : Qc) :
  c = 0%Qc \/ c = run_prob_cutoff ->
  exists t, gen_v05_table (Some c) fresh_score_table = Ok (tt, t) /\
    forall i j, 0 <= i < 100 -> 0 <= j < 100 -> py_index2 t i j = Ok (greedy_move i j).
Proof.
  intros Hc%six_is_best_cutoffs.
  destruct (pfor_spec greedy_table keeps_greedy
              (fun i t => 0 <= i < 100 -> forall j, In j (rev (range 0 100)) -> greedy_at t i j)
              (rev (range 0 100))
              (fun i => pfor (rev (range 0 100)) (fun j => gen_v05_cell (Some c) i j))
              fresh_score_table) as (t & Hrun & _ & _ & Hall);
    [by intros ? ? ? ? ? | intros ? ? ? H1 H2 ? ? ? ? ?; auto | | | apply fresh_score_greedy |].
  { intros i t1 t2 H Hk Hi j Hj. apply Hk; [done | by apply in_board | by apply H]. }
  { intros i t0 Hi%in_board Ht0.
    destruct (pfor_spec greedy_table keeps_greedy (fun j t => 0 <= j < 100 -> greedy_at t i j)
                (rev (range 0 100)) (fun j => gen_v05_cell (Some c) i j) t0)
      as (t1 & ? & ? & ? & Hcells);
      [by intros ? ? ? ? ? | intros ? ? ? H1 H2 ? ? ? ? ?; auto | | | done |].
    - intros j t1 t2 H Hk Hj. apply Hk; [done | done | by apply H].
    - intros j t2 Hj%in_board Ht2.
      destruct (gen_v05_cell_spec c i j t2) as (t3 & ? & ? & ? & ?); [done | done | done | done |].
      exists t3. auto.
    - exists t1. split; [done |]. split; [done |]. split; [done |].
      intros _ j Hj. apply Hcells; [done | by apply in_board]. }
  exists t. split; [done |]. intros i j Hi Hj.
  rewrite py_index2_nonneg by lia.
  by rewrite (Hall i (board_in i Hi) Hi j (board_in j Hj)).
Qed.

(** C8: the loops of [gen_final_strategy_v05] terminate on the fresh
    table and leave the greedy move in every cell of the board. *)
Theorem gen_v05_table_fills (c : Qc) :
  c = 0%Qc \/ c = run_prob_cutoff ->
  exists t, gen_v05_table (Some c) fresh_score_table = Ok (tt, t) /\
    forall i j, 0 <= i < 100 -> 0 <= j < 100 -> py_index2 t i j = Ok (greedy_move i j).
Proof. apply gen_v05_table_spec. Qed.



(** C32: [max_score_roll] has no assertion on the state: a score of
    100 or more on the 100 x 100 table raises [IndexError] when the memo
    is read. *)
Theorem max_score_roll_off_board (pc : option Qc) (s o : Z) (tbl : score_table) :
  grid 100 100 tbl -> 100 <= s -> max_score_roll pc s o tbl = Err IndexError.
Proof.
  intros Hg Hs. unfold max_score_roll. py_read.
  by rewrite (py_index2_out_row 100 100 tbl s o Hg) by lia.
Qed.

(** ** The properties at concrete inputs *)

Lemma max_score_roll_choice_witness :
  py_index2 fresh_score_table 50 13 = Ok (-1) /\
  max_score_roll (Some run_prob_cutoff) 50 13 fresh_score_table =
    Ok (greedy_move 50 13, update2 fresh_score_table 50 13 (greedy_move 50 13)).
Proof.
  assert (He : py_index2 fresh_score_table 50 13 = Ok (-1)) by reflexivity.
  split; [exact He |].
  apply (max_score_roll_choice run_prob_cutoff 50 13 fresh_score_table);
    [by right | lia | lia | apply grid_replicate | exact He].
Defined.

Lemma gen_v05_table_fills_witness :
  exists t, gen_v05_table (Some 0%Qc) fresh_score_table = Ok (tt, t) /\
    py_index2 t 50 13 = Ok (greedy_move 50 13).
Proof.
  destruct (gen_v05_table_fills 0%Qc) as (t & Hrun & Hall); [by left |].
  exists t. split; [exact Hrun | apply Hall; lia].
Defined.

Lemma max_score_roll_off_board_witness :
  grid 100 100 fresh_score_table /\
  max_score_roll (Some run_prob_cutoff) 100 0 fresh_score_table = Err IndexError.
Proof.
  split; [apply grid_replicate |].
  apply max_score_roll_off_board; [apply grid_replicate | lia].
Defined.
