(* ===== verification/Strategy.v ===== *)
(** * Strategy: the table-backed strategies and the strategy interface

    The module [src/hog.py] keeps three globals that the strategies
    share: the table [best_move] (imported from [best_move_w_prob] and
    the default memo of [find_best_move]), the table [best_score]
    (imported from [best_score], the default memo of [max_score_roll])
    and [prob_cutoff].  [globals] is that shared store; the strategies
    read and write it through [on_best_move] and [on_best_score].

    [Strategy] is the interface the simulator relies on: a function of
    the two scores whose answer is a dice count in [0..10]. *)

From S2P Require Import Prelude Rules Dice Optimal Greedy.

Open Scope Z_scope.

Record globals := mk_globals {
  g_best_move : move_table;
  g_best_score : score_table;
  g_prob_cutoff : option Qc
}.

(** Run code on the [best_move] table of the globals. *)
Definition on_best_move {A} (c : PyM move_table A) : PyM globals A :=
  fun g => match c (g_best_move g) with
           | Ok (a, t) => Ok (a, mk_globals t (g_best_score g) (g_prob_cutoff g))
           | Err e => Err e
           end.

(** Run code on the [best_score] table of the globals. *)
Definition on_best_score {A} (c : PyM score_table A) : PyM globals A :=
  fun g => match c (g_best_score g) with
           | Ok (a, t) => Ok (a, mk_globals (g_best_move g) t (g_prob_cutoff g))
           | Err e => Err e
           end.

(** [final_strategy]: [if best_move[score][opponent_score] != -1:
    return best_move[score][opponent_score][0]], else
    [find_best_move(score, opponent_score)[0]] on the module's table
    (fuel 200, as in [gen_final_cell]). *)
Definition final_strategy (score opponent_score : Z) : PyM globals Z :=
  do g <- pget;
  do e <- plift (py_index2 (g_best_move g) score opponent_score);
  if negb (entry_eqb_int e (-1)) then plift (move_of e)
  else
    do r <- on_best_move (find_best_move (g_prob_cutoff g) 200 score opponent_score);
    pret r.1.

(** [final_strategy_v05(loss_switch, end_switch)] returns [strat]; the
    fuel 200 bounds [find_best_move]'s recursion as in [gen_final_cell]. *)
Definition final_strategy_v05 (loss_switch end_switch : Z) (score opponent_score : Z)
    : PyM globals Z :=
  do g <- pget;
  if score <? opponent_score + loss_switch then
    do e <- on_best_move (find_best_move (g_prob_cutoff g) 200 score opponent_score);
    pret e.1
  else if GOAL - end_switch <? score then
    do e <- on_best_move (find_best_move (g_prob_cutoff g) 200 score opponent_score);
    pret e.1
  else on_best_score (max_score_roll (g_prob_cutoff g) score opponent_score).

(** The interface of a strategy for the simulator. *)
Class Strategy (strategy : Z -> Z -> Z) : Prop :=
  strategy_range : forall score opponent_score, 0 <= strategy score opponent_score <= 10.

(** The state of [final_strategy_v05]'s tables the theorems assume: the
    [best_move] table is sound for the cutoff, the [best_score] table
    holds unsolved cells or greedy moves. *)
Definition globals_ok (c : Qc) (g : globals) : Prop :=
  g_prob_cutoff g = Some c /\ sound c (g_best_move g) /\ greedy_table (g_best_score g).

(** The fixed strategies of [src/hog.py] are strategies. *)
#[export] Instance always_roll_5_strategy : Strategy always_roll_5.
Proof. intros ? ?. unfold always_roll_5. lia. Qed.

(** ** Lemmas *)

Lemma on_best_move_Ok {A} (c : PyM move_table A) g a t :
  c (g_best_move g) = Ok (a, t) ->
  on_best_move c g = Ok (a, mk_globals t (g_best_score g) (g_prob_cutoff g)).
Proof. unfold on_best_move. by intros ->. Qed.

Lemma on_best_score_Ok {A} (c : PyM score_table A) g a t :
  c (g_best_score g) = Ok (a, t) ->
  on_best_score c g = Ok (a, mk_globals (g_best_move g) t (g_prob_cutoff g)).
Proof. unfold on_best_score. by intros ->. Qed.

(** The branch of [strat] that consults [find_best_move]. *)
Lemma strat_optimal_branch c s o g :
  g_prob_cutoff g = Some c -> 0 <= s < 100 -> 0 <= o < 100 -> sound c (g_best_move g) ->
  exists t', (do e <- on_best_move (find_best_move (g_prob_cutoff g) 200 s o); pret e.1) g =
    Ok ((opt_star c s o).1, mk_globals t' (g_best_score g) (g_prob_cutoff g)) /\ sound c t'.
Proof.
  intros Hpc Hs Ho Hsnd. rewrite Hpc.
  destruct (find_best_move_sim c 200 s o (g_best_move g)) as (t' & Hf & Ht' & _);
    [lia | lia | unfold need; lia | done |].
  exists t'. split; [| done]. rewrite (pbind_Ok _ _ _ _ _ (on_best_move_Ok _ _ _ _ Hf)).
  by rewrite <- Hpc.
Qed.


(** ** Properties *)

(** C9: the hybrid strategy of [final_strategy_v05] dispatches as the
    code's tests say: when [score < opponent_score + loss_switch] (the
    player does not lead by [loss_switch] or more; ties and small leads
    included) or [score > GOAL - end_switch], it plays the optimal move of
    [find_best_move]; otherwise (a lead of at least [loss_switch] and
    [score <= GOAL - end_switch]) the greedy move of [max_score_roll]; it
    keeps both memo tables in the shape the theorems assume. *)
Theorem final_strategy_v05_dispatch (c : Qc) (loss_switch end_switch s o : Z) (g : globals) :
  c = 0%Qc \/ c = run_prob_cutoff -> globals_ok c g -> 0 <= s < 100 -> 0 <= o < 100 ->
  exists g', final_strategy_v05 loss_switch end_switch s o g =
    Ok (if (s <? o + loss_switch) || (GOAL - end_switch <? s) then (opt_star c s o).1
        else greedy_move s o, g') /\ globals_ok c g'.
Proof.
  intros Hc%six_is_best_cutoffs (Hpc & Hsnd & Hgr) Hs Ho.
  unfold final_strategy_v05, pbind at 1, pget at 1.
  destruct (s <? o + loss_switch), (GOAL - end_switch <? s); cbn [orb];
    try (destruct (strat_optimal_branch c s o g) as (t' & -> & Ht'); [done | done | done | done |];
         eexists; split; [reflexivity | done]).
  rewrite Hpc.
  destruct (max_score_roll_greedy c s o (g_best_score g)) as (t' & Hm & Ht' & _); [done | done | done | done |].
  rewrite (on_best_score_Ok _ _ _ _ Hm). eexists. split; [reflexivity |].
  split; [done | split; [done | done]].
Qed.

(** C10: [final_strategy] tests its entry against [-1], but an unsolved
    entry of [best_move] is [0]: on an unsolved state the test passes and
    indexing [0[0]] raises a [TypeError] instead of calling
    [find_best_move]. *)
Theorem final_strategy_unsolved (s o : Z) (g : globals) :
  0 <= s -> 0 <= o -> lookup2 (g_best_move g) (Z.to_nat s) (Z.to_nat o) = Some Unsolved ->
  final_strategy s o g = Err TypeError.
Proof.
  intros Hs Ho He. unfold final_strategy. py_read.
  by rewrite py_index2_nonneg, He by lia.
Qed.

(** C11: on the table that [gen_final_strategy] computes, [final_strategy]
    plays the optimal move of every state of the board and changes
    nothing. *)
Theorem final_strategy_of_table (c : Qc) :
  exists tbl, gen_final_table (Some c) fresh_move_table = Ok (tt, tbl) /\
    forall s o bs pc, 0 <= s < 100 -> 0 <= o < 100 ->
      final_strategy s o (mk_globals tbl bs pc) = Ok ((opt_star c s o).1, mk_globals tbl bs pc).
Proof.
  destruct (gen_final_table_spec c) as (tbl & Hrun & Hsnd & Hall).
  exists tbl. split; [done |]. intros s o bs pc Hs Ho.
  unfold final_strategy. py_read. cbn [g_best_move].
  by rewrite (sound_solved_at c tbl s o) by (lia || auto).
Qed.

(** The part of a call's outcome the greedy solver owns: the answer
    and the [best_score] table. *)
Definition greedy_view (r : result (Z * globals)) : result (Z * score_table) :=
  match r with
  | Ok (m, g) => Ok (m, g_best_score g)
  | Err e => Err e
  end.

(** C36: the spec's independence of the two solvers: in the greedy
    range of [final_strategy_v05] the answer and the [best_score] table
    do not depend on the [best_move] table, which the call leaves
    unchanged. *)
Theorem final_strategy_v05_greedy_independent (loss_switch end_switch s o : Z) (g1 g2 : globals) :
  g_best_score g1 = g_best_score g2 -> g_prob_cutoff g1 = g_prob_cutoff g2 ->
  o + loss_switch <= s -> s <= GOAL - end_switch ->
  greedy_view (final_strategy_v05 loss_switch end_switch s o g1) =
    greedy_view (final_strategy_v05 loss_switch end_switch s o g2) /\
  forall m g', final_strategy_v05 loss_switch end_switch s o g1 = Ok (m, g') ->
    g_best_move g' = g_best_move g1.
Proof.
  intros Hs Hc H1 H2. unfold final_strategy_v05, pbind, pget.
  rewrite !(proj2 (Z.ltb_ge s (o + loss_switch))), !(proj2 (Z.ltb_ge (GOAL - end_switch) s)) by lia.
  cbv beta iota. unfold on_best_score. rewrite <- Hs, <- Hc.
  split.
  - by destruct (max_score_roll _ _ _ _) as [[m t] |].
  - intros m g'. destruct (max_score_roll _ _ _ _) as [[m' t] |]; [| done]. by intros [= _ <-].
Qed.

(** ** The properties at concrete inputs *)

(** The globals of a fresh session with the exact distribution. *)
Definition fresh_globals : globals := mk_globals fresh_move_table fresh_score_table (Some 0%Qc).

Lemma fresh_globals_ok : globals_ok 0%Qc fresh_globals.
Proof. split; [done | split; [apply sound_fresh | apply fresh_score_greedy]]. Qed.

Lemma final_strategy_v05_dispatch_witness :
  exists g', final_strategy_v05 10 16 20 40 fresh_globals =
    Ok (if (20 <? 40 + 10) || (GOAL - 16 <? 20) then (opt_star 0%Qc 20 40).1
        else greedy_move 20 40, g') /\ globals_ok 0%Qc g'.
Proof.
  apply final_strategy_v05_dispatch; [by left | apply fresh_globals_ok | lia | lia].
Defined.

Lemma final_strategy_unsolved_witness :
  lookup2 (g_best_move fresh_globals) 0 0 = Some Unsolved /\
  final_strategy 0 0 fresh_globals = Err TypeError.
Proof.
  assert (He : lookup2 (g_best_move fresh_globals) (Z.to_nat 0) (Z.to_nat 0) = Some Unsolved)
    by reflexivity.
  split; [exact He | apply final_strategy_unsolved; [lia | lia | exact He]].
Defined.

Lemma final_strategy_of_table_witness :
  exists tbl, gen_final_table (Some 0%Qc) fresh_move_table = Ok (tt, tbl) /\
    final_strategy 0 0 (mk_globals tbl fresh_score_table None) =
      Ok ((opt_star 0%Qc 0 0).1, mk_globals tbl fresh_score_table None).
Proof.
  destruct (final_strategy_of_table 0%Qc) as (tbl & Hrun & Hall).
  exists tbl. split; [exact Hrun | apply Hall; lia].
Defined.

Lemma final_strategy_v05_greedy_independent_witness :
  g_best_score fresh_globals = g_best_score (mk_globals (update2 fresh_move_table 50 30 (Solved 3 0%Qc))
    fresh_score_table (Some 0%Qc)) /\
  greedy_view (final_strategy_v05 10 16 50 30 fresh_globals) =
    greedy_view (final_strategy_v05 10 16 50 30
      (mk_globals (update2 fresh_move_table 50 30 (Solved 3 0%Qc)) fresh_score_table (Some 0%Qc))).
Proof.
  split; [reflexivity |].
  apply (final_strategy_v05_greedy_independent 10 16 50 30); [reflexivity | reflexivity | | ];
    unfold GOAL; lia.
Defined.
