(* ===== verification/Simulator.v ===== *)
(** * Simulator: the game loop [play]

    [play(strategy0, strategy1, update, score0, score1, dice, goal)] of
    [src/hog.py] runs [while score0 < goal and score1 < goal], letting the
    player [who] choose a dice count with its strategy and [update] its
    score, then passing the turn with [who = (who + 1) % 2].

    The loop variables are the record [game]; the dice is a state
    [D] threaded through the turns.  [turn] is the loop body, [step] the
    transition relation it defines, and [play_loop] the loop with a bound
    on its iterations ([None] when the bound is reached).  The loop
    terminates for every pair of strategies of the interface [Strategy]
    and every update of the interface [Update] (a dice count in [0..10]
    gains the mover at least one point), which [simple_update] and
    [square_update] satisfy for a six-sided dice ([SixSided]); from every
    reachable state the transitions are live: a state still playing can
    move, and every run of [step] is finite ([Acc] of its converse). *)

From stdpp Require Import relations.
From S2P Require Import Prelude Rules Optimal Strategy.

Open Scope Z_scope.

(** The local variables of [play]'s loop. *)
Record game := mk_game { score0 : Z; score1 : Z; who : Z }.

(** A dice whose outcomes are faces [1..6]. *)
Class SixSided {D} (dice : D -> Z * D) : Prop :=
  six_sided : forall d, 1 <= (dice d).1 <= 6.

(** What [play] needs of an update function: a legal dice count gains
    the mover at least one point. *)
Class Update {D} (update : Z -> Z -> Z -> D -> result (Z * D)) : Prop :=
  update_progress : forall num_rolls player_score opponent_score d,
    0 <= num_rolls <= 10 ->
    exists s' d', update num_rolls player_score opponent_score d = Ok (s', d') /\
      player_score + 1 <= s'.

Section Play.
Context {D : Type} (strategy0 strategy1 : Z -> Z -> Z)
  (update : Z -> Z -> Z -> D -> result (Z * D)) (goal : Z).

(** The body of the [while] loop. *)
Definition turn (g : game) (d : D) : result (game * D) :=
  if who g =? 0 then
    try '(s0, d') <- update (strategy0 (score0 g) (score1 g)) (score0 g) (score1 g) d;
    Ok (mk_game s0 (score1 g) ((who g + 1) mod 2), d')
  else if negb (who g =? 1) then Err AssertionError
  else
    try '(s1, d') <- update (strategy1 (score1 g) (score0 g)) (score1 g) (score0 g) d;
    Ok (mk_game (score0 g) s1 ((who g + 1) mod 2), d').

(** The loop condition [score0 < goal and score1 < goal]. *)
Definition playing (g : game) : bool := (score0 g <? goal) && (score1 g <? goal).

(** The [while] loop, run for at most [fuel] iterations. *)
Fixpoint play_loop (fuel : nat) (g : game) (d : D) : option (result (game * D)) :=
  if playing g then
    match fuel with
    | O => None
    | S fuel' =>
        match turn g d with
        | Ok (g', d') => play_loop fuel' g' d'
        | Err e => Some (Err e)
        end
    end
  else Some (Ok (g, d)).

(** [play] from [score0, score1] with [who = 0]: the final scores and
    dice. *)
Definition play (fuel : nat) (s0 s1 : Z) (d : D) : option (result (Z * Z * D)) :=
  match play_loop fuel (mk_game s0 s1 0) d with
  | Some (Ok (g, d')) => Some (Ok (score0 g, score1 g, d'))
  | Some (Err e) => Some (Err e)
  | None => None
  end.

(** One iteration as a transition of the states [(game, dice)]. *)
Inductive step : game * D -> game * D -> Prop :=
| step_turn g d g' d' :
    playing g = true -> turn g d = Ok (g', d') -> step (g, d) (g', d').

(** The loop's well-formedness: it is someone's turn. *)
Definition turn_ok (g : game) : Prop := who g = 0 \/ who g = 1.

(** The measure the turns decrease: the points both players still need. *)
Definition remaining (g : game) : nat := Z.to_nat ((goal - score0 g) + (goal - score1 g)).
End Play.

(** ** Lemmas *)

Lemma perfect_square_nonneg x : perfect_square x = true -> 0 <= x.
Proof.
  unfold perfect_square. intros H%Z.eqb_eq. rewrite <- H. apply Z.square_nonneg.
Qed.

#[export] Instance simple_update_progress {D} (dice : D -> Z * D) `{!SixSided dice} :
  Update (simple_update dice).
Proof.
  intros n s o d Hn. unfold simple_update, take_turn.
  rewrite (proj2 (Z.ltb_ge n 0)), (proj2 (Z.ltb_ge 10 n)) by lia. cbn [orb].
  destruct (Z.eqb_spec n 0) as [-> |].
  - pose proof (tail_points_pos o). do 2 eexists. split; [reflexivity | lia].
  - destruct (roll_dice_outcome dice n d six_sided) as (pts & d' & -> & Hp); [lia |].
    do 2 eexists. split; [reflexivity | lia].
Qed.

#[export] Instance square_update_progress {D} (dice : D -> Z * D) `{!SixSided dice} :
  Update (square_update dice).
Proof.
  intros n s o d Hn.
  destruct (simple_update_progress dice n s o d Hn) as (s' & d' & Hu & Hs').
  unfold simple_update in Hu. unfold square_update.
  destruct (take_turn dice n o d) as [[pts d''] |]; [| discriminate].
  rewrite rbind_Ok in Hu |- *. injection Hu as <- <-.
  exists (if perfect_square (s + pts) then next_perfect_square (s + pts) else s + pts), d''.
  split; [done |]. destruct (perfect_square (s + pts)) eqn:E; [| lia].
  pose proof (next_perfect_square_gt (s + pts) (perfect_square_nonneg _ E)). lia.
Qed.

(** A turn passes the turn: [who] stays 0 or 1. *)
Lemma step_turn_ok {D} (strategy0 strategy1 : Z -> Z -> Z)
    (update : Z -> Z -> Z -> D -> result (Z * D)) goal g d g' d' :
  step strategy0 strategy1 update goal (g, d) (g', d') -> turn_ok g -> turn_ok g'.
Proof.
  inversion 1 as [? ? ? ? _ Ht]; subst. unfold turn in Ht. unfold turn_ok.
  intros [Hw | Hw]; rewrite Hw in Ht; cbn [Z.eqb negb] in Ht;
    destruct (update _ _ _ d) as [[s d1] |]; try discriminate; cbn in Ht;
    injection Ht as <- _; cbn [who]; [by right | by left].
Qed.

(** ... and so along every run of the transitions. *)
Lemma rtc_turn_ok {D} (strategy0 strategy1 : Z -> Z -> Z)
    (update : Z -> Z -> Z -> D -> result (Z * D)) goal x y :
  rtc (step strategy0 strategy1 update goal) x y -> turn_ok x.1 -> turn_ok y.1.
Proof.
  induction 1 as [| [g1 d1] [g2 d2] z Hs _ IH]; [done |].
  intros Hw. apply IH. exact (step_turn_ok _ _ _ _ _ _ _ _ Hs Hw).
Qed.

Section Termination.
Context {D : Type} (strategy0 strategy1 : Z -> Z -> Z)
  (update : Z -> Z -> Z -> D -> result (Z * D)) (goal : Z).
Context `{!Strategy strategy0} `{!Strategy strategy1} `{!Update update}.

(** A turn of a well-formed game succeeds, passes the turn, and lowers
    the measure. *)
Lemma turn_progress g d :
  turn_ok g -> playing goal g = true ->
  exists g' d', turn strategy0 strategy1 update g d = Ok (g', d') /\
    turn_ok g' /\ (remaining goal g' < remaining goal g)%nat /\
    score0 g <= score0 g' /\ score1 g <= score1 g'.
Proof.
  intros Hw Hp. unfold playing in Hp. apply andb_true_iff in Hp as [H0 H1].
  apply Z.ltb_lt in H0, H1. unfold turn, remaining.
  destruct Hw as [Hw | Hw]; rewrite Hw; cbn [Z.eqb negb].
  - destruct (update_progress (strategy0 (score0 g) (score1 g)) (score0 g) (score1 g) d)
      as (s' & d' & -> & Hs'); [apply strategy_range |].
    do 2 eexists. split; [reflexivity |]. cbn [score0 score1 who].
    split; [unfold turn_ok; cbn [who]; by right | lia].
  - destruct (update_progress (strategy1 (score1 g) (score0 g)) (score1 g) (score0 g) d)
      as (s' & d' & -> & Hs'); [apply strategy_range |].
    do 2 eexists. split; [reflexivity |]. cbn [score0 score1 who].
    split; [unfold turn_ok; cbn [who]; by left | lia].
Qed.

(** With as many iterations as the measure, the loop ends, and it ends
    with a score at the goal, reached through the transitions. *)
Lemma play_loop_ends f g d :
  turn_ok g -> (remaining goal g <= f)%nat ->
  exists g' d', play_loop strategy0 strategy1 update goal f g d = Some (Ok (g', d')) /\
    playing goal g' = false /\ rtc (step strategy0 strategy1 update goal) (g, d) (g', d') /\
    score0 g <= score0 g' /\ score1 g <= score1 g'.
Proof.
  revert g d. induction f as [| f IH]; intros g d Hw Hf; cbn [play_loop];
    destruct (playing goal g) eqn:Hp.
  - exfalso. unfold playing, remaining in *. apply andb_true_iff in Hp as [H0 H1].
    apply Z.ltb_lt in H0, H1. lia.
  - do 2 eexists. split; [reflexivity |]. split; [done | split; [apply rtc_refl | lia]].
  - destruct (turn_progress g d Hw Hp) as (g1 & d1 & Ht & Hw1 & Hm & H0 & H1).
    rewrite Ht.
    destruct (IH g1 d1 Hw1 ltac:(lia)) as (g' & d' & Hl & Hp' & Hr & H0' & H1').
    exists g', d'. split; [done |]. split; [done |].
    split; [eapply rtc_l; [by constructor | done] | lia].
  - do 2 eexists. split; [reflexivity |]. split; [done | split; [apply rtc_refl | lia]].
Qed.

End Termination.

(** The fixed strategies and the optimal policy are strategies. *)
#[export] Instance catch_up_strategy : Strategy catch_up.
Proof. intros s o. unfold catch_up. destruct (s <? o); lia. Qed.

#[export] Instance optimal_strategy (c : Qc) : Strategy (fun s o => (opt_star c s o).1).
Proof. intros s o. apply opt_star_move_range. Qed.

#[export] Instance cycling_dice_six_sided : SixSided cycling_dice.
Proof. intros d. unfold cycling_dice. cbn [fst]. pose proof (Z.mod_pos_bound d 6). lia. Qed.

(** A turn changes the mover's score only. *)
Lemma turn_other {D} (strategy0 strategy1 : Z -> Z -> Z) (update : Z -> Z -> Z -> D -> result (Z * D))
    g d g' d' :
  turn strategy0 strategy1 update g d = Ok (g', d') ->
  (who g = 0 /\ score1 g' = score1 g) \/ (who g = 1 /\ score0 g' = score0 g).
Proof.
  unfold turn. destruct (Z.eqb_spec (who g) 0) as [H0 |].
  - destruct (update _ _ _ d) as [[s d1] |]; [| discriminate]. intros [= <- _]. by left.
  - destruct (Z.eqb_spec (who g) 1) as [H1 |]; [| discriminate]. cbn [negb].
    destruct (update _ _ _ d) as [[s d1] |]; [| discriminate]. intros [= <- _]. by right.
Qed.

(** A game that is played to its end has exactly one player at the
    goal: the last turn brings the mover to the goal while the other
    player stays below it. *)
Lemma play_loop_one_winner {D} (strategy0 strategy1 : Z -> Z -> Z)
    (update : Z -> Z -> Z -> D -> result (Z * D)) goal f g d g' d' :
  playing goal g = true ->
  play_loop strategy0 strategy1 update goal f g d = Some (Ok (g', d')) ->
  (goal <= score0 g' /\ score1 g' < goal) \/ (goal <= score1 g' /\ score0 g' < goal).
Proof.
  revert g d. induction f as [| f IH]; intros g d Hp; cbn [play_loop]; rewrite Hp; [discriminate |].
  destruct (turn strategy0 strategy1 update g d) as [[g1 d1] |] eqn:Ht; [| discriminate].
  destruct (playing goal g1) eqn:Hp1; [by apply IH |].
  replace (play_loop strategy0 strategy1 update goal f g1 d1) with (Some (Ok (g1, d1)))
    by (destruct f; cbn [play_loop]; by rewrite Hp1).
  intros [= <- _].
  unfold playing in Hp, Hp1. apply andb_true_iff in Hp as [H0 H1]. apply Z.ltb_lt in H0, H1.
  apply andb_false_iff in Hp1. rewrite !Z.ltb_ge in Hp1.
  destruct (turn_other _ _ _ _ _ _ _ Ht) as [[_ E] | [_ E]]; lia.
Qed.

(** ** Properties *)

(** C22: [play] terminates: for any two strategies (dice counts in
    [0..10]) and any update that gains the mover a point, such as
    [simple_update] and [square_update] with a six-sided dice, the loop
    ends within [(goal - score0) + (goal - score1)] turns, without
    error, with a player at the goal and no score lowered. *)
Theorem play_terminates {D} (strategy0 strategy1 : Z -> Z -> Z)
    (update : Z -> Z -> Z -> D -> result (Z * D)) (goal s0 s1 : Z) (d : D)
    `{!Strategy strategy0} `{!Strategy strategy1} `{!Update update} :
  exists s0' s1' d',
    play strategy0 strategy1 update goal (Z.to_nat ((goal - s0) + (goal - s1))) s0 s1 d =
      Some (Ok (s0', s1', d')) /\
    (goal <= s0' \/ goal <= s1') /\ s0 <= s0' /\ s1 <= s1'.
Proof.
  unfold play.
  destruct (play_loop_ends strategy0 strategy1 update goal (Z.to_nat ((goal - s0) + (goal - s1)))
              (mk_game s0 s1 0) d) as (g' & d' & -> & Hend & _ & H0 & H1);
    [by left | done |].
  exists (score0 g'), (score1 g'), d'. split; [done |]. cbn [score0 score1] in H0, H1.
  unfold playing in Hend. apply andb_false_iff in Hend as [H | H]; apply Z.ltb_ge in H; lia.
Qed.

(** C24: every state the loop reaches from [who = 0] has [who] equal
    to 0 or 1, so the assertion [who == 1] of the [else] branch never
    fails. *)
Theorem play_who_invariant {D} (strategy0 strategy1 : Z -> Z -> Z)
    (update : Z -> Z -> Z -> D -> result (Z * D)) (goal s0 s1 : Z) (d : D) (g : game) (d' : D) :
  rtc (step strategy0 strategy1 update goal) (mk_game s0 s1 0, d) (g, d') ->
  who g = 0 \/ who g = 1.
Proof.
  intros Hr. exact (rtc_turn_ok _ _ _ _ _ _ Hr (or_introl eq_refl)).
Qed.

(** C25: a strategy that answers a dice count outside [0..10] makes
    [play] raise the [AssertionError] of [take_turn] on its first turn. *)
Theorem play_bad_strategy {D} (dice : D -> Z * D) (strategy0 strategy1 : Z -> Z -> Z)
    (goal s0 s1 : Z) (f : nat) (d : D) :
  s0 < goal -> s1 < goal -> (strategy0 s0 s1 < 0 \/ 10 < strategy0 s0 s1) ->
  play strategy0 strategy1 (square_update dice) goal (S f) s0 s1 d = Some (Err AssertionError) /\
  play strategy0 strategy1 (simple_update dice) goal (S f) s0 s1 d = Some (Err AssertionError).
Proof.
  intros H0 H1 Hbad.
  assert (Ht : take_turn dice (strategy0 s0 s1) s1 d = Err AssertionError).
  { unfold take_turn. by destruct Hbad as [Hb | Hb];
      [rewrite (proj2 (Z.ltb_lt _ 0) Hb) | rewrite (proj2 (Z.ltb_lt 10 _) Hb), orb_true_r]. }
  split; unfold play; cbn [play_loop]; unfold playing at 1; cbn [score0 score1];
    rewrite (proj2 (Z.ltb_lt s0 goal) H0), (proj2 (Z.ltb_lt s1 goal) H1); cbn [andb];
    unfold turn, square_update, simple_update; cbn [who score0 score1 Z.eqb]; by rewrite Ht.
Qed.

(** C30: [always_roll(n)] checks [0 <= n <= 10] and returns the
    constant strategy [roller], which the simulator accepts; any other
    [n] raises [AssertionError]. *)
Theorem always_roll_spec (n : Z) :
  (0 <= n <= 10 -> exists f, always_roll n = Ok f /\ Strategy f /\ forall s o, f s o = n) /\
  (n < 0 \/ 10 < n -> always_roll n = Err AssertionError).
Proof.
  unfold always_roll. split.
  - intros Hn. rewrite (proj2 (Z.leb_le 0 n)), (proj2 (Z.leb_le n 10)) by lia.
    eexists. split; [reflexivity |]. split; [intros ? ?; lia | done].
  - intros Hn. destruct (Z.leb_spec 0 n), (Z.leb_spec n 10); cbn [andb]; [lia | done | done | done].
Qed.

(** C23: a game that [play] runs to its end from a state where both
    players are below the goal ends with exactly one player at the goal:
    the other is still below it, so there is never a tie and [winner]'s
    test [score0 > score1] names the player who reached the goal. *)
Theorem play_one_winner {D} (strategy0 strategy1 : Z -> Z -> Z)
    (update : Z -> Z -> Z -> D -> result (Z * D)) (goal : Z) (f : nat) (s0 s1 a b : Z) (d d' : D) :
  s0 < goal -> s1 < goal ->
  play strategy0 strategy1 update goal f s0 s1 d = Some (Ok (a, b, d')) ->
  (goal <= a /\ b < goal) \/ (goal <= b /\ a < goal).
Proof.
  intros H0 H1. unfold play.
  destruct (play_loop strategy0 strategy1 update goal f (mk_game s0 s1 0) d) as [[[g' d1] |] |] eqn:Hl;
    try discriminate.
  intros [= <- <- _].
  assert (Hp : playing goal (mk_game s0 s1 0) = true).
  { unfold playing. cbn [score0 score1]. by rewrite (proj2 (Z.ltb_lt s0 goal) H0), (proj2 (Z.ltb_lt s1 goal) H1). }
  exact (play_loop_one_winner _ _ _ _ _ _ _ _ _ Hp Hl).
Qed.

(** ** The properties at concrete inputs *)

Lemma play_terminates_witness :
  exists s0' s1' d',
    play always_roll_5 catch_up (square_update cycling_dice) 100 (Z.to_nat ((100 - 0) + (100 - 0))) 0 0 0 =
      Some (Ok (s0', s1', d')) /\ (100 <= s0' \/ 100 <= s1') /\ 0 <= s0' /\ 0 <= s1'.
Proof. apply play_terminates; typeclasses eauto. Defined.

Lemma play_who_invariant_witness :
  rtc (step always_roll_5 catch_up (simple_update cycling_dice) 100) (mk_game 0 0 0, 0) (mk_game 1 0 1, 5) /\
  (who (mk_game 1 0 1) = 0 \/ who (mk_game 1 0 1) = 1).
Proof.
  assert (H : rtc (step always_roll_5 catch_up (simple_update cycling_dice) 100)
                (mk_game 0 0 0, 0) (mk_game 1 0 1, 5)).
  { eapply rtc_l; [constructor; reflexivity | apply rtc_refl]. }
  split; [exact H | exact (play_who_invariant _ _ _ _ _ _ _ _ _ H)].
Defined.

Lemma play_bad_strategy_witness :
  play (fun _ _ => 11) catch_up (square_update cycling_dice) 100 1 0 0 0 = Some (Err AssertionError) /\
  play (fun _ _ => 11) catch_up (simple_update cycling_dice) 100 1 0 0 0 = Some (Err AssertionError).
Proof. apply (play_bad_strategy cycling_dice (fun _ _ => 11) catch_up 100 0 0 0 0); lia. Defined.

Lemma always_roll_spec_witness :
  (0 <= 3 <= 10 /\ exists f, always_roll 3 = Ok f /\ Strategy f /\ forall s o, f s o = 3) /\
  (10 < 11 /\ always_roll 11 = Err AssertionError).
Proof.
  split; split; [lia | apply (proj1 (always_roll_spec 3)); lia | lia |].
  apply (proj2 (always_roll_spec 11)). lia.
Defined.


Lemma play_one_winner_witness :
  play always_roll_5 catch_up (square_update cycling_dice) 20 30 0 0 0 = Some (Ok (28, 8, 60)) /\
  ((20 <= 28 /\ 8 < 20) \/ (20 <= 8 /\ 28 < 20)).
Proof.
  assert (H : play always_roll_5 catch_up (square_update cycling_dice) 20 30 0 0 0 = Some (Ok (28, 8, 60)))
    by reflexivity.
  split; [exact H | exact (play_one_winner always_roll_5 catch_up (square_update cycling_dice) 20 30 0 0 28 8 0 60
    ltac:(lia) ltac:(lia) H)].
Defined.
