(* ===== verification/Store.v ===== *)
(** * Store: the persisted move table

    After filling [best_move], [gen_final_strategy] keeps the moves
    ([best_move_wo_prob = [[item[0] for item in row] for row in best_move]])
    and writes ["best_move=" + str(best_move_wo_prob)] to [best_move.py]
    ([gen_final_strategy_v05] writes [best_score.py] the same way).
    [src/hog.py] itself imports [best_move_w_prob] (the table with
    rounded probabilities, not modelled) and [best_score]; the spec's
    [PolicyStore] promises that a saved table loads back unchanged,
    which is what the theorems here check for [best_move.py].

    [strip_probs] is the comprehension ([item[0]] of an unsolved entry,
    the integer [0], raises [TypeError]), [py_str_int] and [py_str_list]
    are Python's [str] on integers and lists, [save_moves] the file's
    contents.  Loading is Python's [import] of the literal, which is not
    code of the repository: [parse_int], [parse_list] and [load_moves]
    model it from the spec's contract ([PolicyStore.load]), for the
    literals that [str] writes. *)

From Stdlib Require Import String Ascii DecimalString DecimalZ DecimalPos.
From S2P Require Import Prelude Rules Dice Optimal Greedy.

(** ** Saving *)

Section Save.
Open Scope string_scope.

Fixpoint map_result {A B} (f : A -> result B) (l : list A) : result (list B) :=
  match l with
  | [] => Ok []
  | x :: l' =>
      try y <- f x;
      try ys <- map_result f l';
      Ok (y :: ys)
  end.

(** [[[item[0] for item in row] for row in best_move]]. *)
Definition strip_probs (t : move_table) : result (list (list Z)) :=
  map_result (map_result move_of) t.

(** [str] of a Python integer: its decimal digits, after a [-] when
    negative. *)
Definition py_str_int (z : Z) : string := NilZero.string_of_int (Z.to_int z).

Fixpoint join (sep : string) (l : list string) : string :=
  match l with
  | [] => ""
  | [x] => x
  | x :: l' => x ++ sep ++ join sep l'
  end.

(** [str] of a Python list: [[], [x], [x, y], ...]. *)
Definition py_str_list {A} (f : A -> string) (l : list A) : string :=
  "[" ++ join ", " (map f l) ++ "]".

(** [file.write(name + "="); file.write(str(table))] for a table of
    integers. *)
Definition save_table (name : string) (t : list (list Z)) : string :=
  name ++ "=" ++ py_str_list (py_str_list py_str_int) t.

(** [best_move.py] of [gen_final_strategy]. *)
Definition save_moves : list (list Z) -> string := save_table "best_move".

(** [best_score.py] of [gen_final_strategy_v05]. *)
Definition save_scores : list (list Z) -> string := save_table "best_score".
End Save.

(** ** Loading (Python's [import] of the literal) *)

Section Load.
Open Scope string_scope.

Definition is_num_char (c : ascii) : bool :=
  (Ascii.eqb c "-") ||
  ((nat_of_ascii "0" <=? nat_of_ascii c) && (nat_of_ascii c <=? nat_of_ascii "9"))%nat.

(** The longest prefix of digits and signs, and the rest. *)
Fixpoint span_num (s : string) : string * string :=
  match s with
  | String c s' =>
      if is_num_char c then let (tok, rest) := span_num s' in (String c tok, rest)
      else ("", s)
  | "" => ("", "")
  end.

Definition parse_int (s : string) : option (Z * string) :=
  let (tok, rest) := span_num s in
  match NilZero.int_of_string tok with
  | Some i => Some (Z.of_int i, rest)
  | None => None
  end.

(** The elements of a list after its [[]: [x]] or [x, ...]. *)
Fixpoint parse_elems {A} (p : string -> option (A * string)) (fuel : nat) (s : string)
    : option (list A * string) :=
  match fuel with
  | O => None
  | S fuel' =>
      match p s with
      | Some (x, String c rest) =>
          if Ascii.eqb c "]" then Some ([x], rest)
          else if Ascii.eqb c "," then
            match rest with
            | String c' rest' =>
                if Ascii.eqb c' " " then
                  match parse_elems p fuel' rest' with
                  | Some (xs, rest'') => Some (x :: xs, rest'')
                  | None => None
                  end
                else None
            | "" => None
            end
          else None
      | _ => None
      end
  end.

(** A list literal: [[]] or [[] and its elements. *)
Definition parse_list {A} (p : string -> option (A * string)) (s : string)
    : option (list A * string) :=
  match s with
  | String c rest =>
      if Ascii.eqb c "[" then
        match rest with
        | String c' rest' =>
            if Ascii.eqb c' "]" then Some ([], rest') else parse_elems p (String.length rest) rest
        | "" => None
        end
      else None
  | "" => None
  end.

(** The text after [pre], if [s] starts with it. *)
Fixpoint strip_prefix (pre s : string) : option string :=
  match pre, s with
  | "", _ => Some s
  | String c pre', String c' s' => if Ascii.eqb c c' then strip_prefix pre' s' else None
  | String _ _, "" => None
  end.

(** [from <name> import <name>]: the file holds one assignment. *)
Definition load_table (name : string) (s : string) : option (list (list Z)) :=
  match strip_prefix (name ++ "=") s with
  | Some lit =>
      match parse_list (parse_list parse_int) lit with
      | Some (t, "") => Some t
      | _ => None
      end
  | None => None
  end.

Definition load_moves : string -> option (list (list Z)) := load_table "best_move".
Definition load_scores : string -> option (list (list Z)) := load_table "best_score".
End Load.

(** ** Lemmas *)

Section StoreLemmas.
Open Scope string_scope.

Lemma str_app_assoc (a b c : string) : (a ++ b) ++ c = a ++ (b ++ c).
Proof. induction a as [| x a IH]; simpl; [done | by rewrite IH]. Qed.

Lemma str_app_nil_r (a : string) : a ++ "" = a.
Proof. induction a as [| x a IH]; simpl; [done | by rewrite IH]. Qed.

Lemma str_length_app (a b : string) : String.length (a ++ b) = (String.length a + String.length b)%nat.
Proof. induction a as [| x a IH]; simpl; [done | by rewrite IH]. Qed.

(** The text after a number: empty or not a digit or a sign. *)
Definition stops (t : string) : Prop :=
  match t with
  | "" => True
  | String c _ => is_num_char c = false
  end.

(** What follows an element of a list literal. *)
Definition delim (t : string) : Prop := exists r, t = "]" ++ r \/ t = ", " ++ r.

(** A literal that is not empty and does not start with [']']. *)
Definition opens (s : string) : Prop :=
  match s with
  | "" => False
  | String c _ => c <> "]"%char
  end.

Lemma delim_stops t : delim t -> stops t.
Proof. by intros [r [-> | ->]]. Qed.

Lemma span_num_uint (u : Decimal.uint) t :
  stops t -> span_num (NilEmpty.string_of_uint u ++ t) = (NilEmpty.string_of_uint u, t).
Proof.
  intros Ht. induction u; cbn [NilEmpty.string_of_uint append span_num];
    try (rewrite IHu; reflexivity).
  destruct t as [| c t]; [done | cbn [span_num]; cbn in Ht; by rewrite Ht].
Qed.

Lemma py_str_int_shape z :
  exists u, u <> Decimal.Nil /\
    (py_str_int z = NilEmpty.string_of_uint u /\ Z.to_int z = Decimal.Pos u \/
     py_str_int z = String "-" (NilEmpty.string_of_uint u) /\ Z.to_int z = Decimal.Neg u).
Proof.
  unfold py_str_int. destruct z as [| p | p]; cbn [Z.to_int NilZero.string_of_int].
  - exists (Decimal.D0 Decimal.Nil). split; [done | left; done].
  - exists (Pos.to_uint p). split; [apply DecimalPos.Unsigned.to_uint_nonnil |].
    left. split; [| done]. unfold NilZero.string_of_uint.
    destruct (Pos.to_uint p) eqn:E; [by apply DecimalPos.Unsigned.to_uint_nonnil in E | ..]; done.
  - exists (Pos.to_uint p). split; [apply DecimalPos.Unsigned.to_uint_nonnil |].
    right. split; [| done]. unfold NilZero.string_of_uint.
    destruct (Pos.to_uint p) eqn:E; [by apply DecimalPos.Unsigned.to_uint_nonnil in E | ..]; done.
Qed.

Lemma parse_int_py_str z t : stops t -> parse_int (py_str_int z ++ t) = Some (z, t).
Proof.
  intros Ht. unfold parse_int.
  destruct (py_str_int_shape z) as (u & Hu & [[-> Hz] | [-> Hz]]).
  - rewrite span_num_uint by done.
    replace (NilZero.int_of_string (NilEmpty.string_of_uint u)) with (Some (Decimal.Pos u)).
    + by rewrite <- Hz, DecimalZ.of_to.
    + rewrite <- (NilZero.isi (Decimal.Pos u)) by congruence. cbn [NilZero.string_of_int].
      unfold NilZero.string_of_uint. by destruct u.
  - cbn [append span_num]. rewrite span_num_uint by done.
    replace (is_num_char "-") with true by reflexivity. cbn beta iota.
    replace (NilZero.int_of_string (String "-" (NilEmpty.string_of_uint u))) with (Some (Decimal.Neg u)).
    + by rewrite <- Hz, DecimalZ.of_to.
    + rewrite <- (NilZero.isi (Decimal.Neg u)) by congruence. cbn [NilZero.string_of_int].
      unfold NilZero.string_of_uint. by destruct u.
Qed.

Lemma py_str_int_opens z : opens (py_str_int z).
Proof. destruct (py_str_int_shape z) as (u & Hu & [[-> _] | [-> _]]); [destruct u | ]; done. Qed.

Lemma py_str_list_opens {A} (f : A -> string) l : opens (py_str_list f l).
Proof. done. Qed.

Lemma join_length (l : list string) :
  Forall (fun x => x <> "") l -> (length l <= String.length (join ", " l))%nat.
Proof.
  induction 1 as [| x l Hx Hl IH]; [simpl; lia |].
  destruct x as [| c x]; [done |].
  destruct l as [| y l]; [cbn; lia |].
  change (join ", " (String c x :: y :: l)) with (String c x ++ ", " ++ join ", " (y :: l)).
  rewrite !str_length_app. cbn [String.length length] in *. lia.
Qed.

Lemma join_first x l : exists r, join ", " (x :: l) = x ++ r.
Proof. destruct l as [| y l]; [exists ""; by rewrite str_app_nil_r | by eexists]. Qed.

Lemma strip_prefix_app pre s : strip_prefix pre (pre ++ s) = Some s.
Proof. induction pre as [| c pre IH]; [by destruct s |]. cbn. by rewrite Ascii.eqb_refl. Qed.

Section Elems.
Context {A : Type} (p : string -> option (A * string)) (f : A -> string).

Lemma parse_elems_join (l : list A) fuel t :
  l <> [] -> (length l <= fuel)%nat ->
  (forall x t, In x l -> delim t -> p (f x ++ t) = Some (x, t)) ->
  parse_elems p fuel (join ", " (map f l) ++ "]" ++ t) = Some (l, t).
Proof.
  revert fuel. induction l as [| x l IH]; intros fuel Hne Hf Hp; [done |].
  destruct fuel as [| fuel]; [simpl in Hf; lia |]. cbn [parse_elems].
  destruct l as [| y l].
  - change (join ", " (map f [x])) with (f x).
    rewrite Hp by (by left || (eexists; left; reflexivity)). done.
  - change (join ", " (map f (x :: y :: l))) with (f x ++ ", " ++ join ", " (map f (y :: l))).
    rewrite !str_app_assoc.
    rewrite Hp by (by left || (eexists; right; reflexivity)).
    replace (", " ++ join ", " (map f (y :: l)) ++ "]" ++ t)
      with (String "," (String " " (join ", " (map f (y :: l)) ++ "]" ++ t))) by reflexivity.
    cbn [Ascii.eqb Bool.eqb andb].
    rewrite (IH fuel); [done | done | simpl in *; lia |].
    intros z t' Hz. apply Hp. by right.
Qed.

Lemma parse_list_py_str (l : list A) t :
  (forall x, In x l -> opens (f x)) ->
  (forall x t, In x l -> delim t -> p (f x ++ t) = Some (x, t)) ->
  parse_list p (py_str_list f l ++ t) = Some (l, t).
Proof.
  intros Ho Hp. unfold py_str_list. destruct l as [| x l]; [done |].
  set (J := join ", " (map f (x :: l))).
  assert (Hfuel : (length (x :: l) <= String.length (J ++ "]" ++ t))%nat).
  { rewrite str_length_app. pose proof (join_length (map f (x :: l))) as H.
    rewrite length_map in H. enough (length (x :: l) <= String.length J)%nat by lia.
    apply H, List.Forall_forall. intros y (z & <- & Hz)%in_map_iff.
    specialize (Ho z Hz). by destruct (f z). }
  assert (HJ : exists c J', J = String c J' /\ c <> "]"%char).
  { destruct (join_first (f x) (map f l)) as [r Hr]. unfold J. cbn [map]. rewrite Hr.
    specialize (Ho x (or_introl eq_refl)). destruct (f x) as [| c s]; [done |]. by exists c, (s ++ r). }
  destruct HJ as (c & J' & HJ & Hc).
  rewrite str_app_assoc. cbn [append]. rewrite str_app_assoc.
  unfold parse_list. cbn [Ascii.eqb]. rewrite HJ. cbn [append].
  rewrite (proj2 (Ascii.eqb_neq _ _) Hc).
  change (String c (J' ++ String "]" t)) with (String c J' ++ "]" ++ t). rewrite <- HJ.
  by apply parse_elems_join.
Qed.
End Elems.
End StoreLemmas.

Section MapResult.
Context {A B : Type} (f : A -> result B).

Lemma map_result_ok (l : list A) :
  (forall x, In x l -> exists y, f x = Ok y) ->
  exists l', map_result f l = Ok l' /\
    forall i x, l !! i = Some x -> exists y, f x = Ok y /\ l' !! i = Some y.
Proof.
  induction l as [| x l IH]; intros Hall.
  { exists []. split; [done | by intros ? ? ?]. }
  destruct (Hall x (or_introl eq_refl)) as [y Hy].
  destruct IH as (l' & Hl' & Hidx); [intros z Hz; apply Hall; by right |].
  exists (y :: l'). cbn [map_result]. rewrite Hy, rbind_Ok, Hl', rbind_Ok. split; [done |].
  intros [| i] z Hz; cbn in Hz |- *; [injection Hz as <-; eauto | eauto].
Qed.

Lemma map_result_all_ok (l : list A) l' :
  map_result f l = Ok l' -> forall x, In x l -> exists y, f x = Ok y.
Proof.
  revert l'. induction l as [| x l IH]; intros l' H z Hz; [done |].
  cbn [map_result] in H. destruct (f x) as [y |] eqn:Hx; cbn [rbind] in H; [| done].
  destruct (map_result f l) as [ys |] eqn:Hl; cbn [rbind] in H; [| done].
  destruct Hz as [<- | Hz]; [eauto | exact (IH ys eq_refl z Hz)].
Qed.
End MapResult.

(** The comprehension on a table whose cells are all solved. *)
Lemma strip_probs_solved (t : move_table) :
  (forall row e, In row t -> In e row -> e <> Unsolved) ->
  exists ms, strip_probs t = Ok ms /\
    forall i j e, lookup2 t i j = Some e -> exists m, move_of e = Ok m /\ lookup2 ms i j = Some m.
Proof.
  intros Hs. destruct (map_result_ok (map_result move_of) t) as (ms & Hms & Hidx).
  { intros row Hrow. destruct (map_result_ok move_of row) as (r & Hr & _); [| by eexists].
    intros [| m p] He; [by destruct (Hs row Unsolved Hrow He) | by eexists]. }
  exists ms. split; [done |]. intros i j e. unfold lookup2.
  destruct (t !! i) as [row |] eqn:Hrow; cbn; [| done]. intros He.
  destruct (Hidx i row Hrow) as (r & Hr & ->). cbn.
  destruct (map_result_ok move_of row) as (r' & Hr' & Hidx'); [| rewrite Hr in Hr'; injection Hr' as <-].
  { intros x Hx. eapply map_result_all_ok; [exact Hr | done]. }
  destruct (Hidx' j e He) as (m & ? & ?). eauto.
Qed.

Lemma load_save_table name (t : list (list Z)) : load_table name (save_table name t) = Some t.
Proof.
  unfold load_table, save_table. rewrite <- str_app_assoc, strip_prefix_app.
  rewrite <- (str_app_nil_r (py_str_list (py_str_list py_str_int) t)).
  rewrite parse_list_py_str; [done | intros; apply py_str_list_opens |].
  intros row r _ Hr. apply parse_list_py_str; [intros; apply py_str_int_opens |].
  intros z r' _ Hr'. by apply parse_int_py_str, delim_stops.
Qed.

(** ** Properties *)

(** C26: writing a table of moves with [str] and reading the file back
    gives the same table: [load_table name (save_table name t) = t] for
    every name and every list of lists of integers, negative ones and
    ragged rows included; so for [best_move.py] and [best_score.py]. *)
Theorem store_roundtrip (name : string) (t : list (list Z)) :
  load_table name (save_table name t) = Some t.
Proof. apply load_save_table. Qed.

(** C27: the pipeline of [gen_final_strategy]: the loops fill the table,
    the comprehension [best_move_wo_prob] succeeds, the file written
    reads back as the same table, and its cell [(i, j)] is the optimal
    move of the state. *)
Theorem saved_table_optimal (c : Qc) :
  exists tbl ms, gen_final_table (Some c) fresh_move_table = Ok (tt, tbl) /\
    strip_probs tbl = Ok ms /\ load_moves (save_moves ms) = Some ms /\
    forall i j, 0 <= i < 100 -> 0 <= j < 100 -> py_index2 ms i j = Ok (opt_star c i j).1.
Proof.
  destruct (gen_final_table_spec c) as (tbl & Hrun & Hsnd & Hall).
  destruct (strip_probs_solved tbl) as (ms & Hms & Hidx).
  { intros row e Hrow He ->.
    apply list_elem_of_In, list_elem_of_lookup in Hrow as [i Hi].
    apply list_elem_of_In, list_elem_of_lookup in He as [j Hj].
    destruct Hsnd as [[Hlen Hrows] _].
    assert (i < 100)%nat by (rewrite <- Hlen; eapply lookup_lt_Some; eauto).
    assert (j < 100)%nat.
    { rewrite <- (Forall_lookup_1 _ _ _ _ Hrows Hi). eapply lookup_lt_Some; eauto. }
    destruct (Hall (Z.of_nat i) (Z.of_nat j)) as (m & p & Hmp); [lia | lia |].
    rewrite !Nat2Z.id in Hmp. unfold lookup2 in Hmp. rewrite Hi in Hmp. cbn in Hmp.
    by rewrite Hj in Hmp. }
  exists tbl, ms. split; [done |]. split; [done |]. split; [apply load_save_table |].
  intros i j Hi Hj. destruct (Hall i j Hi Hj) as (m & p & Hmp).
  pose proof Hmp as Hmp'. apply (proj2 Hsnd) in Hmp'. rewrite !Z2Nat.id in Hmp' by lia.
  destruct (Hidx _ _ _ Hmp) as (m' & Hm' & Hl). cbn in Hm'. injection Hm' as <-.
  rewrite py_index2_nonneg, Hl by lia. by rewrite Hmp'.
Qed.

(** ** The properties at concrete inputs *)

Lemma saved_table_optimal_witness :
  exists tbl ms, gen_final_table (Some 0%Qc) fresh_move_table = Ok (tt, tbl) /\
    strip_probs tbl = Ok ms /\ load_moves (save_moves ms) = Some ms /\
    py_index2 ms 99 0 = Ok (opt_star 0%Qc 99 0).1.
Proof.
  destruct (saved_table_optimal 0%Qc) as (tbl & ms & H1 & H2 & H3 & H4).
  exists tbl, ms. split; [done | split; [done | split; [done | apply H4; lia]]].
Defined.

Lemma save_moves_format :
  save_moves [[0; 6]; [-3]] = "best_move=[[0, 6], [-3]]"%string.
Proof. reflexivity. Qed.

