(* ===== verification/Experiments.v ===== *)
(** * Experiments: the averaging harness of [src/hog.py]

    [make_averaged], [max_scoring_num_rolls], [winner] and
    [average_win_rate] call functions that roll the dice, a module-level
    object with hidden state ([six_sided] or a test dice).  Here the
    dice state [D] is threaded explicitly: a Python function that rolls
    is a function [D -> result (Z * D)].

    Python's [/] returns a float; the model keeps the exact quotient
    [Qc].  The harness only compares averages with the same number of
    samples [n], whose exact values are multiples of [1/n], and divides
    by 2 once; for the sample counts used (at most a few thousand) the
    float quotients are correctly rounded and keep the order of the
    exact ones, so no comparison changes.

    [winner] runs [play] with the iteration bound 200, which is the
    measure [(100 - 0) + (100 - 0)] of the game from [0, 0]: for
    strategies and dice of the interfaces the bound is never reached
    ([play_terminates]); the model maps reaching it to a
    [RecursionError]. *)

From S2P Require Import Prelude Rules Strategy Simulator.

Open Scope Z_scope.

(** [make_test_dice(outcomes...)]: a dice that cycles through the
    outcomes; its state is the number of rolls so far. *)
Definition make_test_dice (outcomes : list Z) (k : Z) : Z * Z :=
  (nth (Z.to_nat (k mod Z.of_nat (length outcomes))) outcomes 0, k + 1).

Section Averaged.
Context {D : Type} (original_function : D -> result (Z * D)).

(** [for _ in range(total_samples): sum += original_function(args...)]. *)
Fixpoint sum_loop (k : nat) (sum : Z) (d : D) : result (Z * D) :=
  match k with
  | O => Ok (sum, d)
  | S k' =>
      try '(x, d') <- original_function d;
      sum_loop k' (sum + x) d'
  end.

(** [averaged(args...)] of [make_averaged(original_function, total_samples)]. *)
Definition averaged (total_samples : Z) (d : D) : result (Qc * D) :=
  try '(sum, d') <- sum_loop (Z.to_nat total_samples) 0 d;
  if total_samples =? 0 then Err ZeroDivisionError
  else Ok ((Qc_of_Z sum / Qc_of_Z total_samples)%Qc, d').
End Averaged.

Section Harness.
Context {D : Type} (dice : D -> Z * D).

(** The loop of [max_scoring_num_rolls] over [range(1, 11)]: [best_roll]
    is unbound ([None]) until an average exceeds [max]. *)
Fixpoint max_rolls_loop (total_samples : Z) (rolls : list Z) (max : Qc) (best_roll : option Z)
    (d : D) : result (option Z * D) :=
  match rolls with
  | [] => Ok (best_roll, d)
  | num_rolls :: rest =>
      try '(avg_sum, d') <- averaged (roll_dice dice num_rolls) total_samples d;
      if bool_decide (max < avg_sum)%Qc then
        max_rolls_loop total_samples rest avg_sum (Some num_rolls) d'
      else max_rolls_loop total_samples rest max best_roll d'
  end.

Definition max_scoring_num_rolls (total_samples : Z) (d : D) : result (Z * D) :=
  try '(best_roll, d') <- max_rolls_loop total_samples (range 1 11) 0%Qc None d;
  match best_roll with
  | Some r => Ok (r, d')
  | None => Err UnboundLocalError
  end.

(** [winner]: [play(strategy0, strategy1, square_update)] from [0, 0]
    with [goal = GOAL]. *)
Definition winner (strategy0 strategy1 : Z -> Z -> Z) (d : D) : result (Z * D) :=
  match play strategy0 strategy1 (square_update dice) GOAL 200 0 0 d with
  | Some (Ok (score0, score1, d')) => Ok (if score1 <? score0 then 0 else 1, d')
  | Some (Err e) => Err e
  | None => Err RecursionError
  end.

Definition average_win_rate (strategy baseline : Z -> Z -> Z) (total_samples : Z) (d : D)
    : result (Qc * D) :=
  try '(a0, d1) <- averaged (winner strategy baseline) total_samples d;
  let win_rate_as_player_0 := (1 - a0)%Qc in
  try '(win_rate_as_player_1, d2) <- averaged (winner baseline strategy) total_samples d1;
  Ok (((win_rate_as_player_0 + win_rate_as_player_1) / Qc_of_Z 2)%Qc, d2).
End Harness.

(** ** References for the harness *)

Section Reference.
Context {D : Type} (dice : D -> Z * D).

(** The averages [avg_roll(num_rolls, dice)] of [max_scoring_num_rolls],
    one per count of [rolls], in order, with the dice threaded. *)
Fixpoint avg_seq (total_samples : Z) (rolls : list Z) (d : D) : result (list (Z * Qc) * D) :=
  match rolls with
  | [] => Ok ([], d)
  | r :: rest =>
      try '(a, d1) <- averaged (roll_dice dice r) total_samples d;
      try '(l, d2) <- avg_seq total_samples rest d1;
      Ok ((r, a) :: l, d2)
  end.
(** The number of games, out of [k], that [strategy] wins against
    [opponent] (ends with the higher score), playing first when [first]
    holds and second otherwise, the games played one after the other on
    the same dice. *)
Fixpoint win_count (strategy opponent : Z -> Z -> Z) (first : bool) (k : nat) (wins : Z) (d : D)
    : result (Z * D) :=
  match k with
  | O => Ok (wins, d)
  | S k' =>
      match (if first then play strategy opponent (square_update dice) GOAL 200 0 0 d
             else play opponent strategy (square_update dice) GOAL 200 0 0 d) with
      | Some (Ok (s0, s1, d')) =>
          let won := if first then s1 <? s0 else s0 <? s1 in
          win_count strategy opponent first k' (if won then wins + 1 else wins) d'
      | Some (Err e) => Err e
      | None => Err RecursionError
      end
  end.
End Reference.

(** ** Lemmas *)

Section AveragedLemmas.
Context {D : Type} (f : D -> result (Z * D)) (lo hi : Z) (I : D -> Prop).
Hypothesis f_range : forall d, I d -> exists x d', f d = Ok (x, d') /\ lo <= x <= hi /\ I d'.

(** A function whose values lie in [[lo, hi]] and that keeps a state
    invariant [I]: the sum of [k] calls lies in [[k lo, k hi]]. *)
Lemma sum_loop_bounds k acc d :
  I d -> exists s d', sum_loop f k acc d = Ok (s, d') /\
    acc + Z.of_nat k * lo <= s <= acc + Z.of_nat k * hi /\ I d'.
Proof.
  revert acc d. induction k as [| k IH]; intros acc d Hd; cbn [sum_loop].
  - do 2 eexists. split; [reflexivity | split; [lia | done]].
  - destruct (f_range d Hd) as (x & d1 & -> & Hx & Hd1). rewrite rbind_Ok.
    destruct (IH (acc + x) d1 Hd1) as (s & d' & -> & Hs & Hd').
    do 2 eexists. split; [reflexivity | split; [lia | done]].
Qed.

Lemma averaged_range_inv n d :
  0 < n -> I d -> exists a d', averaged f n d = Ok (a, d') /\ (Qc_of_Z lo <= a <= Qc_of_Z hi)%Qc /\ I d'.
Proof.
  intros Hn Hd. unfold averaged.
  destruct (sum_loop_bounds (Z.to_nat n) 0 d Hd) as (s & d' & -> & Hs & Hd'). rewrite rbind_Ok.
  rewrite (proj2 (Z.eqb_neq n 0)) by lia. do 2 eexists. split; [reflexivity |].
  split; [| done]. apply Qc_div_bounds; [done |]. rewrite Z2Nat.id in Hs by lia. lia.
Qed.
End AveragedLemmas.

Lemma averaged_range {D} (f : D -> result (Z * D)) (lo hi : Z)
    (f_range : forall d, exists x d', f d = Ok (x, d') /\ lo <= x <= hi) n d :
  0 < n -> exists a d', averaged f n d = Ok (a, d') /\ (Qc_of_Z lo <= a <= Qc_of_Z hi)%Qc.
Proof.
  intros Hn.
  destruct (averaged_range_inv f lo hi (fun _ => True) (fun d _ =>
              let '(ex_intro _ x (ex_intro _ d' (conj Hf Hx))) := f_range d in
              ex_intro _ x (ex_intro _ d' (conj Hf (conj Hx I)))) n d Hn I)
    as (a & d' & Ha & Hb & _).
  eauto.
Qed.

Section HarnessLemmas.
Context {D : Type} (dice : D -> Z * D) `{!SixSided dice}.

Lemma roll_dice_range n d :
  1 <= n <= 10 -> exists x d', roll_dice dice n d = Ok (x, d') /\ 1 <= x <= 60.
Proof.
  intros Hn. destruct (roll_dice_outcome dice n d six_sided) as (x & d' & -> & Hx); [lia |].
  do 2 eexists. split; [reflexivity | lia].
Qed.

(** Once [best_roll] is bound it stays one of the counts seen. *)
Lemma max_rolls_loop_some n rolls mx b d :
  0 < n -> Forall (fun r => 1 <= r <= 10) rolls ->
  exists b' d', max_rolls_loop dice n rolls mx (Some b) d = Ok (Some b', d') /\ (b' = b \/ In b' rolls).
Proof.
  intros Hn Hr. revert mx b d. induction Hr as [| r rolls Hr Hrs IH]; intros mx b d.
  { do 2 eexists. split; [reflexivity | by left]. }
  cbn [max_rolls_loop].
  destruct (averaged_range (roll_dice dice r) 1 60 (fun d => roll_dice_range r d Hr) n d Hn)
    as (a & d1 & -> & _). rewrite rbind_Ok.
  case_bool_decide.
  - destruct (IH a r d1) as (b' & d' & -> & Hb'). do 2 eexists. split; [reflexivity |].
    right. destruct Hb' as [-> | ?]; [by left | by right].
  - destruct (IH mx b d1) as (b' & d' & -> & Hb'). do 2 eexists. split; [reflexivity |].
    destruct Hb' as [-> | ?]; [by left | right; by right].
Qed.

(** The loop of [max_scoring_num_rolls] against the averages it sees:
    either [best_roll] is unchanged and no average exceeds [max], or it
    is the first count whose average is the largest, above [max]. *)
Lemma max_rolls_loop_argmax n rolls mx b d :
  0 < n -> Forall (fun r => 1 <= r <= 10) rolls ->
  exists avgs b' d', avg_seq dice n rolls d = Ok (avgs, d') /\
    max_rolls_loop dice n rolls mx b d = Ok (b', d') /\ map fst avgs = rolls /\
    Forall (fun ra => Qc_of_Z 1 <= ra.2)%Qc avgs /\
    ((b' = b /\ Forall (fun ra => ra.2 <= mx)%Qc avgs) \/
     exists pre r a post, avgs = pre ++ (r, a) :: post /\ b' = Some r /\ (mx < a)%Qc /\
       Forall (fun ra => ra.2 < a)%Qc pre /\ Forall (fun ra => ra.2 <= a)%Qc post).
Proof.
  intros Hn Hr. revert mx b d. induction Hr as [| r rolls Hr Hrs IH]; intros mx b d.
  { exists [], b, d. repeat split; [by left; split |]. by left. }
  cbn [max_rolls_loop avg_seq].
  destruct (averaged_range (roll_dice dice r) 1 60 (fun d => roll_dice_range r d Hr) n d Hn)
    as (a & d1 & -> & [Ha _]). rewrite !rbind_Ok.
  case_bool_decide as Hlt.
  - destruct (IH a (Some r) d1) as (avgs & b' & d' & -> & -> & Hk & H1 & Hc).
    exists ((r, a) :: avgs), b', d'. rewrite rbind_Ok.
    split; [done | split; [done | split; [cbn; by rewrite Hk | split; [by constructor |]]]].
    right. destruct Hc as [[-> Hall] | (pre & r' & a' & post & -> & -> & Hlt' & Hpre & Hpost)].
    + by exists [], r, a, avgs.
    + exists ((r, a) :: pre), r', a', post.
      split; [done | split; [done | split; [by eapply Qclt_trans | split; [by constructor | done]]]].
  - apply Qcnot_lt_le in Hlt.
    destruct (IH mx b d1) as (avgs & b' & d' & -> & -> & Hk & H1 & Hc).
    exists ((r, a) :: avgs), b', d'. rewrite rbind_Ok.
    split; [done | split; [done | split; [cbn; by rewrite Hk | split; [by constructor |]]]].
    destruct Hc as [[-> Hall] | (pre & r' & a' & post & -> & -> & Hlt' & Hpre & Hpost)].
    + left. split; [done | by constructor].
    + right. exists ((r, a) :: pre), r', a', post.
      split; [done | split; [done | split; [done | split; [| done]]]].
      constructor; [cbn; by eapply Qcle_lt_trans | done].
Qed.

End HarnessLemmas.

Section WinCount.
Context {D : Type} (dice : D -> Z * D) `{!SixSided dice}.

(** Every game of [winner] ends, without a tie. *)
Lemma game_result strategy0 strategy1 `{!Strategy strategy0} `{!Strategy strategy1} d :
  exists a b d', play strategy0 strategy1 (square_update dice) GOAL 200 0 0 d = Some (Ok (a, b, d')) /\
    a <> b.
Proof.
  unfold play.
  destruct (play_loop_ends strategy0 strategy1 (square_update dice) GOAL 200 (mk_game 0 0 0) d)
    as (g' & d' & Hl & _); [by left | done |].
  rewrite Hl. exists (score0 g'), (score1 g'), d'. split; [done |].
  destruct (play_loop_one_winner strategy0 strategy1 (square_update dice) GOAL 200 (mk_game 0 0 0) d g' d'
              eq_refl Hl); lia.
Qed.

Context (strategy baseline : Z -> Z -> Z) `{!Strategy strategy} `{!Strategy baseline}.

(** [make_averaged(winner)(strategy, baseline)] sums the games the
    strategy loses as player 0. *)
Lemma sum_winner_first k acc w d :
  exists w' d', win_count dice strategy baseline true k w d = Ok (w', d') /\
    sum_loop (winner dice strategy baseline) k acc d = Ok (acc + Z.of_nat k - (w' - w), d') /\
    w <= w' <= w + Z.of_nat k.
Proof.
  revert acc w d. induction k as [| k IH]; intros acc w d; cbn [win_count sum_loop].
  { exists w, d. split; [done | split; [f_equal; f_equal; lia | lia]]. }
  destruct (game_result strategy baseline d) as (a & b & d1 & Hp & Hne). rewrite Hp.
  unfold winner at 1. rewrite Hp, rbind_Ok.
  destruct (IH (acc + (if b <? a then 0 else 1)) (if b <? a then w + 1 else w) d1)
    as (w' & d' & Hw & Hs & Hb).
  exists w', d'. rewrite Hw, Hs. split; [done |].
  destruct (Z.ltb_spec b a); (split; [f_equal; f_equal |]); lia.
Qed.

(** [make_averaged(winner)(baseline, strategy)] sums the games the
    strategy wins as player 1. *)
Lemma sum_winner_second k acc w d :
  exists w' d', win_count dice strategy baseline false k w d = Ok (w', d') /\
    sum_loop (winner dice baseline strategy) k acc d = Ok (acc + (w' - w), d') /\
    w <= w' <= w + Z.of_nat k.
Proof.
  revert acc w d. induction k as [| k IH]; intros acc w d; cbn [win_count sum_loop].
  { exists w, d. split; [done | split; [f_equal; f_equal; lia | lia]]. }
  destruct (game_result baseline strategy d) as (a & b & d1 & Hp & Hne). rewrite Hp.
  unfold winner at 1. rewrite Hp, rbind_Ok.
  destruct (IH (acc + (if b <? a then 0 else 1)) (if a <? b then w + 1 else w) d1)
    as (w' & d' & Hw & Hs & Hb).
  exists w', d'. rewrite Hw, Hs. split; [done |].
  destruct (Z.ltb_spec b a), (Z.ltb_spec a b); (split; [f_equal; f_equal |]); lia.
Qed.
End WinCount.

(** [best_roll] is bound after the first count. *)
Lemma max_scoring_num_rolls_ok {D} (dice : D -> Z * D) `{!SixSided dice}
    (total_samples : Z) (d : D) :
  0 < total_samples ->
  exists r d', max_scoring_num_rolls dice total_samples d = Ok (r, d') /\ 1 <= r <= 10.
Proof.
  intros Hn. unfold max_scoring_num_rolls. rewrite range_1_11. cbn [max_rolls_loop].
  destruct (averaged_range (roll_dice dice 1) 1 60 (fun d => roll_dice_range dice 1 d ltac:(lia))
              total_samples d Hn) as (a & d1 & -> & [Ha _]).
  rewrite rbind_Ok, bool_decide_true
    by (apply (Qclt_le_trans _ (Qc_of_Z 1)); [by vm_compute | done]).
  destruct (max_rolls_loop_some dice total_samples (range 2 11) a 1 d1) as (b & d' & -> & Hb);
    [done | apply List.Forall_forall; intros m Hm%in_range; lia |].
  rewrite rbind_Ok. do 2 eexists. split; [reflexivity |].
  destruct Hb as [-> | Hb%in_range]; lia.
Qed.

(** ** Properties *)

(** C33: with a six-sided dice and a positive number of samples,
    [max_scoring_num_rolls] returns the first count of [1..10] whose
    average is the largest: among the averages [avg_roll(1..10, dice)]
    it computes in order (with the dice threaded), every earlier one is
    strictly smaller and every later one at most as large.  The first
    average is at least 1, above the initial [max = 0], so [best_roll]
    is always bound. *)
Theorem max_scoring_num_rolls_argmax {D} (dice : D -> Z * D) `{!SixSided dice}
    (total_samples : Z) (d : D) :
  0 < total_samples ->
  exists avgs pre r a post d',
    avg_seq dice total_samples (range 1 11) d = Ok (avgs, d') /\
    max_scoring_num_rolls dice total_samples d = Ok (r, d') /\
    map fst avgs = range 1 11 /\ avgs = pre ++ (r, a) :: post /\ 1 <= r <= 10 /\
    Forall (fun ra => ra.2 < a)%Qc pre /\ Forall (fun ra => ra.2 <= a)%Qc post.
Proof.
  intros Hn. unfold max_scoring_num_rolls.
  destruct (max_rolls_loop_argmax dice total_samples (range 1 11) 0%Qc None d)
    as (avgs & b' & d' & Hs & -> & Hk & H1 & Hc);
    [done | apply List.Forall_forall; intros m Hm%in_range; lia |].
  destruct Hc as [[-> Hall] | (pre & r & a & post & -> & -> & _ & Hpre & Hpost)].
  - exfalso. rewrite range_1_11 in Hk.
    destruct avgs as [| [k a] avgs]; [discriminate |].
    apply Forall_cons in Hall as [Ha0 _], H1 as [Ha1 _]. cbn in Ha0, Ha1.
    apply (Qcle_not_lt a 0%Qc Ha0). eapply Qclt_le_trans; [| exact Ha1]. by vm_compute.
  - exists (pre ++ (r, a) :: post), pre, r, a, post, d'. rewrite rbind_Ok.
    split; [done | split; [done | split; [done | split; [done | split; [| done]]]]].
    assert (Hr : In r (range 1 11)).
    { rewrite <- Hk, map_app. apply in_or_app. right. by left. }
    apply in_range in Hr. lia.
Qed.

(** C29: [average_win_rate(strategy, baseline)], for a six-sided dice
    and a positive number [n] of samples, is the fraction of the [2 n]
    games that [strategy] wins: [w0] of the [n] games it plays first
    (the [1 - ...] turns [winner]'s average of player 1's wins into
    player 0's) and [w1] of the [n] games that follow, where it plays
    second; every game ends, without a tie. *)
Theorem average_win_rate_counts {D} (dice : D -> Z * D) `{!SixSided dice}
    (strategy baseline : Z -> Z -> Z) `{!Strategy strategy} `{!Strategy baseline}
    (total_samples : Z) (d : D) :
  0 < total_samples ->
  exists w0 d1 w1 d2,
    win_count dice strategy baseline true (Z.to_nat total_samples) 0 d = Ok (w0, d1) /\
    win_count dice strategy baseline false (Z.to_nat total_samples) 0 d1 = Ok (w1, d2) /\
    0 <= w0 <= total_samples /\ 0 <= w1 <= total_samples /\
    average_win_rate dice strategy baseline total_samples d =
      Ok ((Qc_of_Z (w0 + w1) / Qc_of_Z (2 * total_samples))%Qc, d2).
Proof.
  intros Hn. unfold average_win_rate, averaged.
  destruct (sum_winner_first dice strategy baseline (Z.to_nat total_samples) 0 0 d)
    as (w0 & d1 & Hw0 & -> & Hb0).
  destruct (sum_winner_second dice strategy baseline (Z.to_nat total_samples) 0 0 d1)
    as (w1 & d2 & Hw1 & Hs1 & Hb1).
  rewrite Z2Nat.id in Hb0, Hb1 by lia.
  exists w0, d1, w1, d2. split; [done | split; [done | split; [lia | split; [lia |]]]].
  rewrite rbind_Ok, (proj2 (Z.eqb_neq total_samples 0)) by lia. cbv zeta.
  rewrite rbind_Ok, Hs1, !rbind_Ok, Z2Nat.id by lia. f_equal. f_equal.
  assert (HN : Qc_of_Z total_samples <> 0%Qc).
  { intros E. rewrite <- Z2Qc_inj_0 in E. apply Z2Qc_inj in E. lia. }
  assert (H2 : Qc_of_Z 2 <> 0%Qc) by (rewrite Z2Qc_inj_2; by vm_compute).
  replace (0 + total_samples - (w0 - 0)) with (total_samples - w0) by lia.
  replace (0 + (w1 - 0)) with w1 by lia.
  rewrite Z2Qc_inj_sub, Z2Qc_inj_add, Z2Qc_inj_mul.
  field. by split.
Qed.

(** [make_averaged(f, 0)] divides by zero: its [averaged] raises
    [ZeroDivisionError] whatever [f] does, and with a negative count it
    calls nothing and returns 0. *)
Theorem averaged_zero_samples {D} (f : D -> result (Z * D)) (n : Z) (d : D) :
  averaged f 0 d = Err ZeroDivisionError /\ (n < 0 -> averaged f n d = Ok (0%Qc, d)).
Proof.
  split; [reflexivity |]. intros Hn. unfold averaged.
  replace (Z.to_nat n) with 0%nat by lia. cbn [sum_loop]. rewrite rbind_Ok.
  rewrite (proj2 (Z.eqb_neq n 0)) by lia. f_equal. f_equal. rewrite Z2Qc_inj_0. unfold Qcdiv. by rewrite Qcmult_0_l.
Qed.

(** The docstring examples: averaging 40 rolls of one die of
    [make_test_dice(4, 2, 5, 1)] gives 3.0, and [max_scoring_num_rolls]
    with [make_test_dice(1, 6)] answers 1. *)
Theorem harness_docstrings :
  (exists a, averaged (roll_dice (make_test_dice [4; 2; 5; 1]) 1) 40 0 = Ok (a, 40) /\
     a = Qc_of_Z 3) /\
  max_scoring_num_rolls (make_test_dice [1; 6]) 1000 0 = Ok (1, 55000).
Proof.
  split; [| vm_compute; reflexivity].
  eexists. split; [vm_compute; reflexivity | qc_eval].
Qed.

(** ** The properties at concrete inputs *)

#[export] Instance test_dice_six_sided : SixSided (make_test_dice [3; 4; 5; 6]).
Proof.
  intros k. unfold make_test_dice. cbn [fst length]. change (Z.of_nat 4) with 4.
  pose proof (Z.mod_pos_bound k 4 ltac:(lia)) as Hk.
  assert (Z.to_nat (k mod 4) = 0 \/ Z.to_nat (k mod 4) = 1 \/ Z.to_nat (k mod 4) = 2 \/
          Z.to_nat (k mod 4) = 3)%nat as [-> | [-> | [-> | ->]]] by lia; cbn; lia.
Qed.

Lemma max_scoring_num_rolls_argmax_witness :
  0 < 100 /\ exists avgs pre r a post d',
    avg_seq (make_test_dice [3; 4; 5; 6]) 100 (range 1 11) 0 = Ok (avgs, d') /\
    max_scoring_num_rolls (make_test_dice [3; 4; 5; 6]) 100 0 = Ok (r, d') /\
    map fst avgs = range 1 11 /\ avgs = pre ++ (r, a) :: post /\ 1 <= r <= 10 /\
    Forall (fun ra => ra.2 < a)%Qc pre /\ Forall (fun ra => ra.2 <= a)%Qc post.
Proof. split; [lia | apply max_scoring_num_rolls_argmax; [typeclasses eauto | lia]]. Defined.

Lemma average_win_rate_counts_witness :
  0 < 10 /\ exists w0 d1 w1 d2,
    win_count (make_test_dice [3; 4; 5; 6]) catch_up always_roll_5 true (Z.to_nat 10) 0 0 = Ok (w0, d1) /\
    win_count (make_test_dice [3; 4; 5; 6]) catch_up always_roll_5 false (Z.to_nat 10) 0 d1 = Ok (w1, d2) /\
    0 <= w0 <= 10 /\ 0 <= w1 <= 10 /\
    average_win_rate (make_test_dice [3; 4; 5; 6]) catch_up always_roll_5 10 0 =
      Ok ((Qc_of_Z (w0 + w1) / Qc_of_Z (2 * 10))%Qc, d2).
Proof. split; [lia | apply average_win_rate_counts; [typeclasses eauto .. | lia]]. Defined.

