(* ===== verification/Harness.v ===== *)
(** * Harness: [run_experiments] and the command line [run]

    [run_experiments] of [src/hog.py] passes stateful strategies to
    [average_win_rate]: [final_strategy] reads the module's [best_move]
    table, and the [strat] closures of [final_strategy_v05] fill both
    memo tables as they play.  Its strategies are therefore effectful
    functions [Z -> Z -> PyM world Z] on a [world] that holds the
    module's globals, the state of the dice [six_sided], and what was
    printed so far.

    [mplay] is [play] with such strategies and update: the strategy is
    called before [update], and either may change the world.  Its
    termination ([mplay_loop_ends]) holds for strategies that answer
    [0..10] and keep an invariant of the world; the hybrid strategy
    keeps the memo tables sound and greedy, the table-backed ones on
    full imported tables keep the globals unchanged.

    [run] is the [@main] entry point: it assigns [prob_cutoff = 0.001]
    and, when [--run_experiments] / [-r] is given, calls
    [run_experiments(total_samples=int(args.run_experiments))].  The
    value argparse leaves in [args.run_experiments] is the input
    [re_arg]: absent ([None]), the bare flag (the [const] [1000]) or the
    string that follows it; Python's [int] of that string is [py_int]. *)

From Stdlib Require Import String Ascii.
From S2P Require Import Prelude Rules Dice Optimal Greedy Strategy Simulator Store Experiments.

Open Scope Z_scope.

(** ** [play] with effectful strategies *)

Section MPlay.
Context {St : Type} (strategy0 strategy1 : Z -> Z -> PyM St Z)
  (update : Z -> Z -> Z -> PyM St Z) (goal : Z).

(** The body of the [while] loop: [strategy0(score0, score1)] is called
    before [update]. *)
Definition mturn (g : game) : PyM St game :=
  if who g =? 0 then
    do num_rolls <- strategy0 (score0 g) (score1 g);
    do s0 <- update num_rolls (score0 g) (score1 g);
    pret (mk_game s0 (score1 g) ((who g + 1) mod 2))
  else if negb (who g =? 1) then pfail AssertionError
  else
    do num_rolls <- strategy1 (score1 g) (score0 g);
    do s1 <- update num_rolls (score1 g) (score0 g);
    pret (mk_game (score0 g) s1 ((who g + 1) mod 2)).

(** The [while] loop, run for at most [fuel] iterations. *)
Fixpoint mplay_loop (fuel : nat) (g : game) (st : St) : option (result (game * St)) :=
  if playing goal g then
    match fuel with
    | O => None
    | S fuel' =>
        match mturn g st with
        | Ok (g', st') => mplay_loop fuel' g' st'
        | Err e => Some (Err e)
        end
    end
  else Some (Ok (g, st)).

Definition mplay (fuel : nat) (s0 s1 : Z) (st : St) : option (result (Z * Z * St)) :=
  match mplay_loop fuel (mk_game s0 s1 0) st with
  | Some (Ok (g, st')) => Some (Ok (score0 g, score1 g, st'))
  | Some (Err e) => Some (Err e)
  | None => None
  end.
End MPlay.

(** A pure strategy as an effectful one. *)
Definition pure_strategy {S} (f : Z -> Z -> Z) : Z -> Z -> PyM S Z := fun s o => pret (f s o).

(** ** The world of [run_experiments] *)

(** What [run_experiments] prints: [print(label, value)] with an integer
    or a number, or [print(maxnums)].  The text of a float is not
    modelled; the value is kept exactly. *)
Inductive line :=
| LineZ (label : string) (v : Z)
| LineQ (label : string) (v : Qc)
| LineS (text : string).

(** A Python value that is an [int] or a [str] ([maxnums]). *)
Inductive pyval :=
| PyInt (z : Z)
| PyStr (s : string).

(** [str(v)]. *)
Definition py_str (v : pyval) : string :=
  match v with PyInt z => py_str_int z | PyStr s => s end.

Section World.
Context {D : Type} (dice : D -> Z * D).

Record world := mk_world { w_globals : globals; w_dice : D; w_stdout : list line }.

(** Run code on the globals, on the dice, or print. *)
Definition on_globals {A} (c : PyM globals A) : PyM world A :=
  fun w => match c (w_globals w) with
           | Ok (a, g) => Ok (a, mk_world g (w_dice w) (w_stdout w))
           | Err e => Err e
           end.

Definition on_dice {A} (c : PyM D A) : PyM world A :=
  fun w => match c (w_dice w) with
           | Ok (a, d) => Ok (a, mk_world (w_globals w) d (w_stdout w))
           | Err e => Err e
           end.

Definition py_print (l : line) : PyM world unit :=
  fun w => Ok (tt, mk_world (w_globals w) (w_dice w) (w_stdout w ++ [l])).

(** [square_update] with the module's dice. *)
Definition wupdate (num_rolls player_score opponent_score : Z) : PyM world Z :=
  on_dice (square_update dice num_rolls player_score opponent_score).

(** [winner(strategy0, strategy1)], with the iteration bound of
    [Experiments.winner]. *)
Definition mwinner (strategy0 strategy1 : Z -> Z -> PyM world Z) : PyM world Z :=
  fun w => match mplay strategy0 strategy1 wupdate GOAL 200 0 0 w with
           | Some (Ok (score0, score1, w')) => Ok (if score1 <? score0 then 0 else 1, w')
           | Some (Err e) => Err e
           | None => Err RecursionError
           end.

(** [average_win_rate(strategy, baseline, total_samples)]. *)
Definition maverage_win_rate (strategy baseline : Z -> Z -> PyM world Z) (total_samples : Z)
    : PyM world Qc :=
  fun w =>
    try '(a0, w1) <- averaged (mwinner strategy baseline) total_samples w;
    let win_rate_as_player_0 := (1 - a0)%Qc in
    try '(win_rate_as_player_1, w2) <- averaged (mwinner baseline strategy) total_samples w1;
    Ok (((win_rate_as_player_0 + win_rate_as_player_1) / Qc_of_Z 2)%Qc, w2).
End World.

Arguments world : clear implicits.
Arguments mk_world {D}.

(** [for x in l: acc = body(x, acc)] on a shared state. *)
Fixpoint pfold {S A B} (l : list A) (body : A -> B -> PyM S B) (acc : B) : PyM S B :=
  match l with
  | [] => pret acc
  | x :: rest => do acc' <- body x acc; pfold rest body acc'
  end.

(** [range(0, 105, 5)]. *)
Definition range5 : list Z := map (Z.mul 5) (range 0 21).

(** ** Python's [int] of a string *)

Section PyInt.
Open Scope char_scope.

(** The ASCII characters [str.isspace] accepts. *)
Definition is_py_space (c : ascii) : bool :=
  let n := nat_of_ascii c in
  ((9 <=? n) && (n <=? 13) || (28 <=? n) && (n <=? 32))%nat.

Definition is_digit (c : ascii) : bool :=
  let n := nat_of_ascii c in ((48 <=? n) && (n <=? 57))%nat.

Definition digit_value (c : ascii) : Z := Z.of_nat (nat_of_ascii c) - 48.

Fixpoint drop_space (l : list ascii) : list ascii :=
  match l with
  | c :: r => if is_py_space c then drop_space r else l
  | [] => []
  end.

(** [s.strip()]. *)
Definition py_strip (l : list ascii) : list ascii := rev (drop_space (rev (drop_space l))).

(** The digits after the first: a digit, or one [_] followed by a digit. *)
Fixpoint digits_value (l : list ascii) (acc : Z) : option Z :=
  match l with
  | [] => Some acc
  | c :: r =>
      if is_digit c then digits_value r (10 * acc + digit_value c)
      else if (c =? "_")%char then
        match r with
        | d :: r' => if is_digit d then digits_value r' (10 * acc + digit_value d) else None
        | [] => None
        end
      else None
  end.

Definition unsigned_value (l : list ascii) : option Z :=
  match l with
  | c :: r => if is_digit c then digits_value r (digit_value c) else None
  | [] => None
  end.

(** [int(s)]: surrounding whitespace, an optional sign, decimal digits
    with single underscores between them; anything else raises
    [ValueError]. *)
Definition py_int (s : string) : result Z :=
  let l := py_strip (list_ascii_of_string s) in
  let '(sgn, body) :=
    match l with
    | "+" :: r => (1, r)
    | "-" :: r => (-1, r)
    | _ => (1, l)
    end in
  match unsigned_value body with
  | Some z => Ok (sgn * z)
  | None => Err ValueError
  end.
End PyInt.

(** ** [run_experiments] and [run] *)

(** [args.run_experiments] after [parser.parse_args()]: [None], the
    [const] [1000] of a bare flag, or the string given. *)
Inductive re_arg :=
| ArgAbsent
| ArgBare
| ArgValue (s : string).

Section Run.
Context {D : Type} (dice : D -> Z * D).
Local Open Scope string_scope.

(** [final_strategy] and the [strat] of [final_strategy_v05(i, j)] on
    the module's globals. *)
Definition wfinal_strategy (score opponent_score : Z) : PyM (world D) Z :=
  on_globals (final_strategy score opponent_score).

Definition wfinal_strategy_v05 (loss_switch end_switch score opponent_score : Z) : PyM (world D) Z :=
  on_globals (final_strategy_v05 loss_switch end_switch score opponent_score).

(** One iteration of the sweep over [final_strategy_v05(i, j)]:
    [maxnums, max_rate] is the accumulator. *)
Definition sweep_cell (total_samples : Z) (baseline : Z -> Z -> Z) (i j : Z) (acc : pyval * Qc)
    : PyM (world D) (pyval * Qc) :=
  do win_rate <- maverage_win_rate dice (wfinal_strategy_v05 i j) (pure_strategy baseline) total_samples;
  do _ <- py_print (LineQ ("final_strategy_v05_" ++ py_str_int i ++ "-" ++ py_str_int j ++ " win rate:")
                      win_rate);
  if bool_decide (acc.2 < win_rate)%Qc then pret (PyStr (py_str_int i ++ " " ++ py_str_int j), win_rate)
  else pret acc.

Definition sweep (total_samples : Z) (baseline : Z -> Z -> Z) : PyM (world D) (pyval * Qc) :=
  pfold range5 (fun i acc => pfold range5 (fun j acc => sweep_cell total_samples baseline i j acc) acc)
    (PyInt 0, 0%Qc).

(** [run_experiments(total_samples)]; [baseline] is the default argument
    [always_roll(6)] of [average_win_rate]. *)
Definition run_experiments (total_samples : Z) : PyM (world D) unit :=
  do six_sided_max <- on_dice (max_scoring_num_rolls dice total_samples);
  do _ <- py_print (LineZ "Max scoring num rolls for six-sided dice:" six_sided_max);
  do baseline <- plift (always_roll 6);
  do roll6 <- plift (always_roll 6);
  do r <- maverage_win_rate dice (pure_strategy roll6) (pure_strategy baseline) total_samples;
  do _ <- py_print (LineQ "always_roll(6) win rate:" r);
  do r <- maverage_win_rate dice (pure_strategy catch_up) (pure_strategy baseline) total_samples;
  do _ <- py_print (LineQ "catch_up win rate:" r);
  do roll3 <- plift (always_roll 3);
  do r <- maverage_win_rate dice (pure_strategy roll3) (pure_strategy baseline) total_samples;
  do _ <- py_print (LineQ "always_roll(3) win rate:" r);
  do roll8 <- plift (always_roll 8);
  do r <- maverage_win_rate dice (pure_strategy roll8) (pure_strategy baseline) total_samples;
  do _ <- py_print (LineQ "always_roll(8) win rate:" r);
  do r <- maverage_win_rate dice (pure_strategy (fun s o => tail_strategy s o 12 6))
            (pure_strategy baseline) total_samples;
  do _ <- py_print (LineQ "tail_strategy win rate:" r);
  do r <- maverage_win_rate dice (pure_strategy (fun s o => square_strategy s o 12 6))
            (pure_strategy baseline) total_samples;
  do _ <- py_print (LineQ "square_strategy win rate:" r);
  do r <- maverage_win_rate dice wfinal_strategy (pure_strategy baseline) total_samples;
  do _ <- py_print (LineQ "final_strategy win rate:" r);
  do '(maxnums, max_rate) <- sweep total_samples baseline;
  py_print (LineS (py_str maxnums)).

(** [run]: [global prob_cutoff; prob_cutoff = 0.001], then
    [if args.run_experiments: run_experiments(int(args.run_experiments))]. *)
Definition run (arg : re_arg) : PyM (world D) unit :=
  do _ <- on_globals (fun g => Ok (tt, mk_globals (g_best_move g) (g_best_score g) (Some run_prob_cutoff)));
  match arg with
  | ArgAbsent => pret tt
  | ArgBare => run_experiments 1000
  | ArgValue s =>
      if String.eqb s "" then pret tt
      else do total_samples <- plift (py_int s); run_experiments total_samples
  end.
End Run.

(** ** Lemmas *)

Section OnDice.
Context {D : Type}.

(** [on_dice c] at a world is [c] at its dice. *)
Lemma on_dice_world {A} (c : PyM D A) gl d out :
  on_dice c (mk_world gl d out) =
    match c d with Ok (a, d') => Ok (a, mk_world gl d' out) | Err e => Err e end.
Proof. done. Qed.

End OnDice.

(** [max_scoring_num_rolls]' loop with a negative count: every average is
    [0], never above [max = 0], so [best_roll] stays unbound. *)
Lemma max_rolls_loop_negative {D} (dice : D -> Z * D) n rolls d :
  n < 0 -> max_rolls_loop dice n rolls 0%Qc None d = Ok (None, d).
Proof.
  intros Hn. induction rolls as [| r rolls IH]; cbn [max_rolls_loop]; [done |].
  rewrite (proj2 (averaged_zero_samples (roll_dice dice r) n d) Hn), rbind_Ok.
  rewrite bool_decide_false; [done |]. intros H. by apply Qclt_not_eq in H.
Qed.

(** [run] once [args.run_experiments] has been converted by [int]. *)
Lemma run_value {D} (dice : D -> Z * D) s n w :
  py_int s = Ok n ->
  run dice (ArgValue s) w =
    run_experiments dice n (mk_world (mk_globals (g_best_move (w_globals w)) (g_best_score (w_globals w))
                                        (Some run_prob_cutoff)) (w_dice w) (w_stdout w)).
Proof.
  intros Hs. unfold run, pbind at 1, on_globals at 1.
  destruct (String.eqb_spec s "") as [-> | _]; [discriminate |]. by rewrite Hs.
Qed.

(** ** Completion of [run_experiments] on full tables *)

(** What the termination of [mplay] needs of a strategy and of the
    update, relative to an invariant [I] of the state: a strategy answers
    a dice count in [0..10] on every state of the board, the update
    gains the mover a point. *)
Definition strategy_ok {St} (I : St -> Prop) (goal : Z) (strategy : Z -> Z -> PyM St Z) : Prop :=
  forall s o st, 0 <= s < goal -> 0 <= o < goal -> I st ->
    exists n st', strategy s o st = Ok (n, st') /\ 0 <= n <= 10 /\ I st'.

Definition update_ok {St} (I : St -> Prop) (update : Z -> Z -> Z -> PyM St Z) : Prop :=
  forall n p o st, 0 <= n <= 10 -> I st ->
    exists p' st', update n p o st = Ok (p', st') /\ p + 1 <= p' /\ I st'.

(** The loop's well-formedness, with the scores non-negative. *)
Definition mgame_ok (g : game) : Prop := turn_ok g /\ 0 <= score0 g /\ 0 <= score1 g.

Section MTermination.
Context {St : Type} (I : St -> Prop) (strategy0 strategy1 : Z -> Z -> PyM St Z)
  (update : Z -> Z -> Z -> PyM St Z) (goal : Z).
Hypotheses (H0 : strategy_ok I goal strategy0) (H1 : strategy_ok I goal strategy1)
  (Hu : update_ok I update).

Lemma mturn_progress g st :
  mgame_ok g -> playing goal g = true -> I st ->
  exists g' st', mturn strategy0 strategy1 update g st = Ok (g', st') /\ mgame_ok g' /\
    (remaining goal g' < remaining goal g)%nat /\ I st'.
Proof.
  intros (Hw & Hs0 & Hs1) Hp Hst. unfold playing in Hp. apply andb_true_iff in Hp as [Hp0 Hp1].
  apply Z.ltb_lt in Hp0, Hp1. unfold mturn, remaining, mgame_ok, turn_ok.
  destruct Hw as [Hw | Hw]; rewrite Hw; cbn [Z.eqb Pos.eqb negb].
  - destruct (H0 (score0 g) (score1 g) st) as (n & st1 & Hn & Hr & Hst1); [lia | lia | done |].
    destruct (Hu n (score0 g) (score1 g) st1 Hr Hst1) as (p' & st2 & Hp' & Hgt & Hst2).
    rewrite (pbind_Ok _ _ _ _ _ Hn), (pbind_Ok _ _ _ _ _ Hp').
    do 2 eexists. split; [reflexivity |]. cbn [score0 score1 who].
    split; [split; [by right | lia] | split; [lia | done]].
  - destruct (H1 (score1 g) (score0 g) st) as (n & st1 & Hn & Hr & Hst1); [lia | lia | done |].
    destruct (Hu n (score1 g) (score0 g) st1 Hr Hst1) as (p' & st2 & Hp' & Hgt & Hst2).
    rewrite (pbind_Ok _ _ _ _ _ Hn), (pbind_Ok _ _ _ _ _ Hp').
    do 2 eexists. split; [reflexivity |]. cbn [score0 score1 who].
    split; [split; [by left | lia] | split; [lia | done]].
Qed.

Lemma mplay_loop_ends f g st :
  mgame_ok g -> I st -> (remaining goal g <= f)%nat ->
  exists g' st', mplay_loop strategy0 strategy1 update goal f g st = Some (Ok (g', st')) /\ I st'.
Proof.
  revert g st. induction f as [| f IH]; intros g st Hg Hst Hf; cbn [mplay_loop];
    destruct (playing goal g) eqn:Hp; [| eauto | | eauto].
  - exfalso. unfold playing, remaining in *. apply andb_true_iff in Hp as [Hp0 Hp1].
    apply Z.ltb_lt in Hp0, Hp1. lia.
  - destruct (mturn_progress g st Hg Hp Hst) as (g1 & st1 & -> & Hg1 & Hm & Hst1).
    apply IH; [done | done | lia].
Qed.
End MTermination.

Lemma pfold_inv {S A B} (I : S -> Prop) (l : list A) (body : A -> B -> PyM S B) acc st :
  (forall x acc st, In x l -> I st -> exists acc' st', body x acc st = Ok (acc', st') /\ I st') ->
  I st -> exists acc' st', pfold l body acc st = Ok (acc', st') /\ I st'.
Proof.
  revert acc st. induction l as [| x l IH]; intros acc st Hb Hst; cbn [pfold]; [by exists acc, st |].
  destruct (Hb x acc st (or_introl eq_refl) Hst) as (acc1 & st1 & Hx & Hst1).
  rewrite (pbind_Ok _ _ _ _ _ Hx). apply IH; [| done]. intros; apply Hb; [by right | done].
Qed.

Lemma pure_strategy_ok {St} (I : St -> Prop) goal (f : Z -> Z -> Z) `{!Strategy f} :
  strategy_ok I goal (pure_strategy f).
Proof. intros s o st _ _ Hst. exists (f s o), st. split; [done | split; [apply strategy_range | done]]. Qed.

Lemma always_roll_strategy n f : always_roll n = Ok f -> Strategy f.
Proof.
  unfold always_roll. destruct ((0 <=? n) && (n <=? 10)) eqn:E; [| discriminate].
  intros [= <-] s o. apply andb_true_iff in E as [E0 E1]. apply Z.leb_le in E0, E1. lia.
Qed.

#[export] Instance tail_strategy_default : Strategy (fun s o => tail_strategy s o 12 6).
Proof. intros s o. unfold tail_strategy. destruct (12 <=? tail_points o); lia. Qed.

#[export] Instance square_strategy_default : Strategy (fun s o => square_strategy s o 12 6).
Proof. intros s o. unfold square_strategy. destruct (12 <=? _); lia. Qed.

(** A cell already solved is returned as it is. *)
Lemma find_best_move_cached pc f s o t m p :
  0 <= s < 100 -> 0 <= o < 100 -> lookup2 t (Z.to_nat s) (Z.to_nat o) = Some (Solved m p) ->
  find_best_move pc (S f) s o t = Ok ((m, p), t).
Proof.
  intros Hs Ho He. cbn [find_best_move].
  rewrite (proj2 (Z.ltb_lt s 100)), (proj2 (Z.ltb_lt o 100)) by lia. cbn [negb andb].
  py_read. by rewrite py_index2_nonneg, He by lia.
Qed.

(** The tables the module imports: every cell of the board holds a dice
    count in [0..10] (with a probability for [best_move]). *)
Definition full_moves (t : move_table) : Prop :=
  forall i j, 0 <= i < 100 -> 0 <= j < 100 ->
    exists m p, lookup2 t (Z.to_nat i) (Z.to_nat j) = Some (Solved m p) /\ 0 <= m <= 10.

Definition full_scores (t : score_table) : Prop :=
  forall i j, 0 <= i < 100 -> 0 <= j < 100 ->
    exists m, lookup2 t (Z.to_nat i) (Z.to_nat j) = Some m /\ 0 <= m <= 10.

Definition tables_full (g : globals) : Prop := full_moves (g_best_move g) /\ full_scores (g_best_score g).

Section Invariant.
Context {D : Type} (dice : D -> Z * D) `{!SixSided dice} (I : world D -> Prop).
(** The invariant does not depend on the dice. *)
Hypothesis HI : forall gl d d' out, I (mk_world gl d out) -> I (mk_world gl d' out).

Lemma wupdate_ok : update_ok I (wupdate dice).
Proof.
  intros n p o [gl d out] Hn Hw.
  destruct (square_update_progress dice n p o d Hn) as (p' & d' & Hup & Hp').
  exists p', (mk_world gl d' out). unfold wupdate. rewrite on_dice_world, Hup. eauto.
Qed.

Lemma mwinner_ok s0 s1 :
  strategy_ok I GOAL s0 -> strategy_ok I GOAL s1 ->
  forall w, I w -> exists x w', mwinner dice s0 s1 w = Ok (x, w') /\ 0 <= x <= 1 /\ I w'.
Proof.
  intros H0 H1 w Hw. unfold mwinner, mplay.
  destruct (mplay_loop_ends I s0 s1 (wupdate dice) GOAL H0 H1 wupdate_ok 200 (mk_game 0 0 0) w)
    as (g' & w' & -> & Hw'); [split; [by left | cbn; lia] | done | apply Nat.le_refl |].
  do 2 eexists. split; [reflexivity |]. split; [destruct (score1 g' <? score0 g'); lia | done].
Qed.

Lemma maverage_win_rate_ok s b n :
  0 < n -> strategy_ok I GOAL s -> strategy_ok I GOAL b ->
  forall w, I w -> exists r w', maverage_win_rate dice s b n w = Ok (r, w') /\ I w'.
Proof.
  intros Hn Hs Hb w Hw. unfold maverage_win_rate.
  destruct (averaged_range_inv (mwinner dice s b) 0 1 I (mwinner_ok s b Hs Hb) n w Hn Hw)
    as (a0 & w1 & -> & _ & Hw1). rewrite rbind_Ok.
  destruct (averaged_range_inv (mwinner dice b s) 0 1 I (mwinner_ok b s Hb Hs) n w1 Hn Hw1)
    as (a1 & w2 & -> & _ & Hw2). rewrite rbind_Ok. eauto.
Qed.
End Invariant.

Section Imported.
Context {D : Type} (dice : D -> Z * D) `{!SixSided dice} (g0 : globals).
Hypothesis Hfull : tables_full g0.

(** The invariant of the world: the globals are those imported. *)
Let I (w : world D) : Prop := w_globals w = g0.

Lemma wfinal_strategy_ok : strategy_ok I GOAL (wfinal_strategy (D:=D)).
Proof.
  intros s o [gl d out] Hs Ho Hw. unfold I in Hw; cbn [w_globals] in Hw; subst gl. unfold GOAL in *.
  destruct (proj1 Hfull s o Hs Ho) as (m & p & He & Hm).
  exists m, (mk_world g0 d out). split; [| done].
  unfold wfinal_strategy, on_globals, final_strategy. cbn [w_globals w_dice w_stdout].
  py_read. by rewrite py_index2_nonneg, He by lia.
Qed.

Lemma final_strategy_v05_full i j s o :
  0 <= s < 100 -> 0 <= o < 100 ->
  exists n, final_strategy_v05 i j s o g0 = Ok (n, g0) /\ 0 <= n <= 10.
Proof.
  intros Hs Ho. destruct Hfull as [Hm Hsc].
  destruct (Hm s o Hs Ho) as (m & p & He & Hmr). destruct (Hsc s o Hs Ho) as (k & Hk & Hkr).
  assert (Hopt : (do e <- on_best_move (find_best_move (g_prob_cutoff g0) 200 s o); pret e.1) g0 =
                 Ok (m, g0)).
  { rewrite (pbind_Ok _ _ _ (m, p) g0); [done |]. unfold on_best_move.
    rewrite (find_best_move_cached _ 199 s o _ m p) by done. by destruct g0. }
  unfold final_strategy_v05, pbind at 1, pget at 1.
  destruct (s <? o + i); [| destruct (GOAL - j <? s)]; [by exists m | by exists m |].
  exists k. split; [| done]. unfold on_best_score.
  rewrite (max_score_roll_cached _ s o _ k) by (done || lia). by destruct g0.
Qed.

Lemma wfinal_strategy_v05_ok i j : strategy_ok I GOAL (wfinal_strategy_v05 (D:=D) i j).
Proof.
  intros s o [gl d out] Hs Ho Hw. unfold I in Hw; cbn [w_globals] in Hw; subst gl.
  destruct (final_strategy_v05_full i j s o Hs Ho) as (n & Hn & Hr).
  exists n, (mk_world g0 d out). unfold wfinal_strategy_v05, on_globals. cbn [w_globals]. by rewrite Hn.
Qed.

Lemma sweep_ok n baseline `{!Strategy baseline} w :
  0 < n -> I w -> exists acc w', sweep dice n baseline w = Ok (acc, w') /\ I w'.
Proof.
  intros Hn Hw. unfold sweep.
  apply (pfold_inv I); [| done]. intros i acc1 w1 _ Hw1.
  apply (pfold_inv I); [| done]. intros j acc2 w2 _ Hw2.
  unfold sweep_cell.
  destruct (maverage_win_rate_ok dice I (fun gl d d' out H => H) (wfinal_strategy_v05 i j) (pure_strategy baseline) n Hn
              (wfinal_strategy_v05_ok i j) (pure_strategy_ok I GOAL baseline) w2 Hw2)
    as (r & w3 & Hr & Hw3).
  rewrite (pbind_Ok _ _ _ _ _ Hr).
  unfold pbind at 1, py_print at 1. cbv beta iota.
  case_bool_decide; by do 2 eexists.
Qed.
End Imported.

Ltac print_step := unfold pbind at 1, py_print at 1; cbv beta iota.

(** One [print(label, average_win_rate(strategy, baseline))] of
    [run_experiments], given that both strategies are [strategy_ok]. *)
Ltac avg_step I Hn Hs Hb :=
  lazymatch goal with
  | |- context [pbind (maverage_win_rate ?dice ?s ?b ?n) _ ?w] =>
      let r := fresh "r" in let w' := fresh "w" in let H := fresh in let Hw := fresh in
      destruct (maverage_win_rate_ok dice I (fun gl d d' out H => H) s b n Hn Hs Hb w ltac:(done)) as (r & w' & H & Hw);
      rewrite (pbind_Ok _ _ _ _ _ H); clear H; print_step
  end.

(** Each call of [run_experiments] succeeds and keeps the globals. *)
Lemma run_experiments_ok {D} (dice : D -> Z * D) `{!SixSided dice} (n : Z) (w : world D) :
  0 < n -> tables_full (w_globals w) ->
  exists w', run_experiments dice n w = Ok (tt, w') /\ w_globals w' = w_globals w.
Proof.
  intros Hn Hfull. remember (w_globals w) as g0 eqn:Hw0. symmetry in Hw0.
  set (I := fun w : world D => w_globals w = g0).
  pose proof (pure_strategy_ok I GOAL (fun _ _ : Z => 6) (Strategy0 := always_roll_strategy 6 _ eq_refl)) as Hb.
  unfold run_experiments. destruct w as [gl d out]. cbn [w_globals] in Hw0.
  destruct (max_scoring_num_rolls_ok dice n d Hn) as (r & d1 & Hr & _).
  rewrite (pbind_Ok _ _ _ r (mk_world gl d1 out)) by (by rewrite on_dice_world, Hr).
  print_step.
  rewrite (pbind_Ok _ _ _ (fun _ _ : Z => 6) _) by reflexivity.
  rewrite (pbind_Ok _ _ _ (fun _ _ : Z => 6) _) by reflexivity.
  avg_step I Hn Hb Hb.
  avg_step I Hn (pure_strategy_ok I GOAL catch_up) Hb.
  rewrite (pbind_Ok _ _ _ (fun _ _ : Z => 3) _) by reflexivity.
  avg_step I Hn (pure_strategy_ok I GOAL (fun _ _ : Z => 3)
                        (Strategy0 := always_roll_strategy 3 _ eq_refl)) Hb.
  rewrite (pbind_Ok _ _ _ (fun _ _ : Z => 8) _) by reflexivity.
  avg_step I Hn (pure_strategy_ok I GOAL (fun _ _ : Z => 8)
                        (Strategy0 := always_roll_strategy 8 _ eq_refl)) Hb.
  avg_step I Hn (pure_strategy_ok I GOAL (fun s o => tail_strategy s o 12 6)) Hb.
  avg_step I Hn (pure_strategy_ok I GOAL (fun s o => square_strategy s o 12 6)) Hb.
  avg_step I Hn (wfinal_strategy_ok (D := D) g0 Hfull) Hb.
  lazymatch goal with
  | |- context [pbind (sweep _ _ _) _ ?w] =>
      destruct (sweep_ok dice g0 Hfull n (fun _ _ : Z => 6) (Strategy0 := always_roll_strategy 6 _ eq_refl)
                  w Hn ltac:(done)) as ([mx mr] & w' & Hs & Hw')
  end.
  rewrite (pbind_Ok _ _ _ _ _ Hs). cbv beta iota. unfold py_print.
  eexists. split; [reflexivity | done].
Qed.

(** ** The hybrid strategy on tables it fills while playing *)

Section Hybrid.
Context {D : Type} (dice : D -> Z * D) `{!SixSided dice} (c : Qc).
Hypothesis Hc : c = 0%Qc \/ c = run_prob_cutoff.

(** The strategy [strat] of [final_strategy_v05(i, j)] keeps the tables
    sound and greedy and answers a dice count in [0..10]. *)
Lemma wfinal_strategy_v05_sound i j :
  strategy_ok (fun w : world D => globals_ok c (w_globals w)) GOAL (wfinal_strategy_v05 i j).
Proof.
  intros s o [gl d out] Hs Ho Hw. cbn [w_globals] in Hw. unfold GOAL in *.
  destruct Hw as (Hpc & Hsnd & Hgr).
  unfold wfinal_strategy_v05, on_globals, final_strategy_v05. cbn [w_globals w_dice w_stdout].
  unfold pbind at 1, pget at 1.
  destruct (s <? o + i); [| destruct (GOAL - j <? s)];
    try (destruct (strat_optimal_branch c s o gl Hpc Hs Ho Hsnd) as (t' & -> & Ht');
         eexists _, _; split; [reflexivity | split; [apply opt_star_move_range | done]]).
  rewrite Hpc.
  destruct (max_score_roll_greedy c s o (g_best_score gl)) as (t' & Hm & Ht' & _);
    [by apply six_is_best_cutoffs | done | done | done |].
  rewrite (on_best_score_Ok _ _ _ _ Hm). eexists _, _. split; [reflexivity |].
  split; [unfold greedy_move; destruct (_ <=? 8); lia | done].
Qed.
End Hybrid.

(** ** Properties *)

(** C34: the command line does not validate the sample count: without
    [-r], or with an empty value, [run] only assigns [prob_cutoff =
    0.001]; a value [int] rejects raises [ValueError]; [-r 0] raises
    [ZeroDivisionError] in [make_averaged]; a negative count makes every
    average [0], so [best_roll] of [max_scoring_num_rolls] is never bound
    and [UnboundLocalError] is raised. *)
Theorem run_cli_errors {D} (dice : D -> Z * D) (w : world D) (s : string) (n : Z) :
  let w' := mk_world (mk_globals (g_best_move (w_globals w)) (g_best_score (w_globals w))
                        (Some run_prob_cutoff)) (w_dice w) (w_stdout w) in
  run dice ArgAbsent w = Ok (tt, w') /\ run dice (ArgValue "") w = Ok (tt, w') /\
  (s <> ""%string -> py_int s = Err ValueError -> run dice (ArgValue s) w = Err ValueError) /\
  (py_int s = Ok n -> n = 0 -> run dice (ArgValue s) w = Err ZeroDivisionError) /\
  (py_int s = Ok n -> n < 0 -> run dice (ArgValue s) w = Err UnboundLocalError).
Proof.
  intros w'. split; [done |]. split; [done |]. split; [| split].
  - intros Hne Hs. unfold run, pbind at 1, on_globals at 1.
    rewrite (proj2 (String.eqb_neq s "") Hne). by rewrite Hs.
  - intros Hs ->. rewrite (run_value dice s 0 w Hs). vm_compute. reflexivity.
  - intros Hs Hn. rewrite (run_value dice s n w Hs).
    unfold run_experiments, pbind at 1, on_dice at 1, max_scoring_num_rolls.
    by rewrite max_rolls_loop_negative by done.
Qed.

(** C35: the script runs to its end on the tables it imports: when
    every cell of [best_move] and [best_score] holds a dice count in
    [0..10], [python3 hog.py -r] and [python3 hog.py -r N] with [int(N)
    > 0] raise nothing (every game of every win-rate estimate ends, the
    stateful [final_strategy] and [final_strategy_v05] strategies
    included) and leave both tables as they were. *)
Theorem run_completes {D} (dice : D -> Z * D) `{!SixSided dice} (w : world D) (s : string) (n : Z) :
  tables_full (w_globals w) ->
  (exists w', run dice ArgBare w = Ok (tt, w') /\
     g_best_move (w_globals w') = g_best_move (w_globals w) /\
     g_best_score (w_globals w') = g_best_score (w_globals w)) /\
  (py_int s = Ok n -> 0 < n -> exists w', run dice (ArgValue s) w = Ok (tt, w') /\
     g_best_move (w_globals w') = g_best_move (w_globals w) /\
     g_best_score (w_globals w') = g_best_score (w_globals w)).
Proof.
  intros Hfull.
  set (w1 := mk_world (mk_globals (g_best_move (w_globals w)) (g_best_score (w_globals w))
                         (Some run_prob_cutoff)) (w_dice w) (w_stdout w)).
  assert (Hrun : forall m, 0 < m -> exists w', run_experiments dice m w1 = Ok (tt, w') /\
            g_best_move (w_globals w') = g_best_move (w_globals w) /\
            g_best_score (w_globals w') = g_best_score (w_globals w)).
  { intros m Hm. destruct (run_experiments_ok dice m w1 Hm Hfull) as (w' & Hr & Hg).
    exists w'. by rewrite Hr, Hg. }
  split.
  - unfold run, pbind at 1, on_globals at 1. cbv beta iota. apply Hrun. lia.
  - intros Hs Hn. rewrite (run_value dice s n w Hs). by apply Hrun.
Qed.

(** C28: the hybrid strategy [final_strategy_v05(i, j)] fills the memo
    tables as it plays: a game of [winner] between it and any strategy,
    in either seat, started from tables that are sound and greedy (the
    fresh tables of a session, or any state they reach) with the exact
    or the script's cutoff, ends without error, names player 0 or 1,
    and leaves both tables sound and greedy. *)
Theorem hybrid_game_keeps_tables {D} (dice : D -> Z * D) `{!SixSided dice} (c : Qc) (i j : Z)
    (baseline : Z -> Z -> Z) `{!Strategy baseline} (w : world D) :
  c = 0%Qc \/ c = run_prob_cutoff -> globals_ok c (w_globals w) ->
  (exists x w', mwinner dice (wfinal_strategy_v05 i j) (pure_strategy baseline) w = Ok (x, w') /\
     0 <= x <= 1 /\ globals_ok c (w_globals w')) /\
  (exists x w', mwinner dice (pure_strategy baseline) (wfinal_strategy_v05 i j) w = Ok (x, w') /\
     0 <= x <= 1 /\ globals_ok c (w_globals w')).
Proof.
  intros Hc Hw.
  pose proof (wfinal_strategy_v05_sound (D := D) c Hc i j) as Hv.
  pose proof (pure_strategy_ok (fun w : world D => globals_ok c (w_globals w)) GOAL baseline) as Hb.
  split; [exact (mwinner_ok dice (fun w : world D => globals_ok c (w_globals w)) (fun gl d d' out H => H)
                   _ _ Hv Hb w Hw) |
           exact (mwinner_ok dice (fun w : world D => globals_ok c (w_globals w)) (fun gl d d' out H => H)
                   _ _ Hb Hv w Hw)].
Qed.

(** ** The properties at concrete inputs *)

Lemma run_cli_errors_witness :
  py_int "-5" = Ok (-5) /\
  run cycling_dice (ArgValue "-5") (mk_world fresh_globals 0 []) = Err UnboundLocalError.
Proof.
  assert (Hs : py_int "-5" = Ok (-5)) by reflexivity.
  split; [exact Hs |].
  exact (proj2 (proj2 (proj2 (proj2 (run_cli_errors cycling_dice (mk_world fresh_globals 0 []) "-5" (-5)))))
           Hs ltac:(lia)).
Defined.

Lemma run_completes_witness :
  let w0 := mk_world (mk_globals (replicate 100 (replicate 100 (Solved 5 0%Qc)))
                                 (replicate 100 (replicate 100 6)) None) 0 [] in
  tables_full (w_globals w0) /\ py_int "10" = Ok 10 /\
  exists w', run cycling_dice (ArgValue "10") w0 = Ok (tt, w') /\
    g_best_move (w_globals w') = g_best_move (w_globals w0) /\
    g_best_score (w_globals w') = g_best_score (w_globals w0).
Proof.
  intros w0.
  assert (Hf : tables_full (w_globals w0)).
  { split; intros i j Hi Hj; [exists 5, 0%Qc | exists 6];
      (split; [apply lookup2_replicate; lia | lia]). }
  assert (Hs : py_int "10" = Ok 10) by reflexivity.
  split; [exact Hf | split; [exact Hs |]].
  exact (proj2 (run_completes cycling_dice w0 "10" 10 Hf) Hs ltac:(lia)).
Defined.

Lemma hybrid_game_keeps_tables_witness :
  globals_ok 0%Qc (w_globals (mk_world fresh_globals 0 [])) /\
  (exists x w', mwinner cycling_dice (wfinal_strategy_v05 10 16) (pure_strategy always_roll_5)
                  (mk_world fresh_globals 0 []) = Ok (x, w') /\ 0 <= x <= 1 /\ globals_ok 0%Qc (w_globals w')) /\
  (exists x w', mwinner cycling_dice (pure_strategy always_roll_5) (wfinal_strategy_v05 10 16)
                  (mk_world fresh_globals 0 []) = Ok (x, w') /\ 0 <= x <= 1 /\ globals_ok 0%Qc (w_globals w')).
Proof.
  split; [exact fresh_globals_ok |].
  exact (hybrid_game_keeps_tables cycling_dice 0%Qc 10 16 always_roll_5 (mk_world fresh_globals 0 [])
           (or_introl eq_refl) fresh_globals_ok).
Defined.
